(** * Purchase-order automation: workflow router and payment policy engine

    A shallow embedding of the Python sources
      - [utils/helpers.py]               (request validation),
      - [mcp_servers/payment_server.py]  (risk score, payment policy,
                                          identifier resolution),
      - [workflows/po_workflow.py]       (stage handlers, router, graph),
      - [mcp_servers/budget_server.py]   (availability, reservations),
      - [mcp_servers/approval_server.py] (approval thresholds),
      - [mcp_servers/supplier_server.py] (supplier checks and listing),
    followed by the properties established about them.

    Conventions.  Python dictionaries with string keys are finite maps
    [gmap string _]; [d.get(k)] is the lookup [d !! k].  Python floats are
    IEEE binary64 numbers ([spec_float] at precision 53).  The arithmetic
    of the payment server is written once over an interface [PyNum] and
    read twice: over binary64, which is what the interpreter runs, and
    over exact rationals, the reading in which the universally quantified
    numeric properties are proved. *)

From Stdlib Require Import ZArith QArith Qround String Ascii DecimalString List Bool Lia Lqa.
From Stdlib Require Import SpecFloat Qminmax.
From stdpp Require Import gmap strings.
Import ListNotations.

Open Scope string_scope.
Open Scope Z_scope.

(* ===================================================================== *)
(** * Python values *)
(* ===================================================================== *)

Module Py.

(** JSON-shaped Python values: what a request dictionary or a tool
    response can hold. *)
#[local] Unset Elimination Schemes.
Inductive PyVal : Type :=
| PyNone
| PyBool (b : bool)
| PyInt (z : Z)
| PyFloat (f : spec_float)
| PyStr (s : string)
| PyList (l : list PyVal)
| PyDict (d : gmap string PyVal).
#[local] Set Elimination Schemes.

(** binary64 *)
Definition prec : Z := 53.
Definition emax : Z := 1024.

Definition f64_of_Z (z : Z) : spec_float := binary_normalize prec emax z 0 false.
Definition f64_zero : spec_float := S754_zero false.

Definition dict_nonempty {V} (d : gmap string V) : bool :=
  negb (Nat.eqb (size d) 0).

Definition str_nonempty (s : string) : bool :=
  match s with EmptyString => false | String _ _ => true end.

Definition list_nonempty {A} (l : list A) : bool :=
  match l with [] => false | _ :: _ => true end.

(** [bool(v)]: the truth value Python gives to [v] in [if v] / [not v]. *)
Definition truthy (v : PyVal) : bool :=
  match v with
  | PyNone => false
  | PyBool b => b
  | PyInt z => negb (z =? 0)
  | PyFloat f => negb (SFeqb f f64_zero)
  | PyStr s => str_nonempty s
  | PyList l => list_nonempty l
  | PyDict d => dict_nonempty d
  end.

(** [bool(d.get(k))] for a key that may be absent ([None] is falsy). *)
Definition truthy_opt (o : option PyVal) : bool :=
  match o with Some v => truthy v | None => false end.

(** [isinstance(v, (int, float))]; [bool] is a subclass of [int]. *)
Definition is_int_or_float (v : PyVal) : bool :=
  match v with
  | PyBool _ | PyInt _ | PyFloat _ => true
  | _ => false
  end.

Definition is_list (v : PyVal) : bool :=
  match v with PyList _ => true | _ => false end.

(** [v <= 0] for a number [v] ([True] is 1 and [False] is 0; every
    comparison with a NaN is false). *)
Definition num_le_zero (v : PyVal) : bool :=
  match v with
  | PyBool b => negb b
  | PyInt z => z <=? 0
  | PyFloat f => SFleb f f64_zero
  | _ => false
  end.

(** [v > 0] for a number [v]. *)
Definition num_gt_zero (v : PyVal) : bool :=
  match v with
  | PyBool b => b
  | PyInt z => 0 <? z
  | PyFloat f => SFltb f64_zero f
  | _ => false
  end.

Definition f64_nan : spec_float := S754_nan.

(** Exceptions, by class, with the text [str(e)] gives. *)
Inductive PyExn : Type :=
| KeyError (key : string)
| AttributeError (msg : string)
| TypeError (msg : string)
| ValueError (msg : string)
| RuntimeError (msg : string)
| Exception_ (msg : string).

Definition str_exn (e : PyExn) : string :=
  match e with
  | KeyError k => ("'" ++ k ++ "'")%string
  | AttributeError m | TypeError m | ValueError m
  | RuntimeError m | Exception_ m => m
  end.

(** A computation that returns or raises. *)
Inductive Res (A : Type) : Type :=
| Ok (a : A)
| Raise (e : PyExn).
Arguments Ok {A} a.
Arguments Raise {A} e.

(** ** Strings (ASCII) *)

(** Whitespace as [str.strip()] sees it, within ASCII: TAB..CR, FS..US
    and the space. *)
Definition is_space (a : ascii) : bool :=
  let n := nat_of_ascii a in
  ((9 <=? n) && (n <=? 13) || (28 <=? n) && (n <=? 32))%nat.

Fixpoint lstrip (s : string) : string :=
  match s with
  | String a rest => if is_space a then lstrip rest else s
  | EmptyString => EmptyString
  end.

Fixpoint str_rev_onto (s acc : string) : string :=
  match s with
  | String a rest => str_rev_onto rest (String a acc)
  | EmptyString => acc
  end.

Definition str_rev (s : string) : string := str_rev_onto s EmptyString.

Definition rstrip (s : string) : string := str_rev (lstrip (str_rev s)).

(** [s.strip()] *)
Definition strip (s : string) : string := rstrip (lstrip s).

Definition upper_ascii (a : ascii) : ascii :=
  let n := nat_of_ascii a in
  if ((97 <=? n) && (n <=? 122))%nat then ascii_of_nat (n - 32) else a.

(** [s.upper()] *)
Fixpoint upper (s : string) : string :=
  match s with
  | String a rest => String (upper_ascii a) (upper rest)
  | EmptyString => EmptyString
  end.

(** [s.startswith(p)] *)
Definition startswith (s p : string) : bool := String.prefix p s.

Definition digit_val (a : ascii) : option Z :=
  let n := nat_of_ascii a in
  if ((48 <=? n) && (n <=? 57))%nat then Some (Z.of_nat (n - 48)) else None.

(** Whitespace as [int()] skips it around an ASCII numeral: TAB..CR
    and the space, but not FS..US. *)
Definition is_int_space (a : ascii) : bool :=
  let n := nat_of_ascii a in
  ((9 <=? n) && (n <=? 13) || (n =? 32))%nat.

Fixpoint skip_int_space (s : string) : string :=
  match s with
  | String a rest => if is_int_space a then skip_int_space rest else s
  | EmptyString => EmptyString
  end.

Fixpoint only_int_space (s : string) : bool :=
  match s with
  | String a rest => is_int_space a && only_int_space rest
  | EmptyString => true
  end.

(** Decimal digits, single underscores allowed between two digits,
    and whitespace after the last digit. *)
Fixpoint digits_acc (s : string) (acc : Z) (after_digit : bool) : option Z :=
  match s with
  | EmptyString => if after_digit then Some acc else None
  | String c rest =>
      match digit_val c with
      | Some d => digits_acc rest (10 * acc + d) true
      | None =>
          if Ascii.eqb c "_"%char && after_digit
          then digits_acc rest acc false
          else if after_digit && only_int_space s then Some acc
          else None
      end
  end.

(** [int(s)] on a string: whitespace, an optional sign, decimal
    digits, whitespace.  [None] stands for the [ValueError]. *)
Definition int_of_str (s : string) : option Z :=
  match skip_int_space s with
  | String "+"%char rest => digits_acc rest 0 false
  | String "-"%char rest => option_map Z.opp (digits_acc rest 0 false)
  | t => digits_acc t 0 false
  end.

(** [str(n)] on an integer. *)
Definition str_of_Z (n : Z) : string :=
  NilZero.string_of_int (Z.to_int n).

Definition newline : string := String (ascii_of_nat 10) EmptyString.

(** [sep.join(parts)] *)
Fixpoint join (sep : string) (parts : list string) : string :=
  match parts with
  | [] => EmptyString
  | [x] => x
  | x :: rest => (x ++ sep ++ join sep rest)%string
  end.

(** [d[k]]: raises [KeyError] on an absent key. *)
Definition subscript {V} (d : gmap string V) (k : string) : Res V :=
  match d !! k with
  | Some v => Ok v
  | None => Raise (KeyError k)
  end.

End Py.
Import Py.

(* ===================================================================== *)
(** * utils/helpers.py *)
(* ===================================================================== *)

Module Helpers.

Definition required_fields : list string :=
  ["supplier_id"; "amount"; "department"; "items"].

(** The [for field in required_fields] loop: the first field that is
    absent or falsy, if any. *)
Fixpoint first_missing (po_request : gmap string PyVal) (fields : list string)
  : option string :=
  match fields with
  | [] => None
  | field :: rest =>
      if negb (truthy_opt (po_request !! field)) then Some field
      else first_missing po_request rest
  end.

(** [validate_po_request(po_request) -> (bool, str)]. *)
Definition validate_po_request (po_request : gmap string PyVal)
  : Res (bool * string) :=
  match first_missing po_request required_fields with
  | Some field => Ok (false, ("Missing required field: " ++ field)%string)
  | None =>
      match subscript po_request "amount" with
      | Raise e => Raise e
      | Ok amount =>
          if negb (is_int_or_float amount) || num_le_zero amount
          then Ok (false, "Amount must be a positive number")
          else
            match subscript po_request "items" with
            | Raise e => Raise e
            | Ok (PyList l) =>
                if (length l =? 0)%nat
                then Ok (false, "Items must be a non-empty list")
                else Ok (true, "Valid")
            | Ok _ => Ok (false, "Items must be a non-empty list")
            end
      end
  end.

End Helpers.

(* ===================================================================== *)
(** * mcp_servers/payment_server.py *)
(* ===================================================================== *)

(** Sequencing of computations that may raise. *)
Definition res_bind {A B} (m : Res A) (k : A -> Res B) : Res B :=
  match m with
  | Ok a => k a
  | Raise e => Raise e
  end.

Declare Scope res_scope.
Delimit Scope res_scope with res.
Notation "'do' x <- m ; k" := (res_bind m (fun x => k))
  (at level 10, x name, m at level 100, k at level 200) : res_scope.

(** The arithmetic Python floats offer to the payment server.  Integer
    literals and integer counts enter through [num_of_Z]; [num_round d x]
    is [round(x, d)]. *)
Class PyNum (F : Type) : Type := {
  num_of_Z : Z -> F;
  num_add : F -> F -> F;
  num_sub : F -> F -> F;
  num_mul : F -> F -> F;
  num_div : F -> F -> F;
  num_eqb : F -> F -> bool;
  num_ltb : F -> F -> bool;
  num_leb : F -> F -> bool;
  num_round : Z -> F -> F
}.

Module Payment.

Inductive Band : Type := LOW | MEDIUM | HIGH | VERY_HIGH.

Definition band_name (b : Band) : string :=
  match b with
  | LOW => "LOW" | MEDIUM => "MEDIUM" | HIGH => "HIGH" | VERY_HIGH => "VERY_HIGH"
  end.

(** A purchase-order reference as a tool receives it: [Union[int, str]]. *)
Inductive PoRef : Type :=
| RefInt (n : Z)
| RefStr (s : string).

(** ** Rows of the aggregate queries

    Each record is the dictionary one SQL statement yields, a column
    being [None] where SQL gives NULL. *)

(** One FLOAT column: [ordered_qty], [received_qty] or [line_total]. *)
Record QtyRow (F : Type) : Type := mkQtyRow { qty : option F }.
Arguments mkQtyRow {F} _.
Arguments qty {F} _.

(** [COUNT( * )] and [SUM(CASE ... THEN 1 ELSE 0 END)]: the total
    ([total_grn], [total_inv], [total_pay]) and the counted cases
    ([on_time], [ok_cnt], [rej_cnt], [fail_cnt]). *)
Record CountRow : Type := mkCountRow {
  total_cnt : option Z;
  hit_cnt : option Z
}.

(** The header row of a purchase order. *)
Record HeadRow (F : Type) : Type := mkHeadRow {
  h_supplier_id : option string;
  h_currency : option string;
  h_exchange_rate : option F;
  h_tax_amount : option F;
  h_freight_amount : option F
}.
Arguments mkHeadRow {F} _ _ _ _ _.
Arguments h_supplier_id {F} _.
Arguments h_currency {F} _.
Arguments h_exchange_rate {F} _.
Arguments h_tax_amount {F} _.
Arguments h_freight_amount {F} _.

(** [_fetch_one(sql, params)], one field per SQL statement of the
    module: it raises when the connection or the statement fails,
    returns [None] when there is no row. *)
Record Db (F : Type) : Type := mkDb {
  ordered_q : option string -> Res (option (QtyRow F));
  received_q : option string -> Res (option (QtyRow F));
  ontime_q : option string -> Res (option CountRow);
  quality_q : option string -> Res (option CountRow);
  inv_q : option string -> Res (option CountRow);
  pay_q : option string -> Res (option CountRow);
  line_q : Z -> Res (option (QtyRow F));
  head_q : Z -> Res (option (HeadRow F));
  exists_q : Z -> Res (option unit)
}.
Arguments mkDb {F} _ _ _ _ _ _ _ _ _.
Arguments ordered_q {F} _ _.
Arguments received_q {F} _ _.
Arguments ontime_q {F} _ _.
Arguments quality_q {F} _ _.
Arguments inv_q {F} _ _.
Arguments pay_q {F} _ _.
Arguments line_q {F} _ _.
Arguments head_q {F} _ _.
Arguments exists_q {F} _ _.

(** ** Identifier resolution *)

(** [_looks_like_request_code(po_ref)]: a reference such as
    ['PO-20250822151755'] or a timestamp-like integer; any exception
    inside is swallowed and gives [False]. *)
Definition _looks_like_request_code (po_ref : PoRef) : bool :=
  match po_ref with
  | RefStr s =>
      if startswith (upper (strip s)) "PO-" then true
      else
        match int_of_str s with
        | Some n => 10000000 <? n
        | None => false
        end
  | RefInt n => 10000000 <? n
  end.

(** [_STATIC_PO_MAP] *)
Definition _STATIC_PO_MAP : gmap string Z :=
  <["SUP001" := 1]> (<["SUP002" := 2]> (<["SUP003" := 3]> (<["SUP999" := 4]> ∅))).

(** [int(po_ref)] *)
Definition int_of_ref (po_ref : PoRef) : option Z :=
  match po_ref with
  | RefInt n => Some n
  | RefStr s => int_of_str s
  end.

(** [_map_request_to_po(po_ref, supplier_id)] *)
Definition _map_request_to_po (po_ref : PoRef) (supplier_id : option string)
  : option Z :=
  match int_of_ref po_ref with
  | Some as_int => Some as_int
  | None =>
      match supplier_id with
      | Some sup =>
          if _looks_like_request_code po_ref && str_nonempty sup then
            let sid := upper (strip sup) in
            match _STATIC_PO_MAP !! sid with
            | Some pid => if negb (pid =? 0) then Some pid else None
            | None => None
            end
          else None
      | None => None
      end
  end.

(** ** Tool replies *)

(** The [{"error": True, "message": ...}] dictionaries of the module,
    by the place that builds them. *)
Inductive PayError : Type :=
| PoNotFound (po_id : Z)
| CannotResolve (po_ref : PoRef)
| PoNotInTable (pid : Z)
| MissingEnv (names : list string)
| SupplierIdRequired
| ToolFailed (tool : string) (e : PyExn).

Definition str_of_ref (r : PoRef) : string :=
  match r with
  | RefInt n => str_of_Z n
  | RefStr s => s
  end.

(** The ["message"] entry. *)
Definition error_message (e : PayError) : string :=
  match e with
  | PoNotFound po_id => "PO " ++ str_of_Z po_id ++ " not found"
  | CannotResolve r =>
      "Cannot resolve '" ++ str_of_ref r ++ "' to a DB po_id. "
      ++ "Pass po_id=1..4 or include supplier_id for static mapping."
  | PoNotInTable pid => "PO " ++ str_of_Z pid ++ " not found in PurchaseOrders.po_id"
  | MissingEnv names =>
      "Missing required environment variables: " ++ join ", " names
  | SupplierIdRequired => "supplier_id is required"
  | ToolFailed tool e => tool ++ " failed: " ++ str_exn e
  end%string.

(** A tool's dictionary: an error entry or the payload. *)
Inductive Reply (A : Type) : Type :=
| Error (e : PayError)
| Success (a : A).
Arguments Error {A} e.
Arguments Success {A} a.

(** [supplier_id or ""] *)
Definition or_empty (s : option string) : string :=
  match s with Some x => x | None => EmptyString end.

Section Core.
Context {F : Type} `{PyNum F}.

Local Notation "x +. y" := (num_add x y) (at level 50, left associativity).
Local Notation "x -. y" := (num_sub x y) (at level 50, left associativity).
Local Notation "x *. y" := (num_mul x y) (at level 40, left associativity).
Local Notation "x /. y" := (num_div x y) (at level 40, left associativity).
Local Notation "# z" := (num_of_Z z) (at level 1, format "# z").

(** [min(a, b)] and [max(a, b)] keep the first argument unless the
    second is strictly smaller, respectively larger. *)
Definition py_min (a b : F) : F := if num_ltb b a then b else a.
Definition py_max (a b : F) : F := if num_ltb a b then b else a.

(** [float(v)] with the fallback of [_safe_float]: a NULL column
    makes [float] raise, and the default is returned. *)
Definition _safe_float (v : option F) (default : F) : F :=
  match v with
  | Some x => x
  | None => default
  end.

(** [int(v or 0)] on a nullable integer column. *)
Definition int_or_0 (v : option Z) : Z :=
  match v with
  | Some z => z
  | None => 0
  end.

Definition _clamp (v lo hi : F) : F := py_max lo (py_min hi v).

Definition _lerp (v x0 x1 y0 y1 : F) : F :=
  if num_eqb x1 x0 then y0
  else
    let t := (v -. x0) /. (x1 -. x0) in
    y0 +. t *. (y1 -. y0).

Definition _risk_band (score : F) : Band :=
  if num_leb #80 score then LOW
  else if num_leb #60 score then MEDIUM
  else if num_leb #40 score then HIGH
  else VERY_HIGH.

Definition _upfront_percent (score : F) : F :=
  let s := _clamp score #0 #100 in
  if num_leb #80 s then #100
  else if num_leb #60 s then _lerp s #60 #79 #70 #85
  else if num_leb #40 s then _lerp s #40 #59 #40 #60
  else _lerp s #0 #39 #0 #30.

Definition _milestone_for_band (band : Band) : string :=
  match band with
  | LOW => "full_upfront"
  | MEDIUM => "balance_on_delivery_confirmation"
  | HIGH => "balance_after_quality_verification"
  | VERY_HIGH => "balance_after_full_delivery_and_quality_check"
  end.

(** ** Supplier risk score *)

Record Metrics : Type := mkMetrics {
  m_ordered_qty : F;
  m_received_qty : F;
  fulfillment_ratio : F;
  ontime_rate : F;
  quality_ok_rate : F;
  invoice_rejection_rate : F;
  payment_failure_rate : F
}.

Record Risk : Type := mkRisk {
  r_supplier_id : option string;
  risk_score : F;
  risk_band : Band;
  metrics : Metrics
}.

(** [(_fetch_one(q, ...) or {}).get(col)] on a one-column row. *)
Definition qty_of (row : option (QtyRow F)) : option F :=
  match row with
  | Some r => qty r
  | None => None
  end.

(** [_fetch_one(q, ...) or {}] on a count row: both columns read
    as [None] when there is no row. *)
Definition counts_of (row : option CountRow) : Z * Z :=
  match row with
  | Some r => (int_or_0 (total_cnt r), int_or_0 (hit_cnt r))
  | None => (0, 0)
  end.

(** [default if total == 0 else _clamp(hits / max(total, 1), 0.0, 1.0)]
    on integer counts.  [/] is true division: the correctly rounded
    quotient, which is the quotient of the two counts as floats as long
    as they are below 2^53.  Here and in [fulfillment_of] the divisor
    is at least 1 (or a NaN), so that no [ZeroDivisionError] arises. *)
Definition count_ratio (default : F) (total hits : Z) : F :=
  if total =? 0 then default
  else _clamp (#hits /. #(Z.max total 1)) #0 #1.

Definition fulfillment_of (ordered_qty received_qty : F) : F :=
  if num_eqb ordered_qty #0 then #1
  else _clamp (received_qty /. py_max ordered_qty #1) #0 #1.

(** The weighted sum of [_compute_supplier_risk_score]. *)
Definition weighted_score (fulfillment ontime quality inv_rej pay_fail : F) : F :=
  #35 *. fulfillment +. #25 *. ontime +. #20 *. quality
  +. #10 *. (#1 -. inv_rej) +. #10 *. (#1 -. pay_fail).

Definition _compute_supplier_risk_score (db : Db F) (supplier_id : option string)
  : Res Risk :=
  (do o_row <- ordered_q db supplier_id;
   let ordered_qty := _safe_float (qty_of o_row) #0 in
   do r_row <- received_q db supplier_id;
   let received_qty := _safe_float (qty_of r_row) #0 in
   let fulfillment := fulfillment_of ordered_qty received_qty in
   do ontime_row <- ontime_q db supplier_id;
   let '(total_grn, on_time) := counts_of ontime_row in
   let ontime := count_ratio #1 total_grn on_time in
   do quality_row <- quality_q db supplier_id;
   let '(q_total, q_ok) := counts_of quality_row in
   let quality_rate := count_ratio #1 q_total q_ok in
   do inv_row <- inv_q db supplier_id;
   let '(inv_total, inv_rej) := counts_of inv_row in
   let inv_rej_rate := count_ratio #0 inv_total inv_rej in
   do pay_row <- pay_q db supplier_id;
   let '(pay_total, pay_fail) := counts_of pay_row in
   let pay_fail_rate := count_ratio #0 pay_total pay_fail in
   let score :=
     weighted_score fulfillment ontime quality_rate inv_rej_rate pay_fail_rate in
   Ok {| r_supplier_id := supplier_id;
         risk_score := num_round 2 score;
         risk_band := _risk_band score;
         metrics :=
           {| m_ordered_qty := ordered_qty;
              m_received_qty := received_qty;
              fulfillment_ratio := num_round 3 fulfillment;
              ontime_rate := num_round 3 ontime;
              quality_ok_rate := num_round 3 quality_rate;
              invoice_rejection_rate := num_round 3 inv_rej_rate;
              payment_failure_rate := num_round 3 pay_fail_rate |} |})%res.

(** ** Purchase-order total and payment plan *)

Record Base : Type := mkBase {
  b_po_id : Z;
  b_supplier_id : option string;
  b_currency : option string;
  b_exchange_rate : F;
  b_line_total : F;
  b_tax_amount : F;
  b_freight_amount : F;
  b_total_po_amount : F;
  b_total_in_inr : F
}.

Definition _compute_base_po_amount (db : Db F) (po_id : Z) : Res (Reply Base) :=
  (do line_row <- line_q db po_id;
   do head_row <- head_q db po_id;
   match head_row with
   | None => Ok (Error (PoNotFound po_id))
   | Some head =>
       let line_total := _safe_float (qty_of line_row) #0 in
       let tax_amt := _safe_float (h_tax_amount head) #0 in
       let freight_amt := _safe_float (h_freight_amount head) #0 in
       let ex_rate := _safe_float (h_exchange_rate head) #1 in
       let total_base := line_total +. tax_amt +. freight_amt in
       let total_in_inr := total_base *. ex_rate in
       Ok (Success
             {| b_po_id := po_id;
                b_supplier_id := h_supplier_id head;
                b_currency := h_currency head;
                b_exchange_rate := ex_rate;
                b_line_total := num_round 2 line_total;
                b_tax_amount := num_round 2 tax_amt;
                b_freight_amount := num_round 2 freight_amt;
                b_total_po_amount := num_round 2 total_base;
                b_total_in_inr := num_round 2 total_in_inr |})
   end)%res.

Record Policy : Type := mkPolicy {
  band : Band;
  upfront_percent : F;
  balance_percent : F;
  milestone : string;
  policy_version : string
}.

Record Plan : Type := mkPlan {
  p_po_id : Z;
  p_supplier_id : option string;
  p_currency : option string;
  p_exchange_rate : F;
  p_totals : Base;
  total_in_inr : F;
  risk : Risk;
  policy : Policy;
  upfront_amount : F;
  balance_amount : F
}.

Definition _recommend_payment_plan (db : Db F) (po_id : Z) : Res (Reply Plan) :=
  (do base_r <- _compute_base_po_amount db po_id;
   match base_r with
   | Error e => Ok (Error e)
   | Success base =>
       let supplier_id := b_supplier_id base in
       do risk <- _compute_supplier_risk_score db supplier_id;
       let score := risk_score risk in
       let band := risk_band risk in
       let upfront_pct := _upfront_percent score in
       let total := b_total_in_inr base in
       let upfront_amt := num_round 2 (total *. upfront_pct /. #100) in
       let balance_amt := num_round 2 (total -. upfront_amt) in
       Ok (Success
             {| p_po_id := po_id;
                p_supplier_id := supplier_id;
                p_currency := b_currency base;
                p_exchange_rate := b_exchange_rate base;
                p_totals := base;
                total_in_inr := total;
                risk := risk;
                policy :=
                  {| band := band;
                     upfront_percent := num_round 2 upfront_pct;
                     balance_percent := num_round 2 (#100 -. upfront_pct);
                     milestone := _milestone_for_band band;
                     policy_version := "2025-08-21" |};
                upfront_amount := upfront_amt;
                balance_amount := balance_amt |})
   end)%res.

(** [_po_exists(db_po_id)] *)
Definition _po_exists (db : Db F) (db_po_id : Z) : Res bool :=
  (do row <- exists_q db db_po_id;
   Ok (match row with Some _ => true | None => false end))%res.

(** ** Tools *)

(** [compute_supplier_risk(supplier_id)] *)
Definition compute_supplier_risk (db : Db F) (supplier_id : option string)
  : Reply Risk :=
  let sid := strip (or_empty supplier_id) in
  if negb (str_nonempty sid) then Error SupplierIdRequired
  else
    match _compute_supplier_risk_score db (Some sid) with
    | Ok r => Success r
    | Raise e => Error (ToolFailed "compute_supplier_risk" e)
    end.

(** [recommend_payment_plan(po_id, supplier_id)]; [missing] is what
    [_missing_env()] returns. *)
Definition recommend_payment_plan (missing : list string) (db : Db F)
    (po_id : PoRef) (supplier_id : option string) : Reply Plan :=
  if list_nonempty missing then Error (MissingEnv missing)
  else
    match _map_request_to_po po_id supplier_id with
    | None => Error (CannotResolve po_id)
    | Some pid =>
        if pid =? 0 then Error (CannotResolve po_id)
        else
          match _po_exists db pid with
          | Raise e => Error (ToolFailed "recommend_payment_plan" e)
          | Ok false => Error (PoNotInTable pid)
          | Ok true =>
              match _recommend_payment_plan db pid with
              | Raise e => Error (ToolFailed "recommend_payment_plan" e)
              | Ok r => r
              end
          end
    end.

(** [calculate_base_payment(po_id, supplier_id)] *)
Definition calculate_base_payment (db : Db F)
    (po_id : PoRef) (supplier_id : option string) : Reply Base :=
  match _map_request_to_po po_id supplier_id with
  | None => Error (CannotResolve po_id)
  | Some pid =>
      if pid =? 0 then Error (CannotResolve po_id)
      else
        match _po_exists db pid with
        | Raise e => Error (ToolFailed "calculate_base_payment" e)
        | Ok false => Error (PoNotInTable pid)
        | Ok true =>
            match _compute_base_po_amount db pid with
            | Raise e => Error (ToolFailed "calculate_base_payment" e)
            | Ok r => r
            end
        end
  end.

End Core.
End Payment.

(* ===================================================================== *)
(** * The two readings of the arithmetic *)
(* ===================================================================== *)

(** Round half to even, to an integer. *)
Definition round_half_even (q : Q) : Z :=
  let n := Qfloor q in
  match Qcompare (q - inject_Z n) (1 # 2) with
  | Lt => n
  | Gt => n + 1
  | Eq => if Z.even n then n else n + 1
  end.

(** ** Exact rationals *)

Module Exact.

(** [round(q, d)] for [d >= 0]. *)
Definition q_round (d : Z) (q : Q) : Q :=
  inject_Z (round_half_even (q * inject_Z (10 ^ d))) / inject_Z (10 ^ d).

#[export] Instance num : PyNum Q := {|
  num_of_Z := inject_Z;
  num_add := Qplus;
  num_sub := Qminus;
  num_mul := Qmult;
  num_div := Qdiv;
  num_eqb := Qeq_bool;
  num_ltb := fun a b => negb (Qle_bool b a);
  num_leb := Qle_bool;
  num_round := q_round
|}.

End Exact.

(** ** IEEE binary64 *)

Module B64.

Definition add := SFadd prec emax.
Definition sub := SFsub prec emax.
Definition mul := SFmul prec emax.
Definition div := SFdiv prec emax.

(** The rational a finite binary64 number stands for. *)
Definition to_Q (x : spec_float) : Q :=
  match x with
  | S754_finite s m e =>
      let v := if 0 <=? e then inject_Z (Zpos m * 2 ^ e)
               else Zpos m # (2 ^ Z.to_pos (- e)) in
      if s then - v else v
  | _ => 0
  end%Q.

(** [round(x, d)] for [d >= 0], as CPython computes it: the decimal
    with [d] fractional digits nearest to the exact value of [x] (ties
    to even), then the binary64 number nearest to that decimal.  An
    integral [x], a zero, an infinity and a NaN are returned as they
    are. *)
Definition round (d : Z) (x : spec_float) : spec_float :=
  match x with
  | S754_finite s m e =>
      if 0 <=? e then x
      else
        match round_half_even (inject_Z (Zpos m * 10 ^ d) / inject_Z (2 ^ (- e))) with
        | Zpos n => div (S754_finite s n 0) (f64_of_Z (10 ^ d))
        | _ => S754_zero s
        end
  | _ => x
  end.

#[export] Instance num : PyNum spec_float := {|
  num_of_Z := f64_of_Z;
  num_add := add;
  num_sub := sub;
  num_mul := mul;
  num_div := div;
  num_eqb := SFeqb;
  num_ltb := SFltb;
  num_leb := SFleb;
  num_round := round
|}.

(** The binary64 number nearest to the decimal [n / 10^d]. *)
Definition dec (n d : Z) : spec_float := div (f64_of_Z n) (f64_of_Z (10 ^ d)).

End B64.

(* ===================================================================== *)
(** * workflows/po_workflow.py *)
(* ===================================================================== *)

Module Workflow.

(** ** The workflow state ([workflow_state.py]) *)

Inductive Message : Type :=
| HumanMessage (content : string)
| SystemMessage (content : string)
| AIMessage (content : string).

(** [POWorkflowState] is a [TypedDict] with [total=False]: a key read
    through [state.get] or a subscript may be absent, which is [None]
    here.  [messages], [po_request] and [errors] are created by
    [process_po] and only ever extended. *)
Record POWorkflowState : Type := mkState {
  messages : list Message;
  po_request : gmap string PyVal;
  po_id : option string;
  supplier_validation : option (gmap string PyVal);
  budget_check : option (gmap string PyVal);
  approval_status : option (gmap string PyVal);
  payment_plan : option (gmap string PyVal);
  payment_attempted : option bool;
  notifications : option (list PyVal);
  final_decision : option string;
  decision_reason : option string;
  processing_time : option spec_float;
  errors : list string
}.

Definition set_messages v (s : POWorkflowState) :=
  mkState v (po_request s) (po_id s) (supplier_validation s) (budget_check s)
    (approval_status s) (payment_plan s) (payment_attempted s) (notifications s)
    (final_decision s) (decision_reason s) (processing_time s) (errors s).
Definition set_po_request v (s : POWorkflowState) :=
  mkState (messages s) v (po_id s) (supplier_validation s) (budget_check s)
    (approval_status s) (payment_plan s) (payment_attempted s) (notifications s)
    (final_decision s) (decision_reason s) (processing_time s) (errors s).
Definition set_po_id v (s : POWorkflowState) :=
  mkState (messages s) (po_request s) v (supplier_validation s) (budget_check s)
    (approval_status s) (payment_plan s) (payment_attempted s) (notifications s)
    (final_decision s) (decision_reason s) (processing_time s) (errors s).
Definition set_supplier_validation v (s : POWorkflowState) :=
  mkState (messages s) (po_request s) (po_id s) v (budget_check s)
    (approval_status s) (payment_plan s) (payment_attempted s) (notifications s)
    (final_decision s) (decision_reason s) (processing_time s) (errors s).
Definition set_budget_check v (s : POWorkflowState) :=
  mkState (messages s) (po_request s) (po_id s) (supplier_validation s) v
    (approval_status s) (payment_plan s) (payment_attempted s) (notifications s)
    (final_decision s) (decision_reason s) (processing_time s) (errors s).
Definition set_approval_status v (s : POWorkflowState) :=
  mkState (messages s) (po_request s) (po_id s) (supplier_validation s) (budget_check s)
    v (payment_plan s) (payment_attempted s) (notifications s)
    (final_decision s) (decision_reason s) (processing_time s) (errors s).
Definition set_payment_plan v (s : POWorkflowState) :=
  mkState (messages s) (po_request s) (po_id s) (supplier_validation s) (budget_check s)
    (approval_status s) v (payment_attempted s) (notifications s)
    (final_decision s) (decision_reason s) (processing_time s) (errors s).
Definition set_payment_attempted v (s : POWorkflowState) :=
  mkState (messages s) (po_request s) (po_id s) (supplier_validation s) (budget_check s)
    (approval_status s) (payment_plan s) v (notifications s)
    (final_decision s) (decision_reason s) (processing_time s) (errors s).
Definition set_notifications v (s : POWorkflowState) :=
  mkState (messages s) (po_request s) (po_id s) (supplier_validation s) (budget_check s)
    (approval_status s) (payment_plan s) (payment_attempted s) v
    (final_decision s) (decision_reason s) (processing_time s) (errors s).
Definition set_final_decision v (s : POWorkflowState) :=
  mkState (messages s) (po_request s) (po_id s) (supplier_validation s) (budget_check s)
    (approval_status s) (payment_plan s) (payment_attempted s) (notifications s)
    v (decision_reason s) (processing_time s) (errors s).
Definition set_decision_reason v (s : POWorkflowState) :=
  mkState (messages s) (po_request s) (po_id s) (supplier_validation s) (budget_check s)
    (approval_status s) (payment_plan s) (payment_attempted s) (notifications s)
    (final_decision s) v (processing_time s) (errors s).
Definition set_processing_time v (s : POWorkflowState) :=
  mkState (messages s) (po_request s) (po_id s) (supplier_validation s) (budget_check s)
    (approval_status s) (payment_plan s) (payment_attempted s) (notifications s)
    (final_decision s) (decision_reason s) v (errors s).
Definition set_errors v (s : POWorkflowState) :=
  mkState (messages s) (po_request s) (po_id s) (supplier_validation s) (budget_check s)
    (approval_status s) (payment_plan s) (payment_attempted s) (notifications s)
    (final_decision s) (decision_reason s) (processing_time s) v.

(** ** The router *)

(** The strings [should_continue] returns. *)
Inductive Route : Type :=
| R_check_supplier
| R_verify_budget
| R_process_approval
| R_calculate_payment
| R_send_notifications
| R_END.

Definition dict_truthy (o : option (gmap string PyVal)) : bool :=
  match o with Some d => dict_nonempty d | None => false end.
Definition bool_truthy (o : option bool) : bool :=
  match o with Some b => b | None => false end.
Definition str_truthy (o : option string) : bool :=
  match o with Some s => str_nonempty s | None => false end.
Definition list_truthy {A} (o : option (list A)) : bool :=
  match o with Some l => list_nonempty l | None => false end.

(** [should_continue(state)]: every test is the truth value of
    [state.get(key)]. *)
Definition should_continue (state : POWorkflowState) : Route :=
  if negb (dict_truthy (supplier_validation state)) then R_check_supplier
  else if negb (dict_truthy (budget_check state)) then R_verify_budget
  else if negb (dict_truthy (approval_status state)) then R_process_approval
  else if negb (dict_truthy (payment_plan state))
          && negb (bool_truthy (payment_attempted state))
       then R_calculate_payment
  else if str_truthy (final_decision state)
          && negb (list_truthy (notifications state))
       then R_send_notifications
  else R_END.

(** ** Collaborators and built-ins *)

(** A tool object as [mcp_client.get_tools] lists it, with the
    attributes [get_tools_safe] looks for. *)
Record ToolObj (Tool : Type) : Type := mkToolObj {
  obj_name : option string;
  obj_dunder_name : option string;
  obj_tool : Tool
}.
Arguments mkToolObj {Tool} _ _ _.
Arguments obj_name {Tool} _.
Arguments obj_dunder_name {Tool} _.
Arguments obj_tool {Tool} _.

(** What [mcp_client.get_tools] may return. *)
Inductive RawTools (Tool : Type) : Type :=
| RawList (l : list (ToolObj Tool))
| RawDict (d : gmap string Tool)
| RawOther.
Arguments RawList {Tool} l.
Arguments RawDict {Tool} d.
Arguments RawOther {Tool}.

(** What [get_tools_safe] returns: a dictionary of tools, or an object
    that is none (a bare tool, or whatever the client gave). *)
Inductive Tools (Tool : Type) : Type :=
| ToolsDict (d : gmap string Tool)
| ToolsOther.
Arguments ToolsDict {Tool} d.
Arguments ToolsOther {Tool}.

(** Python built-ins the handlers call: [json.loads] ([None] for a
    [JSONDecodeError]), [str], [str(type(_))] and [format(v, spec)]. *)
Record Builtins : Type := mkBuiltins {
  json_loads : string -> option PyVal;
  py_str : PyVal -> string;
  py_type : PyVal -> string;
  py_format : PyVal -> string -> Res string
}.

(** The world outside the orchestrator: the MCP client and its tools,
    the language model and the clock.  Every call may change it. *)
Record Collab (World Tool : Type) : Type := mkCollab {
  get_tools : string -> World -> Res (RawTools Tool) * World;
  ainvoke : Tool -> PyVal -> World -> Res PyVal * World;
  llm_ainvoke : string -> World -> Res string * World;
  now_isoformat : World -> string * World;
  now_strftime : World -> string * World;
  time_time : World -> spec_float * World
}.
Arguments get_tools {World Tool} _ _ _.
Arguments ainvoke {World Tool} _ _ _ _.
Arguments llm_ainvoke {World Tool} _ _ _.
Arguments now_isoformat {World Tool} _ _.
Arguments now_strftime {World Tool} _ _.
Arguments time_time {World Tool} _ _.

(** ** A monad for handler bodies

    A handler body runs over the world and the state dictionary; it
    ends normally, by [return state], or by an exception.  The state
    is kept in every case: Python mutates the dictionary in place. *)

Inductive Ctl (A : Type) : Type :=
| Norm (a : A)
| Ret
| Exc (e : PyExn).
Arguments Norm {A} a.
Arguments Ret {A}.
Arguments Exc {A} e.

Definition M (World A : Type) : Type :=
  World * POWorkflowState -> Ctl A * (World * POWorkflowState).

Definition ret {W A} (a : A) : M W A := fun s => (Norm a, s).

Definition bind {W A B} (m : M W A) (k : A -> M W B) : M W B :=
  fun s =>
    match m s with
    | (Norm a, s') => k a s'
    | (Ret, s') => (Ret, s')
    | (Exc e, s') => (Exc e, s')
    end.

Definition raise {W A} (e : PyExn) : M W A := fun s => (Exc e, s).

(** [return state] *)
Definition return_state {W A} : M W A := fun s => (Ret, s).

Definition get_state {W} : M W POWorkflowState := fun s => (Norm (snd s), s).

Definition modify {W} (f : POWorkflowState -> POWorkflowState) : M W unit :=
  fun s => (Norm tt, (fst s, f (snd s))).

Definition lift_res {W A} (r : Res A) : M W A :=
  match r with
  | Ok a => ret a
  | Raise e => raise e
  end.

(** A call into the world that may raise. *)
Definition call {W A} (f : W -> Res A * W) : M W A :=
  fun s =>
    match f (fst s) with
    | (Ok a, w) => (Norm a, (w, snd s))
    | (Raise e, w) => (Exc e, (w, snd s))
    end.

(** A call into the world that does not raise. *)
Definition call_total {W A} (f : W -> A * W) : M W A :=
  fun s => let '(a, w) := f (fst s) in (Norm a, (w, snd s)).

(** [try: body / except Exception as e: handler(e)] *)
Definition try_except {W A} (body : M W A) (handler : PyExn -> M W A) : M W A :=
  fun s =>
    match body s with
    | (Exc e, s') => handler e s'
    | r => r
    end.

(** [try: body / finally: final]; [final] is a plain statement. *)
Definition try_finally {W A} (body : M W A) (final : M W unit) : M W A :=
  fun s =>
    match body s with
    | (c, s') =>
        match final s' with
        | (Norm _, s'') => (c, s'')
        | (Ret, s'') => (Ret, s'')
        | (Exc e, s'') => (Exc e, s'')
        end
    end.

(** The end of a handler: [return state] and falling off the body
    both hand the state back; an exception nothing caught escapes. *)
Definition run_handler {W} (body : M W unit) (w : W) (state : POWorkflowState)
  : option PyExn * (W * POWorkflowState) :=
  match body (w, state) with
  | (Exc e, s') => (Some e, s')
  | (_, s') => (None, s')
  end.

Declare Scope py_scope.
Delimit Scope py_scope with py.
Notation "x <- m ;; k" := (bind m (fun x => k))
  (at level 100, m at next level, right associativity) : py_scope.
Notation "m ;; k" := (bind m (fun _ => k))
  (at level 100, right associativity) : py_scope.

(** ** Operations on Python values *)

Definition type_name (v : PyVal) : string :=
  match v with
  | PyNone => "NoneType" | PyBool _ => "bool" | PyInt _ => "int"
  | PyFloat _ => "float" | PyStr _ => "str" | PyList _ => "list"
  | PyDict _ => "dict"
  end.

(** [v.get(k, default)]: only a dictionary has [get]. *)
Definition py_get (v : PyVal) (k : string) (default : PyVal) : Res PyVal :=
  match v with
  | PyDict d => Ok (match d !! k with Some x => x | None => default end)
  | _ => Raise (AttributeError
                  ("'" ++ type_name v ++ "' object has no attribute 'get'")%string)
  end.

(** [v[k]] with a string key. *)
Definition py_subscript (v : PyVal) (k : string) : Res PyVal :=
  match v with
  | PyDict d => subscript d k
  | PyStr _ => Raise (TypeError "string indices must be integers")
  | PyList _ => Raise (TypeError "list indices must be integers or slices, not str")
  | _ => Raise (TypeError ("'" ++ type_name v ++ "' object is not subscriptable")%string)
  end.

Fixpoint all_strs (l : list PyVal) : option (list string) :=
  match l with
  | [] => Some []
  | PyStr s :: rest => option_map (cons s) (all_strs rest)
  | _ :: _ => None
  end.

Fixpoint chars (s : string) : list string :=
  match s with
  | EmptyString => []
  | String a rest => String a EmptyString :: chars rest
  end.

(** The first item of a list that is no string, with its index. *)
Fixpoint first_non_str (l : list PyVal) (i : Z) : option (Z * PyVal) :=
  match l with
  | [] => None
  | PyStr _ :: rest => first_non_str rest (i + 1)
  | v :: _ => Some (i, v)
  end.

(** [sep.join(v)] *)
Definition py_join (sep : string) (v : PyVal) : Res string :=
  match v with
  | PyList l =>
      match first_non_str l 0 with
      | None => Ok (join sep (omap (fun v => match v with PyStr s => Some s | _ => None end) l))
      | Some (i, item) =>
          Raise (TypeError ("sequence item " ++ str_of_Z i ++ ": expected str instance, "
                            ++ type_name item ++ " found")%string)
      end
  | PyStr s => Ok (join sep (chars s))
  | PyDict d => Ok (join sep (map fst (map_to_list d)))
  | _ => Raise (TypeError "can only join an iterable")
  end.

Definition error_dict (message : string) : PyVal :=
  PyDict (<["error" := PyBool true]> (<["message" := PyStr message]> ∅)).

Definition dict_of (entries : list (string * PyVal)) : PyVal :=
  PyDict (list_to_map entries).

Definition opt_str (o : option string) : PyVal :=
  match o with Some s => PyStr s | None => PyNone end.

Section Handlers.
Context {World Tool : Type} (B : Builtins) (C : Collab World Tool).

Local Open Scope py_scope.

(** [f"{v}"] *)
Definition fstr (v : PyVal) : string :=
  match v with
  | PyStr s => s
  | _ => py_str B v
  end.

(** [format_currency(amount)] of [utils/helpers.py] *)
Definition format_currency (amount : PyVal) : Res string :=
  match py_format B amount ",.2f" with
  | Ok t => Ok ("$" ++ t)%string
  | Raise e => Raise e
  end.

(** [_handle_tool_response(response, tool_name)] *)
Definition _handle_tool_response (response : PyVal) (tool_name : string) : PyVal :=
  match response with
  | PyStr text =>
      match json_loads B text with
      | Some parsed_response => parsed_response
      | None => error_dict text
      end
  | PyDict _ => response
  | PyList (first :: _) =>
      match first with
      | PyDict _ => first
      | _ => error_dict (py_str B response)
      end
  | _ => error_dict ("Unexpected response type: " ++ py_type B response)%string
  end.

(** The loop of [get_tools_safe] that files each tool under its
    [name], else under its [__name__]. *)
Definition tool_dict_of (tools : list (ToolObj Tool)) : gmap string Tool :=
  fold_left
    (fun d tool =>
       match obj_name tool, obj_dunder_name tool with
       | Some n, _ => <[n := obj_tool tool]> d
       | None, Some n => <[n := obj_tool tool]> d
       | None, None => d
       end)
    tools ∅.

(** [get_tools_safe(server_name)] *)
Definition get_tools_safe (server_name : string) : M World (Tools Tool) :=
  try_except
    (tools <- call (get_tools C server_name) ;;
     match tools with
     | RawList [] => ret (ToolsDict ∅)
     | RawList l =>
         let tool_dict := tool_dict_of l in
         if dict_nonempty tool_dict then ret (ToolsDict tool_dict)
         else ret ToolsOther
     | RawDict d => ret (ToolsDict d)
     | RawOther => ret ToolsOther
     end)
    (fun _ => ret (ToolsDict ∅)).

(** [tools.get(name)] *)
Definition tools_get (tools : Tools Tool) (name : string) : M World (option Tool) :=
  match tools with
  | ToolsDict d => ret (d !! name)
  | ToolsOther => raise (AttributeError "object has no attribute 'get'")
  end.

(** [list(tools.keys())], as text, in the messages about a missing
    tool. *)
Definition available (tools : Tools Tool) : string :=
  match tools with
  | ToolsDict d => py_str B (PyList (map (fun kv => PyStr (fst kv)) (map_to_list d)))
  | ToolsOther => "object"
  end.

(** [state[key]] for a key of the state dictionary. *)
Definition state_item {A} (key : string) (field : POWorkflowState -> option A) : M World A :=
  state <- get_state ;;
  match field state with
  | Some v => ret v
  | None => raise (KeyError key)
  end.

(** [state["po_request"][key]] *)
Definition request_item (key : string) : M World PyVal :=
  state <- get_state ;; lift_res (subscript (po_request state) key).

Definition append_message (m : Message) : M World unit :=
  modify (fun s => set_messages (messages s ++ [m]) s).

Definition append_error (msg : string) : M World unit :=
  modify (fun s => set_errors (errors s ++ [msg]) s).

Definition decide_ (decision : string) : M World unit :=
  modify (set_final_decision (Some decision)).

Definition explain (reason : string) : M World unit :=
  modify (set_decision_reason (Some reason)).

(** The [except Exception as e] block the four deciding stages
    share: log the error, decide ERROR. *)
Definition stage_failed (prefix : string) (e : PyExn) : M World unit :=
  let error_msg := (prefix ++ str_exn e)%string in
  append_error error_msg ;;
  decide_ "ERROR" ;;
  explain error_msg.

Definition as_dict (v : PyVal) : Res (gmap string PyVal) :=
  match v with
  | PyDict d => Ok d
  | _ => Raise (TypeError ("'" ++ type_name v ++ "' object is not a mapping")%string)
  end.

Definition get_or (d : gmap string PyVal) (k : string) (default : PyVal) : PyVal :=
  match d !! k with Some v => v | None => default end.

(** ** Stage handlers *)

(** The optional analysis of [validate_po_request]: build the
    prompt, ask the model, record its answer. *)
Definition llm_analysis : M World unit :=
  state <- get_state ;;
  pid <- state_item "po_id" po_id ;;
  amount <- lift_res (format_currency (get_or (po_request state) "amount" (PyInt 0))) ;;
  let analysis_prompt :=
    ("Analyze this Purchase Order request briefly: PO ID: " ++ pid
     ++ " Supplier: " ++ fstr (get_or (po_request state) "supplier_id" PyNone)
     ++ " Amount: " ++ amount
     ++ " Department: " ++ fstr (get_or (po_request state) "department" PyNone)
     ++ " Provide a brief analysis in 1-2 sentences.")%string in
  content <- call (llm_ainvoke C analysis_prompt) ;;
  append_message (AIMessage ("AI Analysis: " ++ content)%string).

Definition validate_body : M World unit :=
  state <- get_state ;;
  (if negb (str_truthy (po_id state)) then
     stamp <- call_total (now_strftime C) ;;
     let new_id := ("PO-" ++ stamp)%string in
     modify (set_po_id (Some new_id)) ;;
     modify (fun s => set_po_request (<["po_id" := PyStr new_id]> (po_request s)) s)
   else ret tt) ;;
  state <- get_state ;;
  verdict <- lift_res (Helpers.validate_po_request (po_request state)) ;;
  let '(is_valid, validation_message) := verdict in
  if negb is_valid then
    decide_ "REJECTED" ;;
    explain ("Validation failed: " ++ validation_message)%string ;;
    append_error validation_message ;;
    return_state
  else
    try_except llm_analysis (fun _ => ret tt) ;;
    pid <- state_item "po_id" po_id ;;
    amount <- request_item "amount" ;;
    text <- lift_res (format_currency amount) ;;
    append_message
      (SystemMessage ("PO " ++ pid ++ " validated successfully. Amount: " ++ text)%string).

(** [validate_po_request(state)], the entry node. *)
Definition validate_po_request : M World unit :=
  start_time <- call_total (time_time C) ;;
  try_finally
    (try_except validate_body (stage_failed "Error during PO validation: "))
    (now <- call_total (time_time C) ;;
     modify (set_processing_time (Some (B64.sub now start_time)))).

(** The rejection of [check_supplier] on a negative answer: every
    failing check contributes a reason. *)
Definition reject_supplier (supplier_result capacity_result order_amount : PyVal)
    (is_valid capacity_ok : PyVal) : M World unit :=
  r1 <- (if negb (truthy is_valid) then
           m <- lift_res (py_get supplier_result "message"
                            (PyStr "Supplier validation failed")) ;;
           ret [m]
         else ret []) ;;
  r2 <- (if negb (truthy capacity_ok) then
           max_cap <- lift_res (py_get capacity_result "max_capacity" (PyInt 0)) ;;
           a <- lift_res (format_currency order_amount) ;;
           b <- lift_res (format_currency max_cap) ;;
           ret [PyStr ("Order exceeds capacity: " ++ a ++ " > " ++ b)%string]
         else ret []) ;;
  decide_ "REJECTED" ;;
  reasons <- lift_res (py_join "; " (PyList (r1 ++ r2))) ;;
  explain ("Supplier validation failed: " ++ reasons)%string ;;
  return_state.

Definition check_supplier_body : M World unit :=
  supplier_tools <- get_tools_safe "supplier" ;;
  supplier_id <- request_item "supplier_id" ;;
  order_amount <- request_item "amount" ;;
  validate_tool <- tools_get supplier_tools "validate_supplier" ;;
  capacity_tool <- tools_get supplier_tools "check_supplier_capacity" ;;
  match validate_tool, capacity_tool with
  | Some validate_tool, Some capacity_tool =>
      raw_supplier_result <-
        call (ainvoke C validate_tool (dict_of [("supplier_id", supplier_id)])) ;;
      raw_capacity_result <-
        call (ainvoke C capacity_tool
                (dict_of [("supplier_id", supplier_id); ("order_value", order_amount)])) ;;
      let supplier_result :=
        _handle_tool_response raw_supplier_result "validate_supplier" in
      let capacity_result :=
        _handle_tool_response raw_capacity_result "check_supplier_capacity" in
      checked_at <- call_total (now_isoformat C) ;;
      modify (set_supplier_validation
                (Some (list_to_map [("validation", supplier_result);
                                    ("capacity", capacity_result);
                                    ("checked_at", PyStr checked_at)]))) ;;
      supplier_error <- lift_res (py_get supplier_result "error" (PyBool false)) ;;
      if truthy supplier_error then
        decide_ "REJECTED" ;;
        message <- lift_res (py_get supplier_result "message" (PyStr "Unknown error")) ;;
        explain ("Supplier validation error: " ++ fstr message)%string ;;
        return_state
      else
        capacity_error <- lift_res (py_get capacity_result "error" (PyBool false)) ;;
        if truthy capacity_error then
          decide_ "REJECTED" ;;
          message <- lift_res (py_get capacity_result "message" (PyStr "Unknown error")) ;;
          explain ("Supplier capacity check error: " ++ fstr message)%string ;;
          return_state
        else
          is_valid <- lift_res (py_get supplier_result "valid" (PyBool false)) ;;
          capacity_ok <- lift_res (py_get capacity_result "capacity_ok" (PyBool false)) ;;
          if negb (truthy is_valid) || negb (truthy capacity_ok) then
            reject_supplier supplier_result capacity_result order_amount
              is_valid capacity_ok
          else
            append_message
              (SystemMessage
                 ("Supplier " ++ fstr supplier_id ++ " validated successfully")%string)
  | _, _ =>
      raise (Exception_ ("Required supplier tools not found. Available: "
                         ++ available supplier_tools)%string)
  end.

(** [check_supplier(state)] *)
Definition check_supplier : M World unit :=
  _ <- state_item "po_id" po_id ;;
  try_except check_supplier_body (stage_failed "Error during supplier validation: ").

(** The best-effort reservation of [verify_budget]. *)
Definition reserve (reserve_tool : Tool) (department_id amount : PyVal) : M World unit :=
  pid <- state_item "po_id" po_id ;;
  raw_reserve_result <-
    call (ainvoke C reserve_tool
            (dict_of [("department_id", department_id); ("amount", amount);
                      ("po_id", PyStr pid)])) ;;
  let reserve_result := _handle_tool_response raw_reserve_result "reserve_budget" in
  reserve_error <- lift_res (py_get reserve_result "error" (PyBool false)) ;;
  if negb (truthy reserve_error) then
    reserved <- lift_res (py_get reserve_result "reserved" (PyBool false)) ;;
    if truthy reserved then
      budget <- state_item "budget_check" budget_check ;;
      modify (set_budget_check (Some (<["reservation" := reserve_result]> budget))) ;;
      text <- lift_res (format_currency amount) ;;
      append_message (SystemMessage ("Budget reserved: " ++ text)%string)
    else ret tt
  else ret tt.

Definition verify_budget_body : M World unit :=
  budget_tools <- get_tools_safe "budget" ;;
  department_id <- request_item "department" ;;
  amount <- request_item "amount" ;;
  check_tool <- tools_get budget_tools "check_budget_availability" ;;
  reserve_tool <- tools_get budget_tools "reserve_budget" ;;
  match check_tool with
  | None =>
      raise (Exception_ ("Budget check tool not found. Available: "
                         ++ available budget_tools)%string)
  | Some check_tool =>
      raw_budget_result <-
        call (ainvoke C check_tool
                (dict_of [("department_id", department_id); ("amount", amount)])) ;;
      let budget_result :=
        _handle_tool_response raw_budget_result "check_budget_availability" in
      budget_error <- lift_res (py_get budget_result "error" (PyBool false)) ;;
      if truthy budget_error then
        decide_ "ERROR" ;;
        message <- lift_res (py_get budget_result "message" (PyStr "Unknown error")) ;;
        explain ("Budget check error: " ++ fstr message)%string ;;
        return_state
      else
        entries <- lift_res (as_dict budget_result) ;;
        checked_at <- call_total (now_isoformat C) ;;
        modify (set_budget_check (Some (<["checked_at" := PyStr checked_at]> entries))) ;;
        is_available <- lift_res (py_get budget_result "available" (PyBool false)) ;;
        available_amount <- lift_res (py_get budget_result "amount_available" (PyInt 0)) ;;
        if negb (truthy is_available) then
          decide_ "REJECTED" ;;
          a <- lift_res (format_currency amount) ;;
          b <- lift_res (format_currency available_amount) ;;
          explain ("Insufficient budget: requested " ++ a ++ ", available " ++ b)%string ;;
          return_state
        else
          match reserve_tool with
          | Some reserve_tool => reserve reserve_tool department_id amount
          | None => ret tt
          end
  end.

(** [verify_budget(state)] *)
Definition verify_budget : M World unit :=
  _ <- state_item "po_id" po_id ;;
  try_except verify_budget_body (stage_failed "Error during budget verification: ").

(** The dispatch of approval requests in [process_approval]. *)
Definition request_approval (send_request_tool : Tool) (approvers_result : PyVal)
  : M World unit :=
  approvers_required <- lift_res (py_get approvers_result "approvers_required" (PyList [])) ;;
  state <- get_state ;;
  pid <- state_item "po_id" po_id ;;
  raw_approval_request <-
    call (ainvoke C send_request_tool
            (dict_of [("po_id", PyStr pid); ("approvers", approvers_required);
                      ("po_details", PyDict (po_request state))])) ;;
  let approval_request :=
    _handle_tool_response raw_approval_request "send_approval_request" in
  status <- state_item "approval_status" approval_status ;;
  modify (set_approval_status (Some (<["request_details" := approval_request]> status))) ;;
  decide_ "PENDING_APPROVAL" ;;
  names <- lift_res (py_join ", " approvers_required) ;;
  explain ("Awaiting approval from: " ++ names)%string ;;
  names' <- lift_res (py_join ", " approvers_required) ;;
  append_message (SystemMessage ("Approval requests sent to: " ++ names')%string).

Definition process_approval_body : M World unit :=
  approval_tools <- get_tools_safe "approval" ;;
  amount <- request_item "amount" ;;
  department <- request_item "department" ;;
  get_approvers_tool <- tools_get approval_tools "get_required_approvers" ;;
  send_request_tool <- tools_get approval_tools "send_approval_request" ;;
  match get_approvers_tool with
  | None =>
      raise (Exception_ ("Get approvers tool not found. Available: "
                         ++ available approval_tools)%string)
  | Some get_approvers_tool =>
      raw_approvers_result <-
        call (ainvoke C get_approvers_tool
                (dict_of [("amount", amount); ("department", department)])) ;;
      let approvers_result :=
        _handle_tool_response raw_approvers_result "get_required_approvers" in
      approvers_error <- lift_res (py_get approvers_result "error" (PyBool false)) ;;
      if truthy approvers_error then
        decide_ "ERROR" ;;
        message <- lift_res (py_get approvers_result "message" (PyStr "Unknown error")) ;;
        explain ("Approval check error: " ++ fstr message)%string ;;
        return_state
      else
        entries <- lift_res (as_dict approvers_result) ;;
        processed_at <- call_total (now_isoformat C) ;;
        modify (set_approval_status
                  (Some (<["processed_at" := PyStr processed_at]> entries))) ;;
        auto_approve <- lift_res (py_get approvers_result "auto_approve" (PyBool false)) ;;
        threshold <- lift_res (py_get approvers_result "threshold" (PyInt 0)) ;;
        if truthy auto_approve then
          decide_ "APPROVED" ;;
          a <- lift_res (format_currency amount) ;;
          b <- lift_res (format_currency threshold) ;;
          explain ("Auto-approved: amount " ++ a ++ " below threshold " ++ b)%string ;;
          status <- state_item "approval_status" approval_status ;;
          modify (set_approval_status (Some (<["auto_approved" := PyBool true]> status))) ;;
          return_state
        else
          match send_request_tool with
          | Some send_request_tool => request_approval send_request_tool approvers_result
          | None =>
              decide_ "PENDING_APPROVAL" ;;
              explain "Manual approval required"
          end
  end.

(** [process_approval(state)] *)
Definition process_approval : M World unit :=
  _ <- state_item "po_id" po_id ;;
  try_except process_approval_body (stage_failed "Error during approval processing: ").

(** The e-mail to the requester in [send_notifications]. *)
Definition send_email (email_tool : Tool) (decision : string) : M World PyVal :=
  state <- get_state ;;
  let requester_email :=
    get_or (po_request state) "requested_by" (PyStr "requester@company.com") in
  pid <- state_item "po_id" po_id ;;
  amount <- request_item "amount" ;;
  text <- lift_res (format_currency amount) ;;
  reason <- state_item "decision_reason" decision_reason ;;
  pid' <- state_item "po_id" po_id ;;
  raw_email_result <-
    call (ainvoke C email_tool
            (dict_of
               [("recipient", requester_email);
                ("subject", PyStr ("PO " ++ pid ++ " - " ++ decision)%string);
                ("body", PyStr ("PO Status: " ++ decision ++ newline ++ "Amount: " ++ text
                                ++ newline ++ "Reason: " ++ reason)%string);
                ("po_id", PyStr pid')])) ;;
  ret (_handle_tool_response raw_email_result "send_email_notification").

(** The post to the procurement channel in [send_notifications]. *)
Definition send_slack (slack_tool : Tool) (decision : string) : M World PyVal :=
  pid <- state_item "po_id" po_id ;;
  amount <- request_item "amount" ;;
  text <- lift_res (format_currency amount) ;;
  pid' <- state_item "po_id" po_id ;;
  raw_slack_result <-
    call (ainvoke C slack_tool
            (dict_of
               [("channel", PyStr "#procurement");
                ("message", PyStr ("PO " ++ pid ++ " (" ++ text ++ ") - " ++ decision)%string);
                ("po_id", PyStr pid')])) ;;
  ret (_handle_tool_response raw_slack_result "send_slack_notification").

Definition send_notifications_body : M World unit :=
  notification_tools <- get_tools_safe "notification" ;;
  decision <- state_item "final_decision" final_decision ;;
  email_tool <- tools_get notification_tools "send_email_notification" ;;
  slack_tool <- tools_get notification_tools "send_slack_notification" ;;
  sent_email <- match email_tool with
                | Some email_tool => r <- send_email email_tool decision ;; ret [r]
                | None => ret []
                end ;;
  sent_slack <- match slack_tool with
                | Some slack_tool => r <- send_slack slack_tool decision ;; ret [r]
                | None => ret []
                end ;;
  modify (set_notifications (Some (sent_email ++ sent_slack)%list)) ;;
  pid <- state_item "po_id" po_id ;;
  append_message (SystemMessage ("Notifications sent for PO " ++ pid)%string).

(** [send_notifications(state)]: a failure is logged, the decision
    is left alone. *)
Definition send_notifications : M World unit :=
  _ <- state_item "po_id" po_id ;;
  try_except send_notifications_body
    (fun e => append_error ("Error sending notifications: " ++ str_exn e)%string).

(** The audit message of [calculate_payment] once a plan is stored. *)
Definition describe_plan (plan : PyVal) : M World unit :=
  policy <- lift_res (py_subscript plan "policy") ;;
  up_pct <- lift_res (py_subscript policy "upfront_percent") ;;
  amounts <- lift_res (py_subscript plan "amounts") ;;
  up_amt <- lift_res (py_subscript amounts "upfront_amount") ;;
  amounts' <- lift_res (py_subscript plan "amounts") ;;
  bal_amt <- lift_res (py_subscript amounts' "balance_amount") ;;
  policy' <- lift_res (py_subscript plan "policy") ;;
  band <- lift_res (py_subscript policy' "band") ;;
  pct <- lift_res (py_format B up_pct ".2f") ;;
  up <- lift_res (format_currency up_amt) ;;
  bal <- lift_res (format_currency bal_amt) ;;
  append_message
    (SystemMessage ("Payment plan: " ++ pct ++ "% upfront (" ++ up ++ "), balance "
                    ++ bal ++ " [" ++ fstr band ++ " risk]")%string).

Definition calculate_payment_body : M World unit :=
  payment_tools <- get_tools_safe "payment" ;;
  plan_tool <- tools_get payment_tools "recommend_payment_plan" ;;
  match plan_tool with
  | None =>
      raise (Exception_ ("Payment tool 'recommend_payment_plan' not found. Available: "
                         ++ available payment_tools)%string)
  | Some plan_tool =>
      state <- get_state ;;
      let po_id_for_calc :=
        if str_truthy (po_id state) then opt_str (po_id state)
        else get_or (po_request state) "po_id" PyNone in
      if negb (truthy po_id_for_calc) then
        raise (Exception_ "po_id missing for payment calculation")
      else
        let supplier_id := get_or (po_request state) "supplier_id" PyNone in
        if negb (truthy supplier_id) then
          raise (Exception_ "supplier_id missing for payment calculation")
        else
          raw_plan <-
            call (ainvoke C plan_tool
                    (dict_of [("po_id", po_id_for_calc); ("supplier_id", supplier_id)])) ;;
          let plan := _handle_tool_response raw_plan "recommend_payment_plan" in
          plan_error <- lift_res (py_get plan "error" PyNone) ;;
          if truthy plan_error then
            decide_ "ERROR" ;;
            message <- lift_res (py_get plan "message" PyNone) ;;
            let reason := ("Payment plan error: " ++ fstr message)%string in
            explain reason ;;
            append_error reason ;;
            return_state
          else
            entries <- lift_res (as_dict plan) ;;
            modify (set_payment_plan (Some entries)) ;;
            describe_plan plan
  end.

(** [calculate_payment(state)]: whatever happens, the [finally]
    block latches [payment_attempted]. *)
Definition calculate_payment : M World unit :=
  _ <- state_item "po_id" po_id ;;
  try_finally
    (try_except calculate_payment_body
       (stage_failed "Error during payment calculation: "))
    (modify (set_payment_attempted (Some true))).

(** ** The graph of [_build_workflow] *)

Inductive Node : Type :=
| N_validate_request
| N_check_supplier
| N_verify_budget
| N_calculate_payment
| N_process_approval
| N_send_notifications.

Definition handler_of (n : Node) : M World unit :=
  match n with
  | N_validate_request => validate_po_request
  | N_check_supplier => check_supplier
  | N_verify_budget => verify_budget
  | N_calculate_payment => calculate_payment
  | N_process_approval => process_approval
  | N_send_notifications => send_notifications
  end.

(** Where an edge leads: another node, or the end of the graph. *)
Inductive Target : Type :=
| Goto (n : Node)
| Finish.

Definition node_of_route (r : Route) : Target :=
  match r with
  | R_check_supplier => Goto N_check_supplier
  | R_verify_budget => Goto N_verify_budget
  | R_process_approval => Goto N_process_approval
  | R_calculate_payment => Goto N_calculate_payment
  | R_send_notifications => Goto N_send_notifications
  | R_END => Finish
  end.

(** The keys of the mapping each [add_conditional_edges] call gives
    for its source node. *)
Definition edge_keys (n : Node) : list Route :=
  match n with
  | N_validate_request =>
      [R_check_supplier; R_calculate_payment; R_send_notifications; R_END]
  | N_check_supplier =>
      [R_verify_budget; R_calculate_payment; R_send_notifications; R_END]
  | N_verify_budget =>
      [R_process_approval; R_calculate_payment; R_send_notifications; R_END]
  | N_process_approval =>
      [R_calculate_payment; R_send_notifications; R_END]
  | N_calculate_payment =>
      [R_send_notifications; R_END]
  | N_send_notifications =>
      [R_END]
  end.

Definition route_eqb (a b : Route) : bool :=
  match a, b with
  | R_check_supplier, R_check_supplier
  | R_verify_budget, R_verify_budget
  | R_process_approval, R_process_approval
  | R_calculate_payment, R_calculate_payment
  | R_send_notifications, R_send_notifications
  | R_END, R_END => true
  | _, _ => false
  end.

(** The edge taken from [n] on the router's answer [r]; [None] when
    the mapping of [n] has no such key. *)
Definition edge (n : Node) (r : Route) : option Target :=
  if existsb (route_eqb r) (edge_keys n) then Some (node_of_route r) else None.

(** How a run of the graph ends. *)
Inductive Run : Type :=
| Done (w : World) (state : POWorkflowState)
| NodeRaised (n : Node) (e : PyExn) (w : World) (state : POWorkflowState)
| NoEdge (n : Node) (r : Route) (w : World) (state : POWorkflowState)
| StepLimit (n : Node) (w : World) (state : POWorkflowState).

(** Run node [n], ask [should_continue], follow the edge; at most
    [steps] nodes are run. *)
Fixpoint run_from (steps : nat) (n : Node) (w : World) (state : POWorkflowState) : Run :=
  match steps with
  | O => StepLimit n w state
  | S steps' =>
      match run_handler (handler_of n) w state with
      | (Some e, (w', state')) => NodeRaised n e w' state'
      | (None, (w', state')) =>
          match edge n (should_continue state') with
          | None => NoEdge n (should_continue state') w' state'
          | Some Finish => Done w' state'
          | Some (Goto n') => run_from steps' n' w' state'
          end
      end
  end.

(** [initial_state] of [process_po]; the key [payment_plan] is not
    created. *)
Definition initial_state (request : gmap string PyVal) : Res POWorkflowState :=
  match py_format B (get_or request "amount" (PyInt 0)) ",.2f" with
  | Raise e => Raise e
  | Ok amount =>
      Ok {| messages := [HumanMessage ("Process PO for $" ++ amount)%string];
            po_request := request;
            po_id := Some EmptyString;
            supplier_validation := Some ∅;
            budget_check := Some ∅;
            approval_status := Some ∅;
            payment_plan := None;
            payment_attempted := Some false;
            notifications := Some [];
            final_decision := Some EmptyString;
            decision_reason := Some EmptyString;
            processing_time := Some f64_zero;
            errors := [] |}
  end.

(** The graph run of [process_po], from the entry node. *)
Definition run_graph (steps : nat) (w : World) (state : POWorkflowState) : Run :=
  run_from steps N_validate_request w state.

(** The loop as the design describes the orchestrator, without the
    edge mappings: ask the router, run the stage it names, until it
    answers END. *)
Fixpoint router_loop (steps : nat) (w : World) (state : POWorkflowState) : Run :=
  match node_of_route (should_continue state) with
  | Finish => Done w state
  | Goto n =>
      match steps with
      | O => StepLimit n w state
      | S steps' =>
          match run_handler (handler_of n) w state with
          | (Some e, (w', state')) => NodeRaised n e w' state'
          | (None, (w', state')) => router_loop steps' w' state'
          end
      end
  end.

(** Validation first, then the loop. *)
Definition run_loop (steps : nat) (w : World) (state : POWorkflowState) : Run :=
  match run_handler validate_po_request w state with
  | (Some e, (w', state')) => NodeRaised N_validate_request e w' state'
  | (None, (w', state')) => router_loop steps w' state'
  end.

End Handlers.

End Workflow.

(** ** The payment functions in the two readings *)

Definition clampQ : Q -> Q -> Q -> Q := @Payment._clamp Q Exact.num.
Definition lerpQ : Q -> Q -> Q -> Q -> Q -> Q := @Payment._lerp Q Exact.num.
Definition upQ : Q -> Q := @Payment._upfront_percent Q Exact.num.
Definition bandQ : Q -> Payment.Band := @Payment._risk_band Q Exact.num.

Definition up64 : spec_float -> spec_float := @Payment._upfront_percent spec_float B64.num.
Definition band64 : spec_float -> Payment.Band := @Payment._risk_band spec_float B64.num.

Definition clamp01 (x : Q) : Q := Qmax 0 (Qmin 1 x).

(** A ratio as [_compute_supplier_risk_score] computes it, over exact
    arithmetic: [default if den == 0 else
    _clamp(num / max(den, 1), 0.0, 1.0)]. *)
Definition ratio_or (default num den : Q) : Q :=
  if Qeq_bool den 0 then default else clamp01 (num / Qmax den 1).

(** The claim's reading of a ratio: the default on a zero denominator,
    else the quotient of numerator and denominator clamped to [0, 1]. *)
Definition claimed_ratio (default num den : Q) : Q :=
  if Qeq_bool den 0 then default else clamp01 (num / den).

(** The claim's score for the answers of the six aggregate statements:
    the weighted sum of the five ratios in the claim's reading. *)
Definition claimed_score (o r : option (Payment.QtyRow Q))
    (ot ql iv pa : option Payment.CountRow) : Q :=
  let ordered := Payment._safe_float (Payment.qty_of o) 0%Q in
  let received := Payment._safe_float (Payment.qty_of r) 0%Q in
  let ratio default row :=
    claimed_ratio default (inject_Z (snd (Payment.counts_of row)))
                  (inject_Z (fst (Payment.counts_of row))) in
  (35 * claimed_ratio 1 received ordered + 25 * ratio 1 ot + 20 * ratio 1 ql
   + 10 * (1 - ratio 0 iv) + 10 * (1 - ratio 0 pa))%Q.

(** The exact decimal [n / 10^d]. *)
Definition q_dec (n d : Z) : Q := (inject_Z n / inject_Z (10 ^ d))%Q.

(** The claim about the two amounts of a plan, in either reading: the
    balance is the unrounded difference, and the amounts add up to the
    total. *)
Definition balance_is_difference {F : Type} `{PyNum F} (plan : Payment.Plan) : Prop :=
  num_eqb (Payment.balance_amount plan)
          (num_sub (Payment.total_in_inr plan) (Payment.upfront_amount plan)) = true /\
  num_eqb (num_add (Payment.upfront_amount plan) (Payment.balance_amount plan))
          (Payment.total_in_inr plan) = true.

(** A statement of the database raises. *)
Definition raises {A} (r : Res A) : Prop := exists e, r = Raise e.

(** A count statement answers without a total: no row, a NULL, or 0. *)
Definition no_total (r : Res (option Payment.CountRow)) : Prop :=
  exists row, r = Ok row /\ fst (Payment.counts_of row) = 0.

(** A quantity statement answers without a value, or with 0. *)
Definition no_quantity (r : Res (option (Payment.QtyRow spec_float))) : Prop :=
  exists row, r = Ok row /\
              SFeqb (Payment._safe_float (Payment.qty_of row) (f64_of_Z 0)) (f64_of_Z 0) = true.

(** ** A small database *)

Section DemoDb.
Import Payment.
Context {F : Type} (dec : Z -> Z -> F).

(** What the aggregate statements yield for a supplier without any
    history: [COALESCE(SUM(..), 0)] is 0, [COUNT( * )] is 0 and an
    empty [SUM] is NULL. *)
Definition no_qty : QtyRow F := {| qty := Some (dec 0 0) |}.
Definition no_count : CountRow := {| total_cnt := Some 0; hit_cnt := None |}.

Definition is_sup001 (supplier_id : option string) : bool :=
  match supplier_id with
  | Some s => String.eqb s "SUP001"
  | None => false
  end.

(** Four purchase orders, 1 to 4; order 1 is of supplier SUP001 and
    totals 123.45.  SUP001 was ordered 100 units and delivered none,
    and had 3 of its 5 invoices rejected. *)
Definition history_db : Db F := {|
  ordered_q := fun sid =>
    Ok (Some (if is_sup001 sid then {| qty := Some (dec 100 0) |} else no_qty));
  received_q := fun _ => Ok (Some no_qty);
  ontime_q := fun _ => Ok (Some no_count);
  quality_q := fun _ => Ok (Some no_count);
  inv_q := fun sid =>
    Ok (Some (if is_sup001 sid then {| total_cnt := Some 5; hit_cnt := Some 3 |}
              else no_count));
  pay_q := fun _ => Ok (Some no_count);
  line_q := fun po_id =>
    Ok (Some (if po_id =? 1 then {| qty := Some (dec 12345 2) |} else no_qty));
  head_q := fun po_id =>
    if (1 <=? po_id) && (po_id <=? 4) then
      Ok (Some {| h_supplier_id := Some (if po_id =? 1 then "SUP001" else "SUP002");
                  h_currency := Some "INR";
                  h_exchange_rate := Some (dec 1 0);
                  h_tax_amount := Some (dec 0 0);
                  h_freight_amount := Some (dec 0 0) |})
    else Ok None;
  exists_q := fun po_id =>
    if (1 <=? po_id) && (po_id <=? 4) then Ok (Some tt) else Ok None
|}.

(** The rows of a supplier with half a unit ordered and a quarter of
    a unit received. *)
Definition half_unit : QtyRow F := {| qty := Some (dec 5 1) |}.
Definition quarter_unit : QtyRow F := {| qty := Some (dec 25 2) |}.

(** A supplier with that small order and nothing else on record, on
    the purchase orders of [history_db]. *)
Definition small_order_db : Db F := {|
  ordered_q := fun _ => Ok (Some half_unit);
  received_q := fun _ => Ok (Some quarter_unit);
  ontime_q := fun _ => Ok (Some no_count);
  quality_q := fun _ => Ok (Some no_count);
  inv_q := fun _ => Ok (Some no_count);
  pay_q := fun _ => Ok (Some no_count);
  line_q := line_q history_db;
  head_q := head_q history_db;
  exists_q := exists_q history_db
|}.

(** The same database when the statement over [Payments] fails. *)
Definition payments_down_db : Db F := {|
  ordered_q := ordered_q history_db;
  received_q := received_q history_db;
  ontime_q := ontime_q history_db;
  quality_q := quality_q history_db;
  inv_q := inv_q history_db;
  pay_q := fun _ => Raise (RuntimeError "connection lost");
  line_q := line_q history_db;
  head_q := head_q history_db;
  exists_q := exists_q history_db
|}.

End DemoDb.

(** ** Scenarios: scripted collaborators *)

(** The digits of a non-negative integer, grouped by thousands when
    [commas] is set. *)
Fixpoint group3 (digits_rev : list ascii) (k : nat) (acc : string) : string :=
  match digits_rev with
  | [] => acc
  | d :: rest =>
      let acc' := String d acc in
      match k, rest with
      | 2%nat, _ :: _ => group3 rest 0 (String ","%char acc')
      | _, _ => group3 rest (S k) acc'
      end
  end.

Definition with_commas (digits : string) : string :=
  group3 (rev (list_ascii_of_string digits)) 0 EmptyString.

(** [format(x, ",.2f")] and [format(x, ".2f")] from the number of
    hundredths [cents] and the sign of [x]. *)
Definition fixed2 (commas : bool) (negative : bool) (cents : Z) : string :=
  let whole := str_of_Z (Z.abs cents / 100) in
  let frac := Z.abs cents mod 100 in
  ((if negative then "-" else "")
   ++ (if commas then with_commas whole else whole)
   ++ "." ++ (if (frac <? 10)%Z then "0" else "") ++ str_of_Z frac)%string.

(** [format(v, spec)] for the two format specifications the handlers
    use. *)
Definition format_number (v : PyVal) (spec : string) : Res string :=
  let commas := String.eqb spec ",.2f" in
  if negb (commas || String.eqb spec ".2f") then Raise (ValueError "Invalid format specifier")
  else
    match v with
    | PyBool b => Ok (fixed2 commas false (if b then 100 else 0))
    | PyInt z =>
        match f64_of_Z z with
        | S754_finite s m e =>
            Ok (fixed2 commas s (round_half_even (B64.to_Q (S754_finite s m e) * 100)))
        | S754_zero _ => Ok (fixed2 commas false 0)
        | _ => Raise (Exception_ "int too large to convert to float")
        end
    | PyFloat (S754_finite s m e) =>
        Ok (fixed2 commas s (round_half_even (B64.to_Q (S754_finite s m e) * 100)))
    | PyFloat (S754_zero s) => Ok (fixed2 commas s 0)
    | PyFloat (S754_infinity s) => Ok (if s then "-inf" else "inf")
    | PyFloat S754_nan => Ok "nan"
    | _ => Raise (TypeError "unsupported format string passed to __format__")
    end.

(** [str(v)] on the lists of strings the handlers print; other values
    only ever reach the text of a message. *)
Definition str_of_value (v : PyVal) : string :=
  match v with
  | PyNone => "None"
  | PyBool b => if b then "True" else "False"
  | PyInt z => str_of_Z z
  | PyStr s => s
  | PyList l =>
      match Workflow.all_strs l with
      | Some parts => ("[" ++ join ", " (map (fun s => "'" ++ s ++ "'") parts) ++ "]")%string
      | None => "[...]"
      end
  | PyFloat _ => "<float>"
  | PyDict _ => "{...}"
  end.

(** The scenarios answer with dictionaries: [json.loads] is not
    reached. *)
Definition scenario_builtins : Workflow.Builtins := {|
  Workflow.json_loads := fun _ => None;
  Workflow.py_str := str_of_value;
  Workflow.py_type := fun v => ("<class '" ++ Workflow.type_name v ++ "'>")%string;
  Workflow.py_format := format_number
|}.

(** A scenario: the tools each server lists and what each tool
    answers.  A tool is known by its name; the language model is out
    of reach, which the validation stage tolerates; the clock stands
    still. *)
Record Scenario : Type := mkScenario {
  listed : string -> Res (Workflow.RawTools string);
  answers : string -> PyVal -> Res PyVal
}.

Definition scenario_collab (sc : Scenario) : Workflow.Collab unit string := {|
  Workflow.get_tools := fun server w => (listed sc server, w);
  Workflow.ainvoke := fun tool args w => (answers sc tool args, w);
  Workflow.llm_ainvoke := fun _ w => (Raise (RuntimeError "model endpoint not configured"), w);
  Workflow.now_isoformat := fun w => ("2025-08-22T15:17:55", w);
  Workflow.now_strftime := fun w => ("20250822151755", w);
  Workflow.time_time := fun w => (f64_of_Z 1755875875, w)
|}.

Definition tool_named (name : string) : Workflow.ToolObj string :=
  {| Workflow.obj_name := Some name; Workflow.obj_dunder_name := None;
     Workflow.obj_tool := name |}.

(** The tools of the five servers, as they register them. *)
Definition all_tools (server : string) : Res (Workflow.RawTools string) :=
  Ok (Workflow.RawList
        (map tool_named
           (if String.eqb server "supplier" then
              ["validate_supplier"; "check_supplier_capacity"; "get_supplier_details";
               "list_approved_suppliers"]
            else if String.eqb server "budget" then
              ["check_budget_availability"; "reserve_budget"; "release_budget_reservation";
               "get_budget_summary"]
            else if String.eqb server "approval" then
              ["get_required_approvers"; "send_approval_request"; "check_approval_status";
               "get_approval_matrix"; "simulate_approval"]
            else if String.eqb server "notification" then
              ["send_email_notification"; "send_slack_notification";
               "notify_po_status_change"; "send_approval_reminder"]
            else if String.eqb server "payment" then
              ["calculate_base_payment"; "compute_supplier_risk"; "recommend_payment_plan";
               "recommend_payment_plan_by_supplier"; "explain_policy"]
            else []))).

(** The notification server lists no tool; the others list theirs. *)
Definition all_but_notification (server : string) : Res (Workflow.RawTools string) :=
  if String.eqb server "notification" then Ok (Workflow.RawList []) else all_tools server.

Definition plan_reply : PyVal :=
  Workflow.dict_of
    [("po_id", PyInt 1); ("supplier_id", PyStr "SUP001");
     ("policy", Workflow.dict_of
                  [("band", PyStr "HIGH"); ("upfront_percent", PyFloat (B64.dec 60 0));
                   ("balance_percent", PyFloat (B64.dec 40 0));
                   ("milestone", PyStr "balance_after_quality_verification");
                   ("policy_version", PyStr "2025-08-21")]);
     ("amounts", Workflow.dict_of
                   [("upfront_amount", PyFloat (B64.dec 7407 2));
                    ("balance_amount", PyFloat (B64.dec 4938 2))])].

(** Answers of well-behaved servers to an order within capacity,
    budget and the auto-approval threshold. *)
Definition good_answers (tool : string) (args : PyVal) : Res PyVal :=
  if String.eqb tool "validate_supplier" then
    Ok (Workflow.dict_of [("valid", PyBool true); ("supplier", Workflow.dict_of []);
                          ("message", PyStr "Supplier SUP001 validated successfully")])
  else if String.eqb tool "check_supplier_capacity" then
    Ok (Workflow.dict_of [("capacity_ok", PyBool true); ("max_capacity", PyInt 100000);
                          ("requested", PyInt 5000);
                          ("message", PyStr "Capacity check: 5000 vs 100000")])
  else if String.eqb tool "check_budget_availability" then
    Ok (Workflow.dict_of [("available", PyBool true); ("amount_requested", PyInt 5000);
                          ("amount_available", PyInt 20000);
                          ("budget_details", Workflow.dict_of []);
                          ("message", PyStr "Budget check")])
  else if String.eqb tool "reserve_budget" then
    Ok (Workflow.dict_of [("reserved", PyBool true); ("amount_reserved", PyInt 5000);
                          ("message", PyStr "Successfully reserved")])
  else if String.eqb tool "get_required_approvers" then
    Ok (Workflow.dict_of [("approvers_required", PyList []);
                          ("approval_needed", PyBool false); ("threshold", PyInt 10000);
                          ("auto_approve", PyBool true); ("amount", PyInt 5000);
                          ("message", PyStr "Approval requirements determined")])
  else if String.eqb tool "recommend_payment_plan" then Ok plan_reply
  else if String.eqb tool "send_email_notification" then
    Ok (Workflow.dict_of [("sent", PyBool true); ("method", PyStr "email")])
  else if String.eqb tool "send_slack_notification" then
    Ok (Workflow.dict_of [("sent", PyBool true); ("method", PyStr "slack")])
  else Raise (Exception_ "unknown tool").

(** The supplier directory does not know the supplier: the answers of
    [validate_supplier] and [check_supplier_capacity] for an unknown
    identifier. *)
Definition unknown_supplier_answers (tool : string) (args : PyVal) : Res PyVal :=
  if String.eqb tool "validate_supplier" then
    Ok (Workflow.dict_of [("valid", PyBool false); ("supplier", PyNone);
                          ("message", PyStr "Supplier SUP001 not found")])
  else if String.eqb tool "check_supplier_capacity" then
    Ok (Workflow.dict_of [("capacity_ok", PyBool false); ("max_capacity", PyInt 0);
                          ("requested", PyInt 5000);
                          ("message", PyStr "Supplier SUP001 not found")])
  else good_answers tool args.

(** Every tool answers with an explicit [error: true]. *)
Definition error_answers (tool : string) (args : PyVal) : Res PyVal :=
  Ok (Workflow.dict_of [("error", PyBool true); ("message", PyStr "service unavailable")]).

Definition quiet_notifications : Scenario :=
  {| listed := all_but_notification; answers := good_answers |}.
Definition no_servers : Scenario :=
  {| listed := fun _ => Raise (RuntimeError "connection refused"); answers := good_answers |}.
Definition unknown_supplier : Scenario :=
  {| listed := all_tools; answers := unknown_supplier_answers |}.
Definition failing_services : Scenario :=
  {| listed := all_tools; answers := error_answers |}.
Definition all_good : Scenario :=
  {| listed := all_tools; answers := good_answers |}.

(** A well-formed request. *)
Definition laptop_request : gmap string PyVal :=
  list_to_map [("supplier_id", PyStr "SUP001"); ("amount", PyInt 5000);
               ("department", PyStr "IT"); ("items", PyList [PyStr "laptop"]);
               ("requested_by", PyStr "ana@company.com")].

(** The state [process_po] starts from on that request. *)
Definition laptop_state : Workflow.POWorkflowState :=
  match Workflow.initial_state scenario_builtins laptop_request with
  | Ok s => s
  | Raise _ =>
      Workflow.mkState [] laptop_request None None None None None None None None None None []
  end.

(** Running a node, or the graph, in a scenario. *)
Definition after (sc : Scenario) (n : Workflow.Node) (state : Workflow.POWorkflowState)
  : Workflow.POWorkflowState :=
  snd (snd (Workflow.run_handler
              (Workflow.handler_of scenario_builtins (scenario_collab sc) n) tt state)).

Definition graph_run (sc : Scenario) (steps : nat) : Workflow.Run :=
  Workflow.run_graph scenario_builtins (scenario_collab sc) steps tt laptop_state.

(* ===================================================================== *)
(** * workflows/po_workflow.py: the connection test and stage sequences *)
(* ===================================================================== *)

Section Connections.
Import Workflow.
Context {World Tool : Type} (B : Builtins) (C : Collab World Tool).

Local Open Scope py_scope.

(** One turn of the loop of [test_mcp_connections]: [try] to list the
    tools of the server (what came is only logged); [except Exception:
    return False].  The result tells whether the loop goes on. *)
Definition test_connection (server_name : string) : M World bool :=
  try_except (_ <- get_tools_safe C server_name ;; ret true) (fun _ => ret false).

Fixpoint test_servers (servers : list string) : M World bool :=
  match servers with
  | [] => ret true
  | server_name :: rest =>
      connected <- test_connection server_name ;;
      if connected then test_servers rest else ret false
  end.

(** [test_mcp_connections()] *)
Definition test_mcp_connections : M World bool :=
  test_servers ["supplier"; "budget"; "approval"; "notification"; "payment"].

(** The stages [ns] run one after the other on the same state
    dictionary, each in the world the one before left, whatever the
    router would have said and whether or not a stage raised. *)
Fixpoint run_stages (ns : list Node) (w : World) (state : POWorkflowState)
  : World * POWorkflowState :=
  match ns with
  | [] => (w, state)
  | n :: rest =>
      let r := snd (run_handler (handler_of B C n) w state) in
      run_stages rest (fst r) (snd r)
  end.

End Connections.

(** [generate_po_id()] of [utils/helpers.py], from the text
    [datetime.now().strftime("%Y%m%d%H%M%S")] gives. *)
Definition generate_po_id (timestamp : string) : string := ("PO-" ++ timestamp)%string.

(** A supplier history just short of the LOW band: 3749 of 8750
    ordered units received and nothing else on record, on the four
    purchase orders of [history_db].  The weighted score is 79.996. *)
Definition near_low_db {F : Type} (dec : Z -> Z -> F) : Payment.Db F := {|
  Payment.ordered_q := fun _ => Ok (Some {| Payment.qty := Some (dec 8750 0) |});
  Payment.received_q := fun _ => Ok (Some {| Payment.qty := Some (dec 3749 0) |});
  Payment.ontime_q := fun _ => Ok (Some no_count);
  Payment.quality_q := fun _ => Ok (Some no_count);
  Payment.inv_q := fun _ => Ok (Some no_count);
  Payment.pay_q := fun _ => Ok (Some no_count);
  Payment.line_q := Payment.line_q (history_db dec);
  Payment.head_q := Payment.head_q (history_db dec);
  Payment.exists_q := Payment.exists_q (history_db dec)
|}.

(** One purchase order whose line total, tax and freight are half a
    cent each, with no exchange rate on record. *)
Definition half_cent_db {F : Type} (dec : Z -> Z -> F) : Payment.Db F := {|
  Payment.ordered_q := Payment.ordered_q (history_db dec);
  Payment.received_q := Payment.received_q (history_db dec);
  Payment.ontime_q := Payment.ontime_q (history_db dec);
  Payment.quality_q := Payment.quality_q (history_db dec);
  Payment.inv_q := Payment.inv_q (history_db dec);
  Payment.pay_q := Payment.pay_q (history_db dec);
  Payment.line_q := fun _ => Ok (Some {| Payment.qty := Some (dec 5 3) |});
  Payment.head_q := fun _ =>
    Ok (Some {| Payment.h_supplier_id := Some "SUP002";
                Payment.h_currency := Some "INR";
                Payment.h_exchange_rate := None;
                Payment.h_tax_amount := Some (dec 5 3);
                Payment.h_freight_amount := Some (dec 5 3) |});
  Payment.exists_q := fun _ => Ok (Some tt)
|}.

(* ===================================================================== *)
(** * mcp_servers/budget_server.py *)
(* ===================================================================== *)

Module BudgetServer.

(** A department's entry of [BUDGETS], with the keys the tools read by
    subscript; the three amounts are numbers. *)
Record Entry (F : Type) : Type := mkEntry {
  name : PyVal;
  fiscal_year : PyVal;
  allocated : F;
  spent : F;
  reserved : F
}.
Arguments mkEntry {F} _ _ _ _ _.
Arguments name {F} _.
Arguments fiscal_year {F} _.
Arguments allocated {F} _.
Arguments spent {F} _.
Arguments reserved {F} _.

(** The dictionary [check_budget_availability] returns, without its
    message. *)
Record Availability (F : Type) : Type := mkAvailability {
  available : bool;
  amount_requested : F;
  amount_available : F;
  budget_details : option (Entry F)
}.
Arguments mkAvailability {F} _ _ _ _.
Arguments available {F} _.
Arguments amount_requested {F} _.
Arguments amount_available {F} _.
Arguments budget_details {F} _.

(** Why a reservation or a release is refused; the number is the one
    the message quotes. *)
Inductive Refusal (F : Type) : Type :=
| DepartmentNotFound
| Insufficient (available : F)
| OnlyReserved (reserved : F).
Arguments DepartmentNotFound {F}.
Arguments Insufficient {F} available.
Arguments OnlyReserved {F} reserved.

(** The dictionaries of [reserve_budget] and
    [release_budget_reservation]: [reserved]/[released] false with a
    message, or true with the amount and the new reserved total. *)
Inductive Booking (F : Type) : Type :=
| Refused (why : Refusal F) (po_id : option string)
| Booked (amount new_reserved_total : F) (po_id : option string).
Arguments Refused {F} why po_id.
Arguments Booked {F} amount new_reserved_total po_id.

(** The dictionary of [get_budget_summary] for a department that is
    found. *)
Record Summary (F : Type) : Type := mkSummary {
  s_department : PyVal;
  s_allocated : F;
  s_spent : F;
  s_reserved : F;
  s_available : F;
  utilization_percent : F;
  s_fiscal_year : PyVal
}.
Arguments mkSummary {F} _ _ _ _ _ _ _.
Arguments s_department {F} _.
Arguments s_allocated {F} _.
Arguments s_spent {F} _.
Arguments s_reserved {F} _.
Arguments s_available {F} _.
Arguments utilization_percent {F} _.
Arguments s_fiscal_year {F} _.

Section Tools.
Context {F : Type} `{PyNum F}.

(** [budget["allocated"] - budget["spent"] - budget["reserved"]] *)
Definition available_of (budget : Entry F) : F :=
  num_sub (num_sub (allocated budget) (spent budget)) (reserved budget).

Definition with_reserved (v : F) (budget : Entry F) : Entry F :=
  mkEntry (name budget) (fiscal_year budget) (allocated budget) (spent budget) v.

(** [check_budget_availability(department_id, amount)] *)
Definition check_budget_availability (BUDGETS : gmap string (Entry F))
    (department_id : string) (amount : F) : Availability F :=
  match BUDGETS !! department_id with
  | None => mkAvailability false amount (num_of_Z 0) None
  | Some budget =>
      let available := available_of budget in
      mkAvailability (num_leb amount available) amount available (Some budget)
  end.

(** [reserve_budget(department_id, amount, po_id)]: the reply and the
    budgets it leaves behind (and saves). *)
Definition reserve_budget (BUDGETS : gmap string (Entry F))
    (department_id : string) (amount : F) (po_id : option string)
  : Booking F * gmap string (Entry F) :=
  match BUDGETS !! department_id with
  | None => (Refused DepartmentNotFound po_id, BUDGETS)
  | Some budget =>
      let available := available_of budget in
      if num_ltb available amount then (Refused (Insufficient available) po_id, BUDGETS)
      else
        let budget' := with_reserved (num_add (reserved budget) amount) budget in
        (Booked amount (reserved budget') po_id, <[department_id := budget']> BUDGETS)
  end.

(** [release_budget_reservation(department_id, amount, po_id)] *)
Definition release_budget_reservation (BUDGETS : gmap string (Entry F))
    (department_id : string) (amount : F) (po_id : option string)
  : Booking F * gmap string (Entry F) :=
  match BUDGETS !! department_id with
  | None => (Refused DepartmentNotFound po_id, BUDGETS)
  | Some budget =>
      if num_leb amount (reserved budget) then
        let budget' := with_reserved (num_sub (reserved budget) amount) budget in
        (Booked amount (reserved budget') po_id, <[department_id := budget']> BUDGETS)
      else (Refused (OnlyReserved (reserved budget)) po_id, BUDGETS)
  end.

(** [get_budget_summary(department_id)]; [None] is the reply
    [found: False]. *)
Definition get_budget_summary (BUDGETS : gmap string (Entry F))
    (department_id : string) : option (Summary F) :=
  match BUDGETS !! department_id with
  | None => None
  | Some budget =>
      let available := available_of budget in
      let utilization :=
        if num_ltb (num_of_Z 0) (allocated budget)
        then num_mul (num_div (spent budget) (allocated budget)) (num_of_Z 100)
        else num_of_Z 0 in
      Some (mkSummary (name budget) (allocated budget) (spent budget) (reserved budget)
              available (num_round 2 utilization) (fiscal_year budget))
  end.

End Tools.
End BudgetServer.

(* ===================================================================== *)
(** * mcp_servers/approval_server.py *)
(* ===================================================================== *)

Module ApprovalServer.

(** An entry of [APPROVAL_DATA["thresholds"]]: [max_amount] and
    [required_approvers] are read by subscript, [auto_approve] through
    [get]. *)
Record Threshold (F : Type) : Type := mkThreshold {
  max_amount : F;
  required_approvers : PyVal;
  t_auto_approve : option PyVal
}.
Arguments mkThreshold {F} _ _ _.
Arguments max_amount {F} _.
Arguments required_approvers {F} _.
Arguments t_auto_approve {F} _.

(** The [threshold] entry of the reply: an amount, or [float('inf')]
    when there is no threshold at all. *)
Inductive Bound (F : Type) : Type :=
| Finite (x : F)
| Infinite.
Arguments Finite {F} x.
Arguments Infinite {F}.

(** The dictionary [get_required_approvers] returns, without its
    message. *)
Record Approvers (F : Type) : Type := mkApprovers {
  approvers_required : PyVal;
  approval_needed : bool;
  threshold : Bound F;
  auto_approve : PyVal;
  amount : F
}.
Arguments mkApprovers {F} _ _ _ _ _.
Arguments approvers_required {F} _.
Arguments approval_needed {F} _.
Arguments threshold {F} _.
Arguments auto_approve {F} _.
Arguments amount {F} _.

Section Tools.
Context {F : Type} `{PyNum F}.

(** [threshold.get("auto_approve", False)] *)
Definition auto_approve_of (t : Threshold F) : PyVal :=
  match t_auto_approve t with
  | Some v => v
  | None => PyBool false
  end.

(** The [for threshold in thresholds] loop: the first threshold the
    amount does not exceed. *)
Fixpoint first_threshold (thresholds : list (Threshold F)) (amount : F)
  : option (Threshold F) :=
  match thresholds with
  | [] => None
  | t :: rest =>
      if num_leb amount (max_amount t) then Some t else first_threshold rest amount
  end.

(** [get_required_approvers(amount, department)] *)
Definition get_required_approvers (thresholds : list (Threshold F))
    (amount : F) (department : option string) : Approvers F :=
  match first_threshold thresholds amount with
  | Some t =>
      mkApprovers (required_approvers t) (negb (truthy (auto_approve_of t)))
        (Finite (max_amount t)) (auto_approve_of t) amount
  | None =>
      match last thresholds with
      | Some highest_threshold =>
          mkApprovers (required_approvers highest_threshold) true
            (Finite (max_amount highest_threshold)) (PyBool false) amount
      | None =>
          mkApprovers (PyList [PyStr "director"]) true Infinite (PyBool false) amount
      end
  end.

End Tools.
End ApprovalServer.

(* ===================================================================== *)
(** * mcp_servers/supplier_server.py *)
(* ===================================================================== *)

Module SupplierServer.

(** An entry of [SUPPLIERS]: [status], [name] and [rating] are read by
    subscript; [max_order_value] and [categories] through [get], and
    [categories] by subscript as well when a supplier is listed. *)
Record Supplier (F : Type) : Type := mkSupplier {
  status : PyVal;
  name : PyVal;
  rating : PyVal;
  max_order_value : option F;
  categories : option (list PyVal)
}.
Arguments mkSupplier {F} _ _ _ _ _.
Arguments status {F} _.
Arguments name {F} _.
Arguments rating {F} _.
Arguments max_order_value {F} _.
Arguments categories {F} _.

(** The dictionary of [validate_supplier], without its message;
    [supplier] is [None] for an unknown identifier. *)
Record Validation (F : Type) : Type := mkValidation {
  valid : bool;
  supplier : option (Supplier F)
}.
Arguments mkValidation {F} _ _.
Arguments valid {F} _.
Arguments supplier {F} _.

(** The dictionary of [check_supplier_capacity], without its message. *)
Record Capacity (F : Type) : Type := mkCapacity {
  capacity_ok : bool;
  max_capacity : F;
  requested : F
}.
Arguments mkCapacity {F} _ _ _.
Arguments capacity_ok {F} _.
Arguments max_capacity {F} _.
Arguments requested {F} _.

(** An entry of the listing of [list_approved_suppliers]. *)
Record Listed : Type := mkListed {
  l_name : PyVal;
  l_rating : PyVal;
  l_categories : list PyVal
}.

(** [a == b] on the values a status or a category can be. *)
Definition str_is (v : PyVal) (s : string) : bool :=
  match v with
  | PyStr t => String.eqb t s
  | _ => false
  end.

Section Tools.
Context {F : Type} `{PyNum F}.

(** [supplier["status"] == "approved"] *)
Definition approved (s : Supplier F) : bool := str_is (status s) "approved".

(** [validate_supplier(supplier_id)] *)
Definition validate_supplier (SUPPLIERS : gmap string (Supplier F))
    (supplier_id : string) : Validation F :=
  match SUPPLIERS !! supplier_id with
  | None => mkValidation false None
  | Some s => if negb (approved s) then mkValidation false (Some s)
              else mkValidation true (Some s)
  end.

(** [check_supplier_capacity(supplier_id, order_value)] *)
Definition check_supplier_capacity (SUPPLIERS : gmap string (Supplier F))
    (supplier_id : string) (order_value : F) : Capacity F :=
  match SUPPLIERS !! supplier_id with
  | None => mkCapacity false (num_of_Z 0) order_value
  | Some s =>
      let max_capacity :=
        match max_order_value s with Some m => m | None => num_of_Z 0 end in
      mkCapacity (num_leb order_value max_capacity) max_capacity order_value
  end.

(** [get_supplier_details(supplier_id)]; [None] is [found: False]. *)
Definition get_supplier_details (SUPPLIERS : gmap string (Supplier F))
    (supplier_id : string) : option (Supplier F) :=
  SUPPLIERS !! supplier_id.

(** [category is None or category in supplier_data.get("categories", [])] *)
Definition in_category (category : option string) (s : Supplier F) : bool :=
  match category with
  | None => true
  | Some c =>
      existsb (fun v => str_is v c)
        (match categories s with Some l => l | None => [] end)
  end.

(** The loop of [list_approved_suppliers] over the items of
    [SUPPLIERS]; a listed supplier without [categories] makes the
    subscript raise. *)
Fixpoint list_loop (category : option string) (items : list (string * Supplier F))
    (approved_suppliers : gmap string Listed) : Res (gmap string Listed) :=
  match items with
  | [] => Ok approved_suppliers
  | (supplier_id, supplier_data) :: rest =>
      if approved supplier_data && in_category category supplier_data then
        match categories supplier_data with
        | None => Raise (KeyError "categories")
        | Some c =>
            list_loop category rest
              (<[supplier_id := mkListed (name supplier_data) (rating supplier_data) c]>
                 approved_suppliers)
        end
      else list_loop category rest approved_suppliers
  end.

(** [list_approved_suppliers(category)]: the count and the listing. *)
Definition list_approved_suppliers (SUPPLIERS : gmap string (Supplier F))
    (category : option string) : Res (nat * gmap string Listed) :=
  match list_loop category (map_to_list SUPPLIERS) ∅ with
  | Ok approved_suppliers => Ok (size approved_suppliers, approved_suppliers)
  | Raise e => Raise e
  end.

End Tools.
End SupplierServer.

(* ===================================================================== *)
(** * mcp_servers/payment_server.py: the dictionaries of the plan tool *)
(* ===================================================================== *)

Section PlanDictionaries.
Import Payment.

(** The ["metrics"] entry of [_compute_supplier_risk_score]. *)
Definition metrics_dict (m : Metrics (F := spec_float)) : PyVal :=
  Workflow.dict_of
    [("ordered_qty", PyFloat (m_ordered_qty m));
     ("received_qty", PyFloat (m_received_qty m));
     ("fulfillment_ratio", PyFloat (fulfillment_ratio m));
     ("ontime_rate", PyFloat (ontime_rate m));
     ("quality_ok_rate", PyFloat (quality_ok_rate m));
     ("invoice_rejection_rate", PyFloat (invoice_rejection_rate m));
     ("payment_failure_rate", PyFloat (payment_failure_rate m))].

(** The dictionary [_compute_supplier_risk_score] returns. *)
Definition risk_dict (r : Risk (F := spec_float)) : PyVal :=
  Workflow.dict_of
    [("supplier_id", Workflow.opt_str (r_supplier_id r));
     ("risk_score", PyFloat (risk_score r));
     ("risk_band", PyStr (band_name (risk_band r)));
     ("metrics", metrics_dict (metrics r))].

(** The ["totals"], ["policy"] and ["amounts"] entries of
    [_recommend_payment_plan]. *)
Definition totals_dict (p : Plan (F := spec_float)) : PyVal :=
  Workflow.dict_of
    [("line_total", PyFloat (b_line_total (p_totals p)));
     ("tax_amount", PyFloat (b_tax_amount (p_totals p)));
     ("freight_amount", PyFloat (b_freight_amount (p_totals p)));
     ("total_po_amount", PyFloat (b_total_po_amount (p_totals p)));
     ("total_in_inr", PyFloat (total_in_inr p))].

Definition policy_dict (p : Policy (F := spec_float)) : PyVal :=
  Workflow.dict_of
    [("band", PyStr (band_name (band p)));
     ("upfront_percent", PyFloat (upfront_percent p));
     ("balance_percent", PyFloat (balance_percent p));
     ("milestone", PyStr (milestone p));
     ("policy_version", PyStr (policy_version p))].

Definition amounts_dict (p : Plan (F := spec_float)) : PyVal :=
  Workflow.dict_of
    [("upfront_amount", PyFloat (upfront_amount p));
     ("balance_amount", PyFloat (balance_amount p))].

(** The dictionary [_recommend_payment_plan] returns. *)
Definition plan_entries (p : Plan (F := spec_float)) : gmap string PyVal :=
  list_to_map
    [("po_id", PyInt (p_po_id p));
     ("supplier_id", Workflow.opt_str (p_supplier_id p));
     ("currency", Workflow.opt_str (p_currency p));
     ("exchange_rate", PyFloat (p_exchange_rate p));
     ("totals", totals_dict p);
     ("risk", risk_dict (risk p));
     ("policy", policy_dict (policy p));
     ("amounts", amounts_dict p)].

Definition plan_dict (p : Plan (F := spec_float)) : PyVal := PyDict (plan_entries p).

(** What [recommend_payment_plan] hands to the caller: the plan, or
    [{"error": True, "message": ...}]. *)
Definition reply_dict (r : Reply (Plan (F := spec_float))) : PyVal :=
  match r with
  | Error e => Workflow.error_dict (error_message e)
  | Success p => plan_dict p
  end.

End PlanDictionaries.

(** A scenario in which the payment tool is the payment server itself,
    over the purchase orders of [history_db]. *)
Definition priced_by_server : Scenario :=
  {| listed := all_tools;
     answers := fun tool args =>
       if String.eqb tool "recommend_payment_plan" then
         match args with
         | PyDict d =>
             match d !! "po_id", d !! "supplier_id" with
             | Some (PyStr ref), Some (PyStr sup) =>
                 Ok (reply_dict
                       (@Payment.recommend_payment_plan spec_float B64.num [] (history_db B64.dec)
                          (Payment.RefStr ref) (Some sup)))
             | _, _ => Raise (Exception_ "unexpected arguments")
             end
         | _ => Raise (Exception_ "unexpected arguments")
         end
       else good_answers tool args |}.

(* ===================================================================== *)
(** * Vocabulary of the properties *)
(* ===================================================================== *)

(** ** Request validation *)

(** The request is well formed in the sense of the code: the four
    required fields are present and truthy, the amount is a number
    (to [isinstance]) that does not satisfy [amount <= 0], and the
    items are a list. *)
Definition accepted (req : gmap string PyVal) : Prop :=
  Forall (fun f => truthy_opt (req !! f) = true) Helpers.required_fields /\
  (exists amount, req !! "amount" = Some amount /\
                  is_int_or_float amount = true /\ num_le_zero amount = false) /\
  (exists l, req !! "items" = Some (PyList l) /\ l <> []).

(** A request whose amount is the float NaN. *)
Definition nan_request : gmap string PyVal :=
  <["supplier_id" := PyStr "SUP001"]>
    (<["amount" := PyFloat f64_nan]>
       (<["department" := PyStr "IT"]>
          (<["items" := PyList [PyStr "laptop"]]> ∅))).

(** ** Routing rules *)

(** "No result recorded": the key is absent or holds an empty
    dictionary. *)
Definition no_result (o : option (gmap string PyVal)) : Prop :=
  o = None \/ o = Some ∅.

Definition not_attempted (o : option bool) : Prop :=
  o = None \/ o = Some false.

(** "Final decision set": a non-empty string is stored. *)
Definition decision_set (o : option string) : Prop :=
  exists s, o = Some s /\ s <> EmptyString.

(** "Notifications not yet sent", as the state can tell: no
    notification result is stored. *)
Definition no_notifications (o : option (list PyVal)) : Prop :=
  o = None \/ o = Some [].

(** The decision order of the routing rules, first match wins. *)
Inductive next_stage (s : Workflow.POWorkflowState) : Workflow.Route -> Prop :=
| rule1 :
    no_result (Workflow.supplier_validation s) ->
    next_stage s Workflow.R_check_supplier
| rule2 :
    ~ no_result (Workflow.supplier_validation s) ->
    no_result (Workflow.budget_check s) ->
    next_stage s Workflow.R_verify_budget
| rule3 :
    ~ no_result (Workflow.supplier_validation s) ->
    ~ no_result (Workflow.budget_check s) ->
    no_result (Workflow.approval_status s) ->
    next_stage s Workflow.R_process_approval
| rule4 :
    ~ no_result (Workflow.supplier_validation s) ->
    ~ no_result (Workflow.budget_check s) ->
    ~ no_result (Workflow.approval_status s) ->
    no_result (Workflow.payment_plan s) /\ not_attempted (Workflow.payment_attempted s) ->
    next_stage s Workflow.R_calculate_payment
| rule5 :
    ~ no_result (Workflow.supplier_validation s) ->
    ~ no_result (Workflow.budget_check s) ->
    ~ no_result (Workflow.approval_status s) ->
    ~ (no_result (Workflow.payment_plan s) /\ not_attempted (Workflow.payment_attempted s)) ->
    decision_set (Workflow.final_decision s) /\ no_notifications (Workflow.notifications s) ->
    next_stage s Workflow.R_send_notifications
| rule6 :
    ~ no_result (Workflow.supplier_validation s) ->
    ~ no_result (Workflow.budget_check s) ->
    ~ no_result (Workflow.approval_status s) ->
    ~ (no_result (Workflow.payment_plan s) /\ not_attempted (Workflow.payment_attempted s)) ->
    ~ (decision_set (Workflow.final_decision s) /\ no_notifications (Workflow.notifications s)) ->
    next_stage s Workflow.R_END.

(** ** Stage handlers and the final decision *)

Section DecisionVocabulary.
Context {World : Type}.

Definition fd (s : World * Workflow.POWorkflowState) : option string := Workflow.final_decision (snd s).

(** Every run of [m] relates the decision before to the decision
    after by [R]. *)
Definition respects (R : option string -> option string -> Prop) {A} (m : Workflow.M World A) : Prop :=
  forall s, R (fd s) (fd (snd (m s))).

(** [m] never ends by [return state]. *)
Definition never_returns {A} (m : Workflow.M World A) : Prop :=
  forall s, fst (m s) <> Workflow.Ret.

(** Unless an exception escapes it, [m] ends with a decision in [D]. *)
Definition settles (D : option string -> Prop) {A} (m : Workflow.M World A) : Prop :=
  forall s, match fst (m s) with
            | Workflow.Exc _ => True
            | _ => D (fd (snd (m s)))
            end.

End DecisionVocabulary.

(** A later stage may only turn the decision into ERROR. *)
Definition kept_or_error (before after_ : option string) : Prop :=
  after_ = before \/ after_ = Some "ERROR".

(** The decisions the approval stage writes. *)
Definition approval_outcome (d : option string) : Prop :=
  d = Some "APPROVED" \/ d = Some "PENDING_APPROVAL" \/ d = Some "ERROR".

(** ** Stage handlers and the rest of the state *)

Section StateVocabulary.
Context {World : Type}.

(** Every run of [m] relates what [proj] reads in the state before to
    what it reads after by [R]. *)
Definition tracks {X} (proj : Workflow.POWorkflowState -> X) (R : X -> X -> Prop)
    {A} (m : Workflow.M World A) : Prop :=
  forall s, R (proj (snd s)) (proj (snd (snd (m s)))).

(** [m] lets no exception escape. *)
Definition never_raises {A} (m : Workflow.M World A) : Prop :=
  forall s e, fst (m s) <> Workflow.Exc e.

End StateVocabulary.

(** The state outside the logs and the decision, which every stage
    may write. *)
Definition forget_common (s : Workflow.POWorkflowState) : Workflow.POWorkflowState :=
  Workflow.set_messages []
    (Workflow.set_errors []
       (Workflow.set_final_decision None (Workflow.set_decision_reason None s))).

(** The state outside the entries that stage [n] owns. *)
Definition forget_own (n : Workflow.Node) (s : Workflow.POWorkflowState)
  : Workflow.POWorkflowState :=
  match n with
  | Workflow.N_validate_request =>
      Workflow.set_po_id None
        (Workflow.set_po_request ∅ (Workflow.set_processing_time None s))
  | Workflow.N_check_supplier => Workflow.set_supplier_validation None s
  | Workflow.N_verify_budget => Workflow.set_budget_check None s
  | Workflow.N_process_approval => Workflow.set_approval_status None s
  | Workflow.N_calculate_payment =>
      Workflow.set_payment_plan None (Workflow.set_payment_attempted None s)
  | Workflow.N_send_notifications => Workflow.set_notifications None s
  end.

Definition frame (n : Workflow.Node) (s : Workflow.POWorkflowState)
  : Workflow.POWorkflowState :=
  forget_own n (forget_common s).

(** A stage ahead of the approval may only refuse: it leaves the
    decision as it is or writes REJECTED or ERROR. *)
Definition kept_or_refused (before after_ : option string) : Prop :=
  after_ = before \/ after_ = Some "REJECTED" \/ after_ = Some "ERROR".

(** A decision that is set stays set. *)
Definition stays_set (before after_ : option string) : Prop :=
  Workflow.str_truthy before = true -> Workflow.str_truthy after_ = true.

(** The payment latch, once set, stays set. *)
Definition stays_latched (before after_ : option bool) : Prop :=
  Workflow.bool_truthy before = true -> Workflow.bool_truthy after_ = true.

(** The position of a node in the order of the stages. *)
Definition rank (n : Workflow.Node) : nat :=
  match n with
  | Workflow.N_validate_request => 0
  | Workflow.N_check_supplier => 1
  | Workflow.N_verify_budget => 2
  | Workflow.N_process_approval => 3
  | Workflow.N_calculate_payment => 4
  | Workflow.N_send_notifications => 5
  end.

(** The approval block and the decision go together: no approval
    result is on record without a decision. *)
Definition approval_decided (s : Workflow.POWorkflowState) : Prop :=
  Workflow.dict_truthy (Workflow.approval_status s) = true ->
  Workflow.str_truthy (Workflow.final_decision s) = true.

Definition is_str (v : PyVal) : bool :=
  match v with PyStr _ => true | _ => false end.

(** The identifier of the order and the request it is written into. *)
Definition request_ids (s : Workflow.POWorkflowState) : option string * gmap string PyVal :=
  (Workflow.po_id s, Workflow.po_request s).

(** A payment plan is on record only when the payment stage has been
    through. *)
Definition plan_attempted (s : Workflow.POWorkflowState) : Prop :=
  Workflow.dict_truthy (Workflow.payment_plan s) = true ->
  Workflow.bool_truthy (Workflow.payment_attempted s) = true.

(** A result entry is left as it is or holds a non-empty dictionary. *)
Definition kept_or_recorded (before after_ : option (gmap string PyVal)) : Prop :=
  after_ = before \/ Workflow.dict_truthy after_ = true.

(** ** Budgets *)

(** A budget entry is sound when nothing negative is reserved and
    what is spent and reserved stays within the allocation. *)
Definition solvent (budget : BudgetServer.Entry Q) : Prop :=
  (0 <= BudgetServer.reserved budget)%Q /\
  (0 <= @BudgetServer.available_of Q Exact.num budget)%Q.

(** Two entries that agree up to the value of the fractions. *)
Definition same_entry (a b : BudgetServer.Entry Q) : Prop :=
  BudgetServer.name a = BudgetServer.name b /\
  BudgetServer.fiscal_year a = BudgetServer.fiscal_year b /\
  (BudgetServer.allocated a == BudgetServer.allocated b)%Q /\
  (BudgetServer.spent a == BudgetServer.spent b)%Q /\
  (BudgetServer.reserved a == BudgetServer.reserved b)%Q.

(** The budget of one department: 50000 allocated, 12000 spent, 3000
    reserved. *)
Definition it_budgets : gmap string (BudgetServer.Entry Q) :=
  {["IT" := BudgetServer.mkEntry (PyStr "Information Technology") (PyStr "2025")
              50000%Q 12000%Q 3000%Q]}.

(** ** Approval tiers and suppliers *)

(** Thresholds in ascending order of their amounts. *)
Fixpoint ascending (thresholds : list (ApprovalServer.Threshold Q)) : Prop :=
  match thresholds with
  | [] => True
  | t :: rest =>
      Forall (fun u => (ApprovalServer.max_amount t <= ApprovalServer.max_amount u)%Q) rest /\
      ascending rest
  end.

(** Three tiers: automatic up to 1000, the manager up to 10000, the
    director up to 50000. *)
Definition three_tiers : list (ApprovalServer.Threshold Q) :=
  [ApprovalServer.mkThreshold 1000%Q (PyList []) (Some (PyBool true));
   ApprovalServer.mkThreshold 10000%Q (PyList [PyStr "manager"]) (Some (PyBool false));
   ApprovalServer.mkThreshold 50000%Q (PyList [PyStr "manager"; PyStr "director"]) None].

(** Two suppliers, one approved for hardware up to 100000, one
    suspended. *)
Definition two_suppliers : gmap string (SupplierServer.Supplier Q) :=
  <["SUP001" := SupplierServer.mkSupplier (PyStr "approved") (PyStr "TechCorp")
                  (PyFloat (B64.dec 45 1)) (Some 100000%Q) (Some [PyStr "hardware"])]>
    (<["SUP002" := SupplierServer.mkSupplier (PyStr "suspended") (PyStr "Officeland")
                     (PyFloat (B64.dec 30 1)) (Some 5000%Q) (Some [PyStr "office"])]> ∅).

(** ** The two pricing tools of the payment server *)

(** The plan repeats what the base payment reports: the order, its
    supplier, the currency and rate, and the five totals. *)
Definition repeats_base {F : Type} (plan : Payment.Plan (F := F))
    (base : Payment.Base (F := F)) : Prop :=
  Payment.p_po_id plan = Payment.b_po_id base /\
  Payment.p_supplier_id plan = Payment.b_supplier_id base /\
  Payment.p_currency plan = Payment.b_currency base /\
  Payment.p_exchange_rate plan = Payment.b_exchange_rate base /\
  Payment.b_line_total (Payment.p_totals plan) = Payment.b_line_total base /\
  Payment.b_tax_amount (Payment.p_totals plan) = Payment.b_tax_amount base /\
  Payment.b_freight_amount (Payment.p_totals plan) = Payment.b_freight_amount base /\
  Payment.b_total_po_amount (Payment.p_totals plan) = Payment.b_total_po_amount base /\
  Payment.total_in_inr plan = Payment.b_total_in_inr base.

(** [format] accepts every float under the two specifications the
    handlers use. *)
Definition formats_floats (B : Workflow.Builtins) : Prop :=
  forall (f : spec_float) (spec : string),
    spec = ".2f" \/ spec = ",.2f" -> exists t, Workflow.py_format B (PyFloat f) spec = Ok t.

(* ===================================================================== *)
(** * Properties *)
(* ===================================================================== *)

(** ** Request validation *)

Section ValidationFacts.
Import Helpers.

Lemma first_missing_none_iff (req : gmap string PyVal) (fields : list string) :
  first_missing req fields = None <->
  Forall (fun f => truthy_opt (req !! f) = true) fields.
Proof.
  induction fields as [|f rest IH]; simpl.
  - split; [constructor | reflexivity].
  - destruct (truthy_opt (req !! f)) eqn:Hf; simpl.
    + rewrite IH. split; [intros Hr; constructor; assumption|].
      intros Hall. inversion Hall; assumption.
    + split; [discriminate|]. intros Hall. inversion Hall; congruence.
Qed.

Lemma first_missing_some (req : gmap string PyVal) (fields : list string) (f : string) :
  first_missing req fields = Some f ->
  In f fields /\ truthy_opt (req !! f) = false.
Proof.
  induction fields as [|g rest IH]; simpl; [discriminate|].
  destruct (truthy_opt (req !! g)) eqn:Hg; simpl.
  - intros Hm. destruct (IH Hm) as [Hin Hf]. split; [right; assumption | assumption].
  - intros Hm. injection Hm as <-. split; [left; reflexivity | assumption].
Qed.

Lemma truthy_opt_present (req : gmap string PyVal) (k : string) :
  truthy_opt (req !! k) = true -> exists v, req !! k = Some v /\ truthy v = true.
Proof.
  destruct (req !! k) as [v|]; simpl; [|discriminate]. intros Hv. exists v. auto.
Qed.


Lemma validate_po_request_total (req : gmap string PyVal) :
  exists ok msg, validate_po_request req = Ok (ok, msg).
Proof.
  unfold validate_po_request.
  destruct (first_missing req required_fields) as [f|] eqn:Hm; [eauto|].
  apply first_missing_none_iff in Hm.
  unfold required_fields in Hm. rewrite !Forall_cons in Hm.
  destruct Hm as (_ & Ha & _ & Hi & _).
  apply truthy_opt_present in Ha as (a & Ha & _).
  apply truthy_opt_present in Hi as (i & Hi & _).
  unfold subscript. rewrite Ha, Hi.
  destruct (negb (is_int_or_float a) || num_le_zero a); [eauto|].
  destruct i; eauto. destruct (length l =? 0)%nat; eauto.
Qed.

Lemma validate_po_request_accepts_iff (req : gmap string PyVal) :
  (exists msg, validate_po_request req = Ok (true, msg)) <-> accepted req.
Proof.
  unfold validate_po_request, accepted. split.
  - intros [msg Hv].
    destruct (first_missing req required_fields) as [f|] eqn:Hm; [discriminate|].
    apply first_missing_none_iff in Hm. split; [assumption|].
    unfold subscript in Hv.
    destruct (req !! "amount") as [a|] eqn:Ha; [|discriminate].
    destruct (negb (is_int_or_float a) || num_le_zero a) eqn:Hn; [discriminate|].
    apply orb_false_iff in Hn as [Hn1 Hn2]. apply negb_false_iff in Hn1.
    split; [exists a; auto|].
    destruct (req !! "items") as [i|] eqn:Hi; [|discriminate].
    destruct i; try discriminate.
    destruct l as [|x l]; [discriminate|]. exists (x :: l). split; [reflexivity|discriminate].
  - intros (Hall & (a & Ha & Hnum & Hle) & (l & Hi & Hl)).
    apply first_missing_none_iff in Hall. rewrite Hall.
    unfold subscript. rewrite Ha, Hi, Hnum, Hle. simpl.
    destruct l as [|x l]; [contradiction|]. simpl. eauto.
Qed.

End ValidationFacts.


(** C10 (divergence).  [validate_po_request] declares the request whose
    amount is NaN valid, although NaN is not greater than 0: the test
    [amount <= 0] is false on it. *)
Theorem validate_po_request_accepts_nan :
  Helpers.validate_po_request nan_request = Ok (true, "Valid") /\
  is_int_or_float (PyFloat f64_nan) = true /\
  truthy (PyFloat f64_nan) = true /\
  num_le_zero (PyFloat f64_nan) = false /\
  num_gt_zero (PyFloat f64_nan) = false.
Proof. vm_compute. repeat split. Qed.

(** ** The router *)

Section RouterFacts.
Import Workflow.


Lemma dict_truthy_false (o : option (gmap string PyVal)) :
  dict_truthy o = false <-> no_result o.
Proof.
  unfold dict_truthy, no_result, dict_nonempty. destruct o as [d|].
  - rewrite negb_false_iff, Nat.eqb_eq, map_size_empty_iff.
    split; [intros ->; right; reflexivity | intros [H|H]; congruence].
  - split; [left; reflexivity | reflexivity].
Qed.

Lemma bool_truthy_false (o : option bool) :
  bool_truthy o = false <-> not_attempted o.
Proof.
  unfold bool_truthy, not_attempted. destruct o as [[|]|]; split;
    try discriminate; try tauto; intros [H|H]; congruence.
Qed.

Lemma str_truthy_true (o : option string) :
  str_truthy o = true <-> decision_set o.
Proof.
  unfold str_truthy, decision_set. destruct o as [[|a s]|]; simpl; split;
    try discriminate.
  - intros (s & Hs & Hne). congruence.
  - intros _. eexists. split; [reflexivity | discriminate].
  - reflexivity.
  - intros (s & Hs & _). discriminate.
Qed.

Lemma list_truthy_false (o : option (list PyVal)) :
  list_truthy o = false <-> no_notifications o.
Proof.
  unfold list_truthy, no_notifications. destruct o as [[|x l]|]; simpl; split;
    try discriminate; try tauto; intros [H|H]; congruence.
Qed.

Lemma dict_truthy_true (o : option (gmap string PyVal)) :
  dict_truthy o = true <-> ~ no_result o.
Proof.
  rewrite <- dict_truthy_false. destruct (dict_truthy o); split; congruence.
Qed.

Lemma should_continue_sound (s : POWorkflowState) : next_stage s (should_continue s).
Proof.
  unfold should_continue.
  destruct (dict_truthy (supplier_validation s)) eqn:H1; simpl;
    [apply dict_truthy_true in H1 | apply dict_truthy_false in H1; constructor; assumption].
  destruct (dict_truthy (budget_check s)) eqn:H2; simpl;
    [apply dict_truthy_true in H2 | apply dict_truthy_false in H2; constructor; assumption].
  destruct (dict_truthy (approval_status s)) eqn:H3; simpl;
    [apply dict_truthy_true in H3 | apply dict_truthy_false in H3; constructor; assumption].
  destruct (negb (dict_truthy (payment_plan s)) && negb (bool_truthy (payment_attempted s)))
    eqn:H4.
  - apply andb_true_iff in H4 as [H4a H4b].
    apply negb_true_iff in H4a, H4b.
    apply dict_truthy_false in H4a. apply bool_truthy_false in H4b.
    apply rule4; auto.
  - assert (H4' : ~ (no_result (payment_plan s) /\ not_attempted (payment_attempted s))).
    { intros [Ha Hb]. apply dict_truthy_false in Ha. apply bool_truthy_false in Hb.
      rewrite Ha, Hb in H4. discriminate. }
    destruct (str_truthy (final_decision s) && negb (list_truthy (notifications s))) eqn:H5.
    + apply andb_true_iff in H5 as [H5a H5b]. apply negb_true_iff in H5b.
      apply str_truthy_true in H5a. apply list_truthy_false in H5b.
      apply rule5; auto.
    + apply rule6; auto. intros [Ha Hb].
      apply str_truthy_true in Ha. apply list_truthy_false in Hb.
      rewrite Ha, Hb in H5. discriminate.
Qed.

Lemma next_stage_functional (s : POWorkflowState) (r1 r2 : Route) :
  next_stage s r1 -> next_stage s r2 -> r1 = r2.
Proof. intros H1 H2. destruct H1; destruct H2; try reflexivity; tauto. Qed.

End RouterFacts.

(** C3.  [should_continue] is a total function of the state alone that
    applies the six rules in order, first match wins: its answer is the
    one and only answer the rules allow.  Rule 4 does not look at
    [final_decision]: with the three results recorded, no plan and no
    attempt, the answer is [calculate_payment] whatever the decision
    is, REJECTED and ERROR included. *)
Theorem should_continue_first_match :
  (forall s r, Workflow.should_continue s = r <-> next_stage s r) /\
  (forall s, exists! r, Workflow.should_continue s = r) /\
  (forall s, In (Workflow.should_continue s)
               [Workflow.R_check_supplier; Workflow.R_verify_budget;
                Workflow.R_process_approval; Workflow.R_calculate_payment;
                Workflow.R_send_notifications; Workflow.R_END]) /\
  (forall s decision,
      ~ no_result (Workflow.supplier_validation s) ->
      ~ no_result (Workflow.budget_check s) ->
      ~ no_result (Workflow.approval_status s) ->
      no_result (Workflow.payment_plan s) ->
      not_attempted (Workflow.payment_attempted s) ->
      Workflow.should_continue (Workflow.set_final_decision decision s)
      = Workflow.R_calculate_payment).
Proof.
  split; [|split; [|split]].
  - intros s r. split.
    + intros <-. apply should_continue_sound.
    + intros Hr. apply (next_stage_functional s); [apply should_continue_sound | assumption].
  - intros s. exists (Workflow.should_continue s). split; [reflexivity | auto].
  - intros s. unfold Workflow.should_continue.
    repeat match goal with |- context [if ?b then _ else _] => destruct b end;
      simpl; tauto.
  - intros s decision H1 H2 H3 H4 H5.
    apply (next_stage_functional (Workflow.set_final_decision decision s));
      [apply should_continue_sound | apply rule4; simpl; auto].
Qed.

(** The state the unknown-supplier run reaches after the approval
    stage, with the decision put back to REJECTED: payment is still
    scheduled. *)
Lemma should_continue_first_match_witness :
  Workflow.should_continue
    (Workflow.set_final_decision (Some "REJECTED")
       (after unknown_supplier Workflow.N_process_approval
          (after unknown_supplier Workflow.N_verify_budget
             (after unknown_supplier Workflow.N_check_supplier
                (after unknown_supplier Workflow.N_validate_request laptop_state)))))
  = Workflow.R_calculate_payment.
Proof.
  apply (proj2 (proj2 (proj2 should_continue_first_match))).
  - apply dict_truthy_true. vm_compute. reflexivity.
  - apply dict_truthy_true. vm_compute. reflexivity.
  - apply dict_truthy_true. vm_compute. reflexivity.
  - left. vm_compute. reflexivity.
  - right. vm_compute. reflexivity.
Defined.

(** ** Facts of the exact reading *)

Section ExactFacts.
Import Payment.
Local Open Scope Q_scope.

Ltac exact_ops :=
  cbn [num_leb num_ltb num_of_Z num_eqb num_add num_sub num_mul num_div
       num_round Exact.num] in *.

(** Split on every comparison whose operands are free of conditionals,
    innermost first, and turn the outcome into an inequality. *)
Ltac qcases :=
  repeat match goal with
  | |- context [Qle_bool ?a ?b] =>
      lazymatch a with context [if _ then _ else _] => fail | _ => idtac end;
      lazymatch b with context [if _ then _ else _] => fail | _ => idtac end;
      let E := fresh "E" in
      destruct (Qle_bool a b) eqn:E;
      [apply Qle_bool_iff in E
      |apply not_true_iff_false in E; rewrite Qle_bool_iff in E; apply Qnot_le_lt in E];
      cbn [negb]
  end.


Lemma clamp_cases (v lo hi : Q) :
  lo <= hi ->
  (v <= lo /\ clampQ v lo hi == lo) \/
  (lo < v < hi /\ clampQ v lo hi == v) \/
  (hi <= v /\ clampQ v lo hi == hi).
Proof.
  intros Hlh. unfold clampQ, _clamp, py_max, py_min. exact_ops.
  qcases; try (exfalso; lra);
    first [ left; split; [lra | reflexivity]
          | right; left; split; [lra | reflexivity]
          | right; right; split; [lra | reflexivity]
          | left; split; [lra | lra]
          | right; right; split; [lra | lra] ].
Qed.

Lemma clamp_bounds (v lo hi : Q) : lo <= hi -> lo <= clampQ v lo hi <= hi.
Proof.
  intros Hlh.
  destruct (clamp_cases v lo hi Hlh) as [[? E]|[[? E]|[? E]]]; rewrite E; lra.
Qed.

(** The code's clamp is the mathematical one. *)
Lemma clamp_minmax (v lo hi : Q) :
  lo <= hi -> clampQ v lo hi == Qmax lo (Qmin hi v).
Proof.
  intros Hlh.
  destruct (clamp_cases v lo hi Hlh) as [[? E]|[[? E]|[? E]]]; rewrite E.
  - rewrite (Q.min_r hi v) by lra. rewrite Q.max_l by lra. reflexivity.
  - rewrite (Q.min_r hi v) by lra. rewrite Q.max_r by lra. reflexivity.
  - rewrite (Q.min_l hi v) by lra. rewrite Q.max_r by lra. reflexivity.
Qed.

Lemma clamp_monotone (v1 v2 lo hi : Q) :
  lo <= hi -> v1 <= v2 -> clampQ v1 lo hi <= clampQ v2 lo hi.
Proof.
  intros Hlh Hv.
  destruct (clamp_cases v1 lo hi Hlh) as [[? E1]|[[? E1]|[? E1]]];
    destruct (clamp_cases v2 lo hi Hlh) as [[? E2]|[[? E2]|[? E2]]];
    rewrite E1, E2; lra.
Qed.

Lemma lerp_medium (v : Q) :
  lerpQ v (inject_Z 60) (inject_Z 79) (inject_Z 70) (inject_Z 85)
  == 70 + (v - 60) * (15 # 19).
Proof.
  unfold lerpQ, _lerp. exact_ops.
  change (Qeq_bool (inject_Z 79) (inject_Z 60)) with false. cbv iota.
  unfold inject_Z. field.
Qed.

Lemma lerp_high (v : Q) :
  lerpQ v (inject_Z 40) (inject_Z 59) (inject_Z 40) (inject_Z 60)
  == 40 + (v - 40) * (20 # 19).
Proof.
  unfold lerpQ, _lerp. exact_ops.
  change (Qeq_bool (inject_Z 59) (inject_Z 40)) with false. cbv iota.
  unfold inject_Z. field.
Qed.

Lemma lerp_very_high (v : Q) :
  lerpQ v (inject_Z 0) (inject_Z 39) (inject_Z 0) (inject_Z 30) == v * (30 # 39).
Proof.
  unfold lerpQ, _lerp. exact_ops.
  change (Qeq_bool (inject_Z 39) (inject_Z 0)) with false. cbv iota.
  unfold inject_Z. field.
Qed.

(** The four segments of the policy, on the clamped score. *)
Lemma upfront_percent_cases (s : Q) :
  let c := clampQ s 0 100 in
  (80 <= c /\ upQ s == 100) \/
  (60 <= c < 80 /\ upQ s == 70 + (c - 60) * (15 # 19)) \/
  (40 <= c < 60 /\ upQ s == 40 + (c - 40) * (20 # 19)) \/
  (c < 40 /\ upQ s == c * (30 # 39)).
Proof.
  intros c. unfold upQ, _upfront_percent.
  change (_clamp s (num_of_Z 0) (num_of_Z 100)) with c.
  clearbody c. exact_ops. fold lerpQ.
  qcases.
  - left. split; [exact E | reflexivity].
  - right; left. split; [split; assumption | apply lerp_medium].
  - right; right; left. split; [split; assumption | apply lerp_high].
  - right; right; right. split; [assumption | apply lerp_very_high].
Qed.

Lemma upfront_percent_monotone (s1 s2 : Q) : s1 <= s2 -> upQ s1 <= upQ s2.
Proof.
  intros H.
  pose proof (upfront_percent_cases s1) as C1.
  pose proof (upfront_percent_cases s2) as C2. cbv zeta in *.
  pose proof (clamp_monotone s1 s2 0 100 ltac:(lra) H) as Hc.
  pose proof (clamp_bounds s1 0 100 ltac:(lra)) as B1.
  pose proof (clamp_bounds s2 0 100 ltac:(lra)) as B2.
  revert Hc B1 B2 C1 C2.
  generalize (clampQ s1 0 100) (clampQ s2 0 100). intros c1 c2 Hc B1 B2 C1 C2.
  destruct C1 as [[? E1]|[[? E1]|[[? E1]|[? E1]]]];
    destruct C2 as [[? E2]|[[? E2]|[[? E2]|[? E2]]]]; rewrite E1, E2; lra.
Qed.

Lemma upfront_percent_range (s : Q) : 0 <= upQ s <= 100.
Proof.
  pose proof (upfront_percent_cases s) as C. cbv zeta in C.
  pose proof (clamp_bounds s 0 100 ltac:(lra)) as B.
  revert B C. generalize (clampQ s 0 100). intros c B C.
  destruct C as [[? E]|[[? E]|[[? E]|[? E]]]]; rewrite E; lra.
Qed.

(** The thresholds cut the line into four disjoint intervals. *)
Lemma risk_band_cases (s : Q) :
  (80 <= s /\ bandQ s = LOW) \/
  (60 <= s < 80 /\ bandQ s = MEDIUM) \/
  (40 <= s < 60 /\ bandQ s = HIGH) \/
  (s < 40 /\ bandQ s = VERY_HIGH).
Proof.
  unfold bandQ, _risk_band. exact_ops. unfold inject_Z. qcases.
  - left. auto.
  - right; left. auto.
  - right; right; left. auto.
  - right; right; right. auto.
Qed.

(** *** Rounding *)

Lemma round_half_even_comp (x y : Q) : x == y -> round_half_even x = round_half_even y.
Proof.
  intros E. unfold round_half_even.
  rewrite (Qfloor_comp x y E).
  assert (E' : x - inject_Z (Qfloor y) == y - inject_Z (Qfloor y)) by (rewrite E; reflexivity).
  rewrite (Qcompare_comp _ _ E' (1 # 2) (1 # 2) (Qeq_refl _)). reflexivity.
Qed.

Lemma round_half_even_near (q : Q) :
  round_half_even q = Qfloor q \/
  (round_half_even q = (Qfloor q + 1)%Z /\ 1 # 2 <= q - inject_Z (Qfloor q)).
Proof.
  unfold round_half_even.
  destruct (Qcompare (q - inject_Z (Qfloor q)) (1 # 2)) eqn:C.
  - apply Qeq_alt in C. destruct (Z.even (Qfloor q)); [left; reflexivity|].
    right. split; [reflexivity | rewrite C; lra].
  - left; reflexivity.
  - apply Qgt_alt in C. right. split; [reflexivity | lra].
Qed.

Lemma round_half_even_le (q : Q) (n : Z) : q <= inject_Z n -> (round_half_even q <= n)%Z.
Proof.
  intros H. pose proof (Qfloor_le q) as Hf.
  assert (Hfn : (Qfloor q <= n)%Z) by (rewrite Zle_Qle; lra).
  destruct (round_half_even_near q) as [->|[-> Hh]]; [assumption|].
  destruct (Z.eq_dec (Qfloor q) n) as [Heq|Hne]; [exfalso; rewrite Heq in Hh; lra | lia].
Qed.

Lemma round_half_even_ge (q : Q) (n : Z) : inject_Z n <= q -> (n <= round_half_even q)%Z.
Proof.
  intros H.
  assert (Hfn : (n <= Qfloor q)%Z).
  { pose proof (Qlt_floor q) as Hlt.
    destruct (Z_le_gt_dec n (Qfloor q)) as [Hle|Hgt]; [assumption|exfalso].
    assert (Hz : (Qfloor q + 1 <= n)%Z) by lia.
    rewrite Zle_Qle in Hz. revert Hz Hlt H. generalize (inject_Z (Qfloor q + 1)) (inject_Z n). intros a b Hz Hlt H. lra. }
  destruct (round_half_even_near q) as [->|[-> _]]; lia.
Qed.

Lemma round_half_even_Z (n : Z) : round_half_even (inject_Z n) = n.
Proof.
  apply Z.le_antisymm.
  - apply round_half_even_le. lra.
  - apply round_half_even_ge. lra.
Qed.

(** A whole number of cents is its own rounding to 2 decimals. *)
Lemma q_round_cents (n : Z) (x : Q) :
  x == inject_Z n / 100 -> Exact.q_round 2 x == x.
Proof.
  intros E. unfold Exact.q_round. change (inject_Z (10 ^ 2)) with 100.
  assert (E' : x * 100 == inject_Z n) by (rewrite E; field).
  rewrite (round_half_even_comp _ _ E'), round_half_even_Z. symmetry. exact E.
Qed.

Lemma q_round_is_cents (x : Q) :
  Exact.q_round 2 x == inject_Z (round_half_even (x * 100)) / 100.
Proof. reflexivity. Qed.

Lemma q_round_range (x : Q) : 0 <= x <= 100 -> 0 <= Exact.q_round 2 x <= 100.
Proof.
  intros [H0 H1]. unfold Exact.q_round. change (inject_Z (10 ^ 2)) with 100.
  assert (Hl : (0 <= round_half_even (x * 100))%Z)
    by (apply round_half_even_ge; unfold inject_Z; lra).
  assert (Hu : (round_half_even (x * 100) <= 10000)%Z)
    by (apply round_half_even_le; unfold inject_Z; lra).
  rewrite Zle_Qle in Hl, Hu.
  split.
  - apply Qle_shift_div_l; [reflexivity | unfold inject_Z in *; lra].
  - apply Qle_shift_div_r; [reflexivity | unfold inject_Z in *; lra].
Qed.

(** *** The ratios of the risk score *)


Lemma clamp01_range (x : Q) : 0 <= clamp01 x <= 1.
Proof.
  unfold clamp01. split; [apply Q.le_max_l|].
  apply Q.max_lub; [lra | apply Q.le_min_l].
Qed.

Lemma ratio_or_range (default num den : Q) :
  0 <= default <= 1 -> 0 <= ratio_or default num den <= 1.
Proof.
  intros Hd. unfold ratio_or. destruct (Qeq_bool den 0); [assumption | apply clamp01_range].
Qed.





Lemma py_max_Qmax (a b : Q) : @py_max Q Exact.num a b == Qmax a b.
Proof.
  unfold py_max. exact_ops. qcases.
  - rewrite Q.max_l by assumption. reflexivity.
  - rewrite Q.max_r by lra. reflexivity.
Qed.

Lemma fulfillment_of_spec (ordered received : Q) :
  @fulfillment_of Q Exact.num ordered received == ratio_or 1 received ordered.
Proof.
  unfold fulfillment_of, ratio_or. exact_ops.
  change (inject_Z 0) with 0. change (inject_Z 1) with 1.
  destruct (Qeq_bool ordered 0); [reflexivity|].
  fold (clampQ (received / @py_max Q Exact.num ordered 1) 0 1).
  rewrite clamp_minmax by lra. unfold clamp01. rewrite py_max_Qmax. reflexivity.
Qed.

Lemma count_ratio_spec (default : Q) (total hits : Z) :
  @count_ratio Q Exact.num default total hits
  == ratio_or default (inject_Z hits) (inject_Z total).
Proof.
  unfold count_ratio, ratio_or. exact_ops.
  change (inject_Z 0) with 0. change (inject_Z 1) with 1.
  destruct (Z.eqb_spec total 0) as [->|Hne].
  - reflexivity.
  - assert (Hq : Qeq_bool (inject_Z total) 0 = false).
    { apply not_true_iff_false. rewrite Qeq_bool_iff. unfold Qeq. simpl. lia. }
    rewrite Hq.
    fold (clampQ (inject_Z hits / inject_Z (Z.max total 1)) 0 1).
    rewrite clamp_minmax by lra. unfold clamp01.
    assert (Hm : inject_Z (Z.max total 1) == Qmax (inject_Z total) 1).
    { destruct (Z.max_spec total 1) as [[Hlt ->]|[Hle ->]].
      - rewrite Q.max_r; [reflexivity|]. change 1 with (inject_Z 1). rewrite <- Zle_Qle. lia.
      - rewrite Q.max_l; [reflexivity|]. change 1 with (inject_Z 1). rewrite <- Zle_Qle. lia. }
    rewrite Hm. reflexivity.
Qed.


Lemma weighted_score_spec (f t k i p : Q) :
  @weighted_score Q Exact.num f t k i p
  == 35 * f + 25 * t + 20 * k + 10 * (1 - i) + 10 * (1 - p).
Proof. unfold weighted_score. exact_ops. unfold inject_Z. reflexivity. Qed.

End ExactFacts.

(** ** The payment policy *)

Section PaymentFacts.
Import Payment.
Local Open Scope Q_scope.

Lemma risk_score_ok (db : Db Q) (sid : option string)
    (o r : option (QtyRow Q)) (ot ql iv pa : option CountRow) :
  ordered_q db sid = Ok o -> received_q db sid = Ok r ->
  ontime_q db sid = Ok ot -> quality_q db sid = Ok ql ->
  inv_q db sid = Ok iv -> pay_q db sid = Ok pa ->
  let f := @fulfillment_of Q Exact.num
             (_safe_float (qty_of o) 0) (_safe_float (qty_of r) 0) in
  let t := @count_ratio Q Exact.num 1 (fst (counts_of ot)) (snd (counts_of ot)) in
  let k := @count_ratio Q Exact.num 1 (fst (counts_of ql)) (snd (counts_of ql)) in
  let i := @count_ratio Q Exact.num 0 (fst (counts_of iv)) (snd (counts_of iv)) in
  let p := @count_ratio Q Exact.num 0 (fst (counts_of pa)) (snd (counts_of pa)) in
  exists risk,
    @_compute_supplier_risk_score Q Exact.num db sid = Ok risk /\
    risk_score risk = Exact.q_round 2 (@weighted_score Q Exact.num f t k i p) /\
    risk_band risk = bandQ (@weighted_score Q Exact.num f t k i p).
Proof.
  intros Ho Hr Hot Hql Hiv Hpa. cbv zeta.
  unfold _compute_supplier_risk_score, res_bind.
  rewrite Ho, Hr, Hot, Hql, Hiv, Hpa.
  destruct (counts_of ot), (counts_of ql), (counts_of iv), (counts_of pa). cbn [fst snd].
  eexists. split; [reflexivity|]. cbn [risk_score risk_band]. split; reflexivity.
Qed.

Lemma band_comp (x y : Q) : x == y -> bandQ x = bandQ y.
Proof.
  intros E.
  destruct (risk_band_cases x) as [[? ->]|[[? ->]|[[? ->]|[? ->]]]];
    destruct (risk_band_cases y) as [[? ->]|[[? ->]|[[? ->]|[? ->]]]];
    try reflexivity; exfalso; lra.
Qed.

Lemma q_round_comp (x y : Q) : x == y -> Exact.q_round 2 x == Exact.q_round 2 y.
Proof.
  intros E. unfold Exact.q_round.
  assert (E' : x * inject_Z (10 ^ 2) == y * inject_Z (10 ^ 2)) by (rewrite E; reflexivity).
  rewrite (round_half_even_comp _ _ E'). reflexivity.
Qed.

Lemma band_partition (s : Q) :
  (bandQ s = LOW <-> 80 <= s) /\
  (bandQ s = MEDIUM <-> 60 <= s < 80) /\
  (bandQ s = HIGH <-> 40 <= s < 60) /\
  (bandQ s = VERY_HIGH <-> s < 40).
Proof.
  destruct (risk_band_cases s) as [[? ->]|[[? ->]|[[? ->]|[? ->]]]];
    repeat split; intros; try discriminate; try lra.
Qed.

(** The total of a purchase order is a whole number of cents. *)
Lemma base_total_cents (db : Db Q) (po_id : Z) (base : Base) :
  @_compute_base_po_amount Q Exact.num db po_id = Ok (Success base) ->
  exists n : Z, b_total_in_inr base == inject_Z n / 100.
Proof.
  unfold _compute_base_po_amount, res_bind.
  destruct (line_q db po_id) as [line_row|]; [|discriminate].
  destruct (head_q db po_id) as [[head|]|]; try discriminate.
  intros E. injection E as <-. cbn [b_total_in_inr].
  eexists. apply q_round_is_cents.
Qed.

End PaymentFacts.

(** C5.  Over exact arithmetic the upfront percentage is non-decreasing
    in the score and lies in [0, 100]; it is 0 at score 0 and 100 at
    scores 80 and 100; a score of exactly 60 is in band MEDIUM with an
    upfront percentage of 70.  The anchor values are the same in
    binary64. *)
Theorem upfront_percent_monotone_bounded_anchored (s1 s2 : Q) :
  (s1 <= s2)%Q ->
  ((upQ s1 <= upQ s2)%Q /\ (0 <= upQ s1 <= 100)%Q /\ (0 <= upQ s2 <= 100)%Q) /\
  ((upQ 0 == 0)%Q /\ (upQ 80 == 100)%Q /\ (upQ 100 == 100)%Q) /\
  (bandQ 60 = Payment.MEDIUM /\ (upQ 60 == 70)%Q) /\
  (up64 (B64.dec 0 0) = B64.dec 0 0 /\ up64 (B64.dec 80 0) = B64.dec 100 0 /\
   up64 (B64.dec 100 0) = B64.dec 100 0 /\
   band64 (B64.dec 60 0) = Payment.MEDIUM /\ up64 (B64.dec 60 0) = B64.dec 70 0).
Proof.
  intros H12. split; [|split; [|split]].
  - split; [apply upfront_percent_monotone; assumption|].
    split; apply upfront_percent_range.
  - repeat split; vm_compute; reflexivity.
  - split; vm_compute; reflexivity.
  - repeat split; vm_compute; reflexivity.
Qed.

Lemma upfront_percent_monotone_bounded_anchored_witness :
  ((upQ 60 <= upQ 79)%Q /\ (0 <= upQ 60 <= 100)%Q /\ (0 <= upQ 79 <= 100)%Q) /\
  ((upQ 0 == 0)%Q /\ (upQ 80 == 100)%Q /\ (upQ 100 == 100)%Q) /\
  (bandQ 60 = Payment.MEDIUM /\ (upQ 60 == 70)%Q) /\
  (up64 (B64.dec 0 0) = B64.dec 0 0 /\ up64 (B64.dec 80 0) = B64.dec 100 0 /\
   up64 (B64.dec 100 0) = B64.dec 100 0 /\
   band64 (B64.dec 60 0) = Payment.MEDIUM /\ up64 (B64.dec 60 0) = B64.dec 70 0).
Proof.
  apply (upfront_percent_monotone_bounded_anchored 60 79); vm_compute; discriminate.
Defined.




(** C4 (counterexample).  In binary64, for purchase order 1 of the
    small database (total 123.45, score 59, upfront 60%), the upfront
    amount is 74.07 and the balance 49.38; the balance is not the
    difference [total - upfront] (49.38000000000001) and the two
    amounts do not add up to the total (123.44999999999999). *)
Lemma payment_plan_balance_rounded_b64 :
  exists plan,
    @Payment.recommend_payment_plan spec_float B64.num [] (history_db B64.dec)
      (Payment.RefInt 1) None = Payment.Success plan /\
    Payment.total_in_inr plan = B64.dec 12345 2 /\
    Payment.upfront_amount plan = B64.dec 7407 2 /\
    Payment.balance_amount plan = B64.dec 4938 2 /\
    SFeqb (Payment.balance_amount plan)
          (B64.sub (Payment.total_in_inr plan) (Payment.upfront_amount plan)) = false /\
    SFeqb (B64.add (Payment.upfront_amount plan) (Payment.balance_amount plan))
          (Payment.total_in_inr plan) = false /\
    ~ @balance_is_difference spec_float B64.num plan.
Proof.
  eexists. split; [vm_compute; reflexivity|].
  repeat split; try (vm_compute; reflexivity).
  intros [H _]. vm_compute in H. discriminate.
Qed.

(** C4 (amended).  Over exact arithmetic, the upfront amount is
    [round(total * pct / 100, 2)] and the balance is
    [round(total - upfront, 2)]; the total being a whole number of
    cents, that second rounding changes nothing: the balance is
    [total - upfront] and the two amounts add up to the total. *)
Theorem payment_plan_amounts_exact (db : Payment.Db Q) (po_id : Z) (plan : Payment.Plan) :
  @Payment._recommend_payment_plan Q Exact.num db po_id = Ok (Payment.Success plan) ->
  let total := Payment.total_in_inr plan in
  let pct := upQ (Payment.risk_score (Payment.risk plan)) in
  (Payment.upfront_amount plan == Exact.q_round 2 (total * pct / 100))%Q /\
  (Payment.balance_amount plan
   == Exact.q_round 2 (total - Payment.upfront_amount plan))%Q /\
  (Payment.balance_amount plan == total - Payment.upfront_amount plan)%Q /\
  (Payment.upfront_amount plan + Payment.balance_amount plan == total)%Q /\
  @balance_is_difference Q Exact.num plan.
Proof.
  unfold Payment._recommend_payment_plan, res_bind.
  destruct (@Payment._compute_base_po_amount Q Exact.num db po_id)
    as [[e|base]|e] eqn:Hbase; try discriminate.
  destruct (@Payment._compute_supplier_risk_score Q Exact.num db (Payment.b_supplier_id base))
    as [risk|e]; [|discriminate].
  intros E. injection E as <-.
  cbn [Payment.total_in_inr Payment.risk Payment.upfront_amount Payment.balance_amount].
  cbv zeta.
  destruct (base_total_cents db po_id base Hbase) as [n Hn].
  set (total := Payment.b_total_in_inr base) in *.
  fold upQ.
  cbn [num_round num_div num_mul num_sub num_of_Z Exact.num].
  change (inject_Z 100) with 100%Q.
  set (up := Exact.q_round 2 (total * upQ (Payment.risk_score risk) / 100)).
  assert (Hup : (up == inject_Z (round_half_even
                     (total * upQ (Payment.risk_score risk) / 100 * 100)) / 100)%Q)
    by apply q_round_is_cents.
  set (m := round_half_even _) in Hup.
  assert (Hdiff : (total - up == inject_Z (n - m) / 100)%Q).
  { rewrite Hn, Hup. unfold Zminus. rewrite inject_Z_plus, inject_Z_opp. field. }
  assert (Hbal : (Exact.q_round 2 (total - up) == total - up)%Q)
    by (apply (q_round_cents (n - m)); exact Hdiff).
  split; [reflexivity|]. split; [reflexivity|]. split; [exact Hbal|].
  split; [rewrite Hbal; ring|].
  unfold balance_is_difference.
  cbn [Payment.total_in_inr Payment.upfront_amount Payment.balance_amount].
  fold total. fold upQ.
  cbn [num_eqb num_add num_round num_div num_mul num_sub num_of_Z Exact.num].
  change (inject_Z 100) with 100%Q. fold up.
  split; apply Qeq_bool_iff; [exact Hbal|].
  rewrite Hbal. ring.
Qed.

Lemma payment_plan_amounts_exact_witness :
  exists plan,
    @Payment._recommend_payment_plan Q Exact.num (history_db q_dec) 1
    = Ok (Payment.Success plan) /\
    (Payment.upfront_amount plan + Payment.balance_amount plan
     == Payment.total_in_inr plan)%Q /\
    (Payment.total_in_inr plan == 12345 # 100)%Q.
Proof.
  eexists. split; [vm_compute; reflexivity|]. split.
  - apply (payment_plan_amounts_exact (history_db q_dec) 1). vm_compute. reflexivity.
  - vm_compute. reflexivity.
Defined.

(** ** Supplier risk: failures *)

Section RiskFailures.
Import Payment.

Lemma risk_score_raises_iff (db : Db spec_float) (sid : option string) :
  raises (@_compute_supplier_risk_score spec_float B64.num db sid) <->
  raises (ordered_q db sid) \/ raises (received_q db sid) \/
  raises (ontime_q db sid) \/ raises (quality_q db sid) \/
  raises (inv_q db sid) \/ raises (pay_q db sid).
Proof.
  unfold _compute_supplier_risk_score, res_bind, raises.
  destruct (ordered_q db sid) as [o|e1]; [|split; eauto].
  destruct (received_q db sid) as [r|e2]; [|split; eauto].
  destruct (ontime_q db sid) as [ot|e3]; [|split; eauto 6].
  destruct (counts_of ot).
  destruct (quality_q db sid) as [ql|e4]; [|split; eauto 7].
  destruct (counts_of ql).
  destruct (inv_q db sid) as [iv|e5]; [|split; eauto 8].
  destruct (counts_of iv).
  destruct (pay_q db sid) as [pa|e6]; [|split; eauto 9].
  destruct (counts_of pa).
  split.
  - intros [e He]. discriminate.
  - intros [[e He]|[[e He]|[[e He]|[[e He]|[[e He]|[e He]]]]]]; discriminate.
Qed.

Lemma risk_score_metrics (db : Db spec_float) (sid : option string) (risk : Risk) :
  @_compute_supplier_risk_score spec_float B64.num db sid = Ok risk ->
  exists o r ot ql iv pa,
    ordered_q db sid = Ok o /\ received_q db sid = Ok r /\
    ontime_q db sid = Ok ot /\ quality_q db sid = Ok ql /\
    inv_q db sid = Ok iv /\ pay_q db sid = Ok pa /\
    fulfillment_ratio (metrics risk)
    = B64.round 3 (@fulfillment_of spec_float B64.num
                     (_safe_float (qty_of o) (f64_of_Z 0))
                     (_safe_float (qty_of r) (f64_of_Z 0))) /\
    ontime_rate (metrics risk)
    = B64.round 3 (@count_ratio spec_float B64.num (f64_of_Z 1)
                     (fst (counts_of ot)) (snd (counts_of ot))) /\
    quality_ok_rate (metrics risk)
    = B64.round 3 (@count_ratio spec_float B64.num (f64_of_Z 1)
                     (fst (counts_of ql)) (snd (counts_of ql))) /\
    invoice_rejection_rate (metrics risk)
    = B64.round 3 (@count_ratio spec_float B64.num (f64_of_Z 0)
                     (fst (counts_of iv)) (snd (counts_of iv))) /\
    payment_failure_rate (metrics risk)
    = B64.round 3 (@count_ratio spec_float B64.num (f64_of_Z 0)
                     (fst (counts_of pa)) (snd (counts_of pa))).
Proof.
  unfold _compute_supplier_risk_score, res_bind.
  destruct (ordered_q db sid) as [o|e1]; [|discriminate].
  destruct (received_q db sid) as [r|e2]; [|discriminate].
  destruct (ontime_q db sid) as [ot|e3]; [|discriminate].
  destruct (counts_of ot) eqn:Hot.
  destruct (quality_q db sid) as [ql|e4]; [|discriminate].
  destruct (counts_of ql) eqn:Hql.
  destruct (inv_q db sid) as [iv|e5]; [|discriminate].
  destruct (counts_of iv) eqn:Hiv.
  destruct (pay_q db sid) as [pa|e6]; [|discriminate].
  destruct (counts_of pa) eqn:Hpa.
  intros E. injection E as <-.
  exists o, r, ot, ql, iv, pa. rewrite Hot, Hql, Hiv, Hpa.
  cbn [metrics fulfillment_ratio ontime_rate quality_ok_rate invoice_rejection_rate
       payment_failure_rate fst snd].
  repeat split; reflexivity.
Qed.

End RiskFailures.

(** C8 (counterexample).  In the small database that has no row at all
    for supplier NOSUCH the risk tool answers with a score, 100 in band
    LOW, not with an error; and when one statement alone fails, the one
    over [Payments], the same tool answers with an error for a supplier
    it scores otherwise. *)
Lemma supplier_risk_unknown_scores_failure_aborts :
  (exists risk,
      @Payment.compute_supplier_risk spec_float B64.num (history_db B64.dec) (Some "NOSUCH")
      = Payment.Success risk /\
      Payment.risk_score risk = B64.dec 100 0 /\
      Payment.risk_band risk = Payment.LOW) /\
  (exists risk,
      @Payment.compute_supplier_risk spec_float B64.num (history_db B64.dec) (Some "SUP001")
      = Payment.Success risk) /\
  @Payment.compute_supplier_risk spec_float B64.num (payments_down_db B64.dec) (Some "SUP001")
  = Payment.Error (Payment.ToolFailed "compute_supplier_risk" (RuntimeError "connection lost")).
Proof.
  split; [|split].
  - eexists. split; [vm_compute; reflexivity|]. split; vm_compute; reflexivity.
  - eexists. vm_compute. reflexivity.
  - vm_compute. reflexivity.
Qed.

(** C8 (amended).  The risk tool answers with an error exactly when the
    supplier identifier is empty once stripped, or one of the six
    aggregate statements raises; a supplier the database knows nothing
    of is scored like any other.  When the tool answers with a score, a
    statement that gave no total (no row, NULL or 0) leaves its ratio
    at the zero-denominator default: 1 for fulfillment, on-time and
    quality, 0 for invoice rejection and payment failure. *)
Theorem supplier_risk_error_iff (db : Payment.Db spec_float) (supplier_id : option string) :
  let sid := strip (Payment.or_empty supplier_id) in
  ((exists e, @Payment.compute_supplier_risk spec_float B64.num db supplier_id
              = Payment.Error e) <->
   sid = EmptyString \/
   raises (Payment.ordered_q db (Some sid)) \/ raises (Payment.received_q db (Some sid)) \/
   raises (Payment.ontime_q db (Some sid)) \/ raises (Payment.quality_q db (Some sid)) \/
   raises (Payment.inv_q db (Some sid)) \/ raises (Payment.pay_q db (Some sid))) /\
  (forall risk,
      @Payment.compute_supplier_risk spec_float B64.num db supplier_id
      = Payment.Success risk ->
      let m := Payment.metrics risk in
      (no_quantity (Payment.ordered_q db (Some sid)) ->
       Payment.fulfillment_ratio m = B64.dec 1 0) /\
      (no_total (Payment.ontime_q db (Some sid)) -> Payment.ontime_rate m = B64.dec 1 0) /\
      (no_total (Payment.quality_q db (Some sid)) ->
       Payment.quality_ok_rate m = B64.dec 1 0) /\
      (no_total (Payment.inv_q db (Some sid)) ->
       Payment.invoice_rejection_rate m = B64.dec 0 0) /\
      (no_total (Payment.pay_q db (Some sid)) ->
       Payment.payment_failure_rate m = B64.dec 0 0)).
Proof.
  intros sid. unfold Payment.compute_supplier_risk. fold sid.
  destruct sid as [|c rest] eqn:Hsid; cbn [str_nonempty negb].
  - split; [split; [auto | eauto] | intros risk Hr; discriminate].
  - set (s := String c rest) in *.
    pose proof (risk_score_raises_iff db (Some s)) as Hraise.
    destruct (@Payment._compute_supplier_risk_score spec_float B64.num db (Some s))
      as [risk|e] eqn:Hscore.
    + split.
      * split; [intros [e He]; discriminate|].
        intros [Hempty|Hq]; [discriminate|].
        apply Hraise in Hq. destruct Hq as [e He]. discriminate.
      * intros risk' E. injection E as <-.
        destruct (risk_score_metrics db (Some s) risk Hscore)
          as (o & r & ot & ql & iv & pa & Ho & Hr & Hot & Hql & Hiv & Hpa
              & Mf & Mt & Mk & Mi & Mp).
        cbv zeta. rewrite Mf, Mt, Mk, Mi, Mp.
        repeat split.
        -- intros (row & Hrow & Hz). rewrite Ho in Hrow. injection Hrow as <-.
           unfold Payment.fulfillment_of. cbn [num_eqb num_of_Z B64.num].
           rewrite Hz. vm_compute. reflexivity.
        -- intros (row & Hrow & Hz). rewrite Hot in Hrow. injection Hrow as <-.
           unfold Payment.count_ratio. rewrite Hz. vm_compute. reflexivity.
        -- intros (row & Hrow & Hz). rewrite Hql in Hrow. injection Hrow as <-.
           unfold Payment.count_ratio. rewrite Hz. vm_compute. reflexivity.
        -- intros (row & Hrow & Hz). rewrite Hiv in Hrow. injection Hrow as <-.
           unfold Payment.count_ratio. rewrite Hz. vm_compute. reflexivity.
        -- intros (row & Hrow & Hz). rewrite Hpa in Hrow. injection Hrow as <-.
           unfold Payment.count_ratio. rewrite Hz. vm_compute. reflexivity.
    + split; [|intros risk Hr; discriminate].
      split; [intros _; right; apply Hraise; exists e; reflexivity | eauto].
Qed.

Lemma supplier_risk_error_iff_witness :
  (exists e, @Payment.compute_supplier_risk spec_float B64.num
               (payments_down_db B64.dec) (Some " SUP001 ") = Payment.Error e) /\
  (exists risk,
      @Payment.compute_supplier_risk spec_float B64.num (history_db B64.dec) (Some "NOSUCH")
      = Payment.Success risk /\
      Payment.ontime_rate (Payment.metrics risk) = B64.dec 1 0).
Proof.
  split.
  - apply (proj1 (supplier_risk_error_iff (payments_down_db B64.dec) (Some " SUP001 "))).
    right. do 5 right. exists (RuntimeError "connection lost"). reflexivity.
  - eexists. split; [vm_compute; reflexivity|].
    apply (proj2 (supplier_risk_error_iff (history_db B64.dec) (Some "NOSUCH")) _
             ltac:(vm_compute; reflexivity)).
    exists (Some no_count). split; reflexivity.
Defined.

(** ** Identifier resolution *)

Section ResolutionFacts.
Import Payment.

(** Without a stable key the payment tool answers "Cannot resolve",
    whatever the database holds; "PO ... not found" is the answer for a
    key that resolved and has no row. *)
Lemma unresolved_reference_reply {F : Type} `{PyNum F} (db : Db F)
    (po_ref : PoRef) (supplier_id : option string) :
  _map_request_to_po po_ref supplier_id = None ->
  recommend_payment_plan [] db po_ref supplier_id = Error (CannotResolve po_ref).
Proof. intros Hnone. unfold recommend_payment_plan. cbn. rewrite Hnone. reflexivity. Qed.

Lemma resolved_missing_reply {F : Type} `{PyNum F} (db : Db F)
    (po_ref : PoRef) (supplier_id : option string) (pid : Z) :
  _map_request_to_po po_ref supplier_id = Some pid -> pid <> 0 ->
  exists_q db pid = Ok None ->
  recommend_payment_plan [] db po_ref supplier_id = Error (PoNotInTable pid).
Proof.
  intros Hsome Hnz Hex. unfold recommend_payment_plan, _po_exists, res_bind. cbn.
  rewrite Hsome. destruct (Z.eqb_spec pid 0) as [?|_]; [contradiction|].
  rewrite Hex. reflexivity.
Qed.

End ResolutionFacts.

(** C9 (divergence).  A timestamp-like reference, as an integer or as a
    string of digits, is returned as it is by [_map_request_to_po]
    although [_looks_like_request_code] recognises it and a mapped
    supplier comes with it; the PO-prefixed reference of the same
    supplier is mapped to key 1.  The payment tool then answers
    "PO 20250822151755 not found in PurchaseOrders.po_id". *)
Theorem timestamp_reference_not_mapped :
  Payment._looks_like_request_code (Payment.RefInt 20250822151755) = true /\
  Payment._map_request_to_po (Payment.RefInt 20250822151755) (Some "SUP001")
  = Some 20250822151755 /\
  Payment._map_request_to_po (Payment.RefStr "20250822151755") (Some "SUP001")
  = Some 20250822151755 /\
  Payment._map_request_to_po (Payment.RefStr "PO-20250822151755") (Some "SUP001") = Some 1 /\
  @Payment.recommend_payment_plan spec_float B64.num [] (history_db B64.dec)
    (Payment.RefInt 20250822151755) (Some "SUP001")
  = Payment.Error (Payment.PoNotInTable 20250822151755) /\
  Payment.error_message (Payment.PoNotInTable 20250822151755)
  = "PO 20250822151755 not found in PurchaseOrders.po_id".
Proof. repeat split; vm_compute; reflexivity. Qed.

(** ** Stage handlers and the final decision *)

Section HandlerLogic.
Import Workflow.
Context {World Tool : Type} (B : Builtins) (C : Collab World Tool).


Section Respects.
Variable R : option string -> option string -> Prop.
Hypothesis R_refl : forall d, R d d.
Hypothesis R_trans : forall a b c, R a b -> R b c -> R a c.

Lemma respects_ret {A} (a : A) : respects R (ret (W := World) a).
Proof. intros s. apply R_refl. Qed.

Lemma respects_raise {A} (e : PyExn) : respects R (raise (W := World) (A := A) e).
Proof. intros s. apply R_refl. Qed.

Lemma respects_return_state {A} : respects R (return_state (W := World) (A := A)).
Proof. intros s. apply R_refl. Qed.

Lemma respects_get_state : respects R (get_state (W := World)).
Proof. intros s. apply R_refl. Qed.

Lemma respects_lift_res {A} (r : Res A) : respects R (lift_res (W := World) r).
Proof. intros s. destruct r; apply R_refl. Qed.

Lemma respects_call {A} (f : World -> Res A * World) : respects R (call f).
Proof.
  intros s. unfold call, fd. destruct (f (fst s)) as [[a|e] w]; apply R_refl.
Qed.

Lemma respects_call_total {A} (f : World -> A * World) : respects R (call_total f).
Proof.
  intros s. unfold call_total, fd. destruct (f (fst s)) as [a w]. apply R_refl.
Qed.

Lemma respects_modify (f : POWorkflowState -> POWorkflowState) :
  (forall st, final_decision (f st) = final_decision st) ->
  respects R (modify (W := World) f).
Proof. intros Hf s. unfold modify, fd. cbn. rewrite Hf. apply R_refl. Qed.

Lemma respects_bind {A A'} (m : M World A) (k : A -> M World A') :
  respects R m -> (forall a, respects R (k a)) -> respects R (bind m k).
Proof.
  intros Hm Hk s. unfold bind. specialize (Hm s).
  destruct (m s) as [[a| |e] s']; cbn in *; [|assumption|assumption].
  eapply R_trans; [exact Hm | apply Hk].
Qed.

Lemma respects_try_except {A} (body : M World A) (handler : PyExn -> M World A) :
  respects R body -> (forall e, respects R (handler e)) ->
  respects R (try_except body handler).
Proof.
  intros Hb Hh s. unfold try_except. specialize (Hb s).
  destruct (body s) as [[a| |e] s']; cbn in *; [assumption|assumption|].
  eapply R_trans; [exact Hb | apply Hh].
Qed.

Lemma respects_try_finally {A} (body : M World A) (final : M World unit) :
  respects R body -> respects R final -> respects R (try_finally body final).
Proof.
  intros Hb Hf s. unfold try_finally. specialize (Hb s).
  destruct (body s) as [c s']. specialize (Hf s').
  destruct (final s') as [[u| |e] s'']; cbn in *; eapply R_trans; eassumption.
Qed.

Lemma respects_state_item {A} (key : string) (field : POWorkflowState -> option A) :
  respects R (state_item (World := World) key field).
Proof.
  unfold state_item. apply respects_bind; [apply respects_get_state|].
  intros st. destruct (field st); [apply respects_ret | apply respects_raise].
Qed.

Lemma respects_request_item (key : string) : respects R (request_item (World := World) key).
Proof.
  unfold request_item. apply respects_bind; [apply respects_get_state|].
  intros st. apply respects_lift_res.
Qed.

Lemma respects_append_message (m : Message) : respects R (append_message (World := World) m).
Proof. apply respects_modify. reflexivity. Qed.

Lemma respects_append_error (msg : string) : respects R (append_error (World := World) msg).
Proof. apply respects_modify. reflexivity. Qed.

Lemma respects_explain (reason : string) : respects R (explain (World := World) reason).
Proof. apply respects_modify. reflexivity. Qed.

Lemma respects_get_tools_safe (server : string) : respects R (get_tools_safe C server).
Proof.
  unfold get_tools_safe. apply respects_try_except.
  - apply respects_bind; [apply respects_call|].
    intros [[|t l]|d|]; try apply respects_ret.
    destruct (dict_nonempty _); apply respects_ret.
  - intros e. apply respects_ret.
Qed.

Lemma respects_tools_get (tools : Tools Tool) (name : string) :
  respects R (tools_get (World := World) tools name).
Proof. destruct tools; [apply respects_ret | apply respects_raise]. Qed.

Lemma respects_decide (d : string) :
  (forall old, R old (Some d)) -> respects R (decide_ (World := World) d).
Proof. intros Hd s. unfold decide_, modify, fd. cbn. apply Hd. Qed.

End Respects.


Lemma kept_or_error_refl (d : option string) : kept_or_error d d.
Proof. left; reflexivity. Qed.

Lemma kept_or_error_trans (a b c : option string) :
  kept_or_error a b -> kept_or_error b c -> kept_or_error a c.
Proof. unfold kept_or_error. intros [-> | ->] [-> | ->]; auto. Qed.

(** One step of a proof that a handler body respects a relation:
    take the body apart along its construction. *)
Ltac respects_step side :=
  lazymatch goal with
  | |- forall _, _ => intros
  | |- respects _ (bind _ _) => apply respects_bind; [solve [side] | | ]
  | |- respects _ (ret _) => apply respects_ret; solve [side]
  | |- respects _ (raise _) => apply respects_raise; solve [side]
  | |- respects _ return_state => apply respects_return_state; solve [side]
  | |- respects _ get_state => apply respects_get_state; solve [side]
  | |- respects _ (lift_res _) => apply respects_lift_res; solve [side]
  | |- respects _ (call _) => apply respects_call; solve [side]
  | |- respects _ (call_total _) => apply respects_call_total; solve [side]
  | |- respects _ (state_item _ _) => apply respects_state_item; solve [side]
  | |- respects _ (request_item _) => apply respects_request_item; solve [side]
  | |- respects _ (append_message _) => apply respects_append_message; solve [side]
  | |- respects _ (append_error _) => apply respects_append_error; solve [side]
  | |- respects _ (explain _) => apply respects_explain; solve [side]
  | |- respects _ (get_tools_safe _ _) => apply respects_get_tools_safe; solve [side]
  | |- respects _ (tools_get _ _) => apply respects_tools_get; solve [side]
  | |- respects _ (decide_ _) => apply respects_decide; solve [side]
  | |- respects _ (modify _) => apply respects_modify; [solve [side] | reflexivity]
  | |- respects _ (try_except _ _) => apply respects_try_except; [solve [side] | | ]
  | |- respects _ (try_finally _ _) => apply respects_try_finally; [solve [side] | | ]
  | |- respects _ (match ?x with _ => _ end) => destruct x
  end.

Ltac side_eq := first [ intros; reflexivity | intros; congruence ].
Ltac side_err :=
  first [ apply kept_or_error_refl | apply kept_or_error_trans
        | intros; right; reflexivity ].

Lemma send_notifications_quiet : respects eq (send_notifications B C).
Proof.
  unfold send_notifications, send_notifications_body, send_email, send_slack.
  repeat respects_step side_eq.
Qed.

Lemma stage_failed_error (prefix : string) (e : PyExn) :
  respects kept_or_error (stage_failed (World := World) prefix e).
Proof. unfold stage_failed. repeat respects_step side_err. Qed.

Lemma describe_plan_quiet (plan : PyVal) :
  respects kept_or_error (describe_plan (World := World) B plan).
Proof. unfold describe_plan. repeat respects_step side_err. Qed.

Lemma calculate_payment_error_only : respects kept_or_error (calculate_payment B C).
Proof.
  unfold calculate_payment, calculate_payment_body.
  repeat first [ apply stage_failed_error | apply describe_plan_quiet
               | respects_step side_err ].
Qed.

(** *** Handlers that settle the decision *)

Lemma never_returns_ret {A} (a : A) : never_returns (ret (W := World) a).
Proof. intros s. discriminate. Qed.

Lemma never_returns_raise {A} (e : PyExn) : never_returns (raise (W := World) (A := A) e).
Proof. intros s. discriminate. Qed.

Lemma never_returns_get_state : never_returns (get_state (W := World)).
Proof. intros s. discriminate. Qed.

Lemma never_returns_modify (f : POWorkflowState -> POWorkflowState) :
  never_returns (modify (W := World) f).
Proof. intros s. discriminate. Qed.

Lemma never_returns_lift_res {A} (r : Res A) : never_returns (lift_res (W := World) r).
Proof. intros s. destruct r; discriminate. Qed.

Lemma never_returns_call {A} (f : World -> Res A * World) : never_returns (call f).
Proof. intros s. unfold call. destruct (f (fst s)) as [[a|e] w]; discriminate. Qed.

Lemma never_returns_call_total {A} (f : World -> A * World) : never_returns (call_total f).
Proof. intros s. unfold call_total. destruct (f (fst s)) as [a w]. discriminate. Qed.

Lemma never_returns_bind {A A'} (m : M World A) (k : A -> M World A') :
  never_returns m -> (forall a, never_returns (k a)) -> never_returns (bind m k).
Proof.
  intros Hm Hk s. unfold bind. specialize (Hm s).
  destruct (m s) as [[a| |e] s']; cbn in *; [apply Hk | congruence | discriminate].
Qed.

Lemma never_returns_try_except {A} (body : M World A) (handler : PyExn -> M World A) :
  never_returns body -> (forall e, never_returns (handler e)) ->
  never_returns (try_except body handler).
Proof.
  intros Hb Hh s. unfold try_except. specialize (Hb s).
  destruct (body s) as [[a| |e] s']; cbn in *; [discriminate | congruence | apply Hh].
Qed.

Lemma never_returns_state_item {A} (key : string) (field : POWorkflowState -> option A) :
  never_returns (state_item (World := World) key field).
Proof.
  unfold state_item. apply never_returns_bind; [apply never_returns_get_state|].
  intros st. destruct (field st); [apply never_returns_ret | apply never_returns_raise].
Qed.

Lemma never_returns_request_item (key : string) :
  never_returns (request_item (World := World) key).
Proof.
  unfold request_item. apply never_returns_bind; [apply never_returns_get_state|].
  intros st. apply never_returns_lift_res.
Qed.

Lemma never_returns_get_tools_safe (server : string) : never_returns (get_tools_safe C server).
Proof.
  unfold get_tools_safe. apply never_returns_try_except.
  - apply never_returns_bind; [apply never_returns_call|].
    intros [[|t l]|d|]; try apply never_returns_ret.
    destruct (dict_nonempty _); apply never_returns_ret.
  - intros e. apply never_returns_ret.
Qed.

Lemma never_returns_tools_get (tools : Tools Tool) (name : string) :
  never_returns (tools_get (World := World) tools name).
Proof. destruct tools; [apply never_returns_ret | apply never_returns_raise]. Qed.

Lemma settles_raise (D : option string -> Prop) {A} (e : PyExn) :
  settles D (raise (W := World) (A := A) e).
Proof. intros s. exact I. Qed.

Lemma settles_bind (D : option string -> Prop) {A A'} (m : M World A) (k : A -> M World A') :
  never_returns m -> (forall a, settles D (k a)) -> settles D (bind m k).
Proof.
  intros Hm Hk s. unfold bind. specialize (Hm s).
  destruct (m s) as [[a| |e] s']; cbn in *; [apply Hk | congruence | exact I].
Qed.

(** Once a stage has written its decision, what follows in the same
    branch leaves it alone. *)
Lemma settles_decided (D : option string -> Prop) {A} (d : string) (rest : M World A) :
  D (Some d) -> respects eq rest -> settles D (bind (decide_ d) (fun _ => rest)).
Proof.
  intros Hd Hrest s. unfold bind, decide_, modify. cbn.
  specialize (Hrest (fst s, set_final_decision (Some d) (snd s))).
  unfold fd in *. cbn in Hrest. rewrite <- Hrest.
  destruct (fst (rest _)); [exact Hd | exact Hd | exact I].
Qed.

Lemma settles_try_except (D : option string -> Prop) {A}
    (body : M World A) (handler : PyExn -> M World A) :
  settles D body -> (forall e, settles D (handler e)) -> settles D (try_except body handler).
Proof.
  intros Hb Hh s. unfold try_except. specialize (Hb s).
  destruct (body s) as [[a| |e] s']; cbn in *; [assumption | assumption | apply Hh].
Qed.

Ltac never_returns_step :=
  lazymatch goal with
  | |- forall _, _ => intros
  | |- never_returns (bind _ _) => apply never_returns_bind
  | |- never_returns (ret _) => apply never_returns_ret
  | |- never_returns (raise _) => apply never_returns_raise
  | |- never_returns get_state => apply never_returns_get_state
  | |- never_returns (modify _) => apply never_returns_modify
  | |- never_returns (lift_res _) => apply never_returns_lift_res
  | |- never_returns (call _) => apply never_returns_call
  | |- never_returns (call_total _) => apply never_returns_call_total
  | |- never_returns (state_item _ _) => apply never_returns_state_item
  | |- never_returns (request_item _) => apply never_returns_request_item
  | |- never_returns (get_tools_safe _ _) => apply never_returns_get_tools_safe
  | |- never_returns (tools_get _ _) => apply never_returns_tools_get
  | |- never_returns (append_error _) => apply never_returns_modify
  | |- never_returns (append_message _) => apply never_returns_modify
  | |- never_returns (try_except _ _) => apply never_returns_try_except
  | |- never_returns (match ?x with _ => _ end) => destruct x
  end.

Ltac settles_step D_holds :=
  lazymatch goal with
  | |- forall _, _ => intros
  | |- settles _ (raise _) => apply settles_raise
  | |- settles _ (bind (decide_ _) _) =>
      apply settles_decided; [D_holds | repeat respects_step side_eq]
  | |- settles _ (bind _ _) => apply settles_bind; [repeat never_returns_step | ]
  | |- settles _ (try_except _ _) => apply settles_try_except
  | |- settles _ (match ?x with _ => _ end) => destruct x
  end.


Lemma process_approval_settles : settles approval_outcome (process_approval B C).
Proof.
  unfold process_approval, process_approval_body, request_approval, stage_failed.
  repeat settles_step ltac:(unfold approval_outcome; tauto).
Qed.

(** A stage of the form "read [po_id], then try the body, on any
    exception record an ERROR" hands the state back whenever [po_id]
    is there. *)
Lemma guarded_stage_returns (body : M World unit) (prefix : string)
    (w : World) (state : POWorkflowState) (pid : string) :
  po_id state = Some pid ->
  fst (run_handler
         (bind (state_item "po_id" po_id)
               (fun _ => try_except body (stage_failed prefix))) w state) = None.
Proof.
  intros Hpid. unfold run_handler, bind, state_item, get_state, try_except. cbn.
  rewrite Hpid. cbn. destruct (body (w, state)) as [[u| |e] s']; reflexivity.
Qed.

End HandlerLogic.

(** C1 (counterexample).  The supplier directory does not know the
    supplier: [check_supplier] records its result and decides REJECTED;
    the router goes on to [verify_budget] and [process_approval], and
    the approval stage, told to auto-approve, overwrites REJECTED with
    APPROVED, which is the decision the run ends with. *)
Lemma rejected_supplier_then_approved :
  let s1 := after unknown_supplier Workflow.N_validate_request laptop_state in
  let s2 := after unknown_supplier Workflow.N_check_supplier s1 in
  let s3 := after unknown_supplier Workflow.N_verify_budget s2 in
  let s4 := after unknown_supplier Workflow.N_process_approval s3 in
  Workflow.should_continue s1 = Workflow.R_check_supplier /\
  Workflow.final_decision s2 = Some "REJECTED" /\
  Workflow.should_continue s2 = Workflow.R_verify_budget /\
  Workflow.final_decision s3 = Some "REJECTED" /\
  Workflow.should_continue s3 = Workflow.R_process_approval /\
  Workflow.final_decision s4 = Some "APPROVED" /\
  (exists w state,
      graph_run unknown_supplier 25 = Workflow.Done w state /\
      Workflow.final_decision state = Some "APPROVED").
Proof.
  cbv zeta. repeat split; try (vm_compute; reflexivity).
  eexists _, _. split; vm_compute; reflexivity.
Qed.

(** C1 (amended).  Whatever the collaborators do: [send_notifications]
    leaves [final_decision] as it is; [calculate_payment] leaves it as
    it is or sets ERROR; [process_approval] hands the state back (the
    identifier being assigned) with APPROVED, PENDING_APPROVAL or
    ERROR, whatever the decision was before. *)
Theorem later_stages_final_decision {World Tool : Type}
    (B : Workflow.Builtins) (C : Workflow.Collab World Tool)
    (w : World) (state : Workflow.POWorkflowState) (pid : string) :
  Workflow.po_id state = Some pid ->
  let ending (body : Workflow.M World unit) :=
    Workflow.final_decision (snd (snd (Workflow.run_handler body w state))) in
  ending (Workflow.send_notifications B C) = Workflow.final_decision state /\
  kept_or_error (Workflow.final_decision state) (ending (Workflow.calculate_payment B C)) /\
  fst (Workflow.run_handler (Workflow.process_approval B C) w state) = None /\
  approval_outcome (ending (Workflow.process_approval B C)).
Proof.
  intros Hpid ending. unfold ending, Workflow.run_handler.
  split; [|split; [|split]].
  - pose proof (send_notifications_quiet B C (w, state)) as H. unfold fd in H. cbn in H.
    destruct (Workflow.send_notifications B C (w, state)) as [[u| |e] s']; cbn in *;
      symmetry; exact H.
  - pose proof (calculate_payment_error_only B C (w, state)) as H. unfold fd in H. cbn in H.
    destruct (Workflow.calculate_payment B C (w, state)) as [[u| |e] s']; cbn in *; exact H.
  - exact (guarded_stage_returns (Workflow.process_approval_body B C) _ w state pid Hpid).
  - pose proof (guarded_stage_returns (Workflow.process_approval_body B C)
                  "Error during approval processing: " w state pid Hpid) as Hret.
    pose proof (process_approval_settles B C (w, state)) as H. unfold fd in H.
    unfold Workflow.run_handler in Hret. fold (Workflow.process_approval B C) in Hret.
    destruct (Workflow.process_approval B C (w, state)) as [[u| |e] s']; cbn in *;
      [exact H | exact H | discriminate].
Qed.

Lemma later_stages_final_decision_witness :
  let s3 := after unknown_supplier Workflow.N_verify_budget
              (after unknown_supplier Workflow.N_check_supplier
                 (after unknown_supplier Workflow.N_validate_request laptop_state)) in
  Workflow.final_decision s3 = Some "REJECTED" /\
  Workflow.final_decision (after unknown_supplier Workflow.N_send_notifications s3)
  = Some "REJECTED" /\
  approval_outcome
    (Workflow.final_decision (after unknown_supplier Workflow.N_process_approval s3)).
Proof.
  cbv zeta. split; [vm_compute; reflexivity|].
  set (s3 := after unknown_supplier Workflow.N_verify_budget _).
  assert (Hpid : Workflow.po_id s3 = Some "PO-20250822151755") by (vm_compute; reflexivity).
  destruct (later_stages_final_decision scenario_builtins (scenario_collab unknown_supplier)
              tt s3 _ Hpid) as (Hn & _ & _ & Ha).
  split.
  - unfold after. cbn [Workflow.handler_of]. rewrite Hn. vm_compute. reflexivity.
  - exact Ha.
Defined.

(** C7 (divergence).  Every service answers [error: true].  On the
    validated request the budget and approval stages decide ERROR, the
    supplier stage decides REJECTED, the decision it also reaches on
    the business answer [valid: false]. *)
Theorem supplier_error_is_rejected :
  let s1 := after failing_services Workflow.N_validate_request laptop_state in
  Workflow.final_decision (after failing_services Workflow.N_check_supplier s1)
  = Some "REJECTED" /\
  Workflow.decision_reason (after failing_services Workflow.N_check_supplier s1)
  = Some "Supplier validation error: service unavailable" /\
  Workflow.final_decision (after failing_services Workflow.N_verify_budget s1)
  = Some "ERROR" /\
  Workflow.final_decision (after failing_services Workflow.N_process_approval s1)
  = Some "ERROR" /\
  Workflow.final_decision (after failing_services Workflow.N_calculate_payment s1)
  = Some "ERROR" /\
  Workflow.final_decision (after unknown_supplier Workflow.N_check_supplier s1)
  = Some "REJECTED".
Proof. cbv zeta. repeat split; vm_compute; reflexivity. Qed.

(** ** Runs that do not end *)

Section EndlessRuns.
Import Workflow.

Lemma quiet_notification_tools (s : unit * POWorkflowState) :
  get_tools_safe (scenario_collab quiet_notifications) "notification" s
  = (Norm (ToolsDict ∅), s).
Proof. destruct s as [[] st]. reflexivity. Qed.

(** Without notification tools the stage stores the empty list and
    adds its audit message; nothing else changes. *)
Lemma quiet_send_notifications (s : POWorkflowState) (pid d : string) :
  po_id s = Some pid -> final_decision s = Some d ->
  run_handler (send_notifications scenario_builtins (scenario_collab quiet_notifications)) tt s
  = (None,
     (tt, set_messages
            (messages s ++ [SystemMessage ("Notifications sent for PO " ++ pid)%string])
            (set_notifications (Some []) s))).
Proof.
  intros Hpid Hfd.
  unfold run_handler, send_notifications, send_notifications_body, try_except,
    state_item, tools_get, append_message, modify, bind, get_state, ret, raise.
  cbn [fst snd]. rewrite Hpid. rewrite quiet_notification_tools. cbn [fst snd].
  rewrite Hfd. rewrite !lookup_empty. cbn [fst snd po_id set_notifications set_messages].
  rewrite Hpid. reflexivity.
Qed.

Lemma quiet_router_stays (s : POWorkflowState) (msgs : list Message) :
  should_continue s = R_send_notifications ->
  should_continue (set_messages msgs (set_notifications (Some []) s)) = R_send_notifications.
Proof.
  unfold should_continue.
  cbn [supplier_validation budget_check approval_status payment_plan payment_attempted
       final_decision notifications set_messages set_notifications].
  destruct (negb (dict_truthy (supplier_validation s))); [discriminate|].
  destruct (negb (dict_truthy (budget_check s))); [discriminate|].
  destruct (negb (dict_truthy (approval_status s))); [discriminate|].
  destruct (negb (dict_truthy (payment_plan s)) && negb (bool_truthy (payment_attempted s)));
    [discriminate|].
  destruct (str_truthy (final_decision s)); cbn; [reflexivity|].
  discriminate.
Qed.

Lemma quiet_loop_never_done (steps : nat) (s : POWorkflowState) (pid : string) :
  should_continue s = R_send_notifications -> po_id s = Some pid ->
  forall w state,
    router_loop scenario_builtins (scenario_collab quiet_notifications) steps tt s
    <> Done w state.
Proof.
  revert s. induction steps as [|k IH]; intros s Hroute Hpid w state.
  - cbn. rewrite Hroute. discriminate.
  - assert (Hfd : exists d, final_decision s = Some d).
    { unfold should_continue in Hroute.
      destruct (final_decision s) as [d|] eqn:Hd; [eauto|].
      repeat match type of Hroute with
             | context [if ?b then _ else _] => destruct b; try discriminate
             end. }
    destruct Hfd as [d Hfd].
    cbn [router_loop]. rewrite Hroute. cbn [node_of_route handler_of].
    rewrite (quiet_send_notifications s pid d Hpid Hfd).
    apply (IH _ (quiet_router_stays s _ Hroute) Hpid).
Qed.

(** If the router names a stage and the loop never ends from the
    state that stage leaves, it never ends from the state before. *)
Lemma router_loop_skip {World Tool : Type} (B : Builtins) (C : Collab World Tool)
    (n : Node) (w w' : World) (s s' : POWorkflowState) :
  node_of_route (should_continue s) = Goto n ->
  run_handler (handler_of B C n) w s = (None, (w', s')) ->
  (forall k w0 st, router_loop B C k w' s' <> Done w0 st) ->
  forall k w0 st, router_loop B C k w s <> Done w0 st.
Proof.
  intros Hroute Hrun Hnext k w0 st.
  destruct k as [|k]; cbn [router_loop]; rewrite Hroute; [discriminate|].
  rewrite Hrun. apply Hnext.
Qed.

(** In a scenario the world is trivial: a stage that hands the state
    back is described by [after]. *)
Lemma scenario_stage (sc : Scenario) (n : Node) (s : POWorkflowState) :
  fst (run_handler (handler_of scenario_builtins (scenario_collab sc) n) tt s) = None ->
  run_handler (handler_of scenario_builtins (scenario_collab sc) n) tt s
  = (None, (tt, after sc n s)).
Proof.
  unfold after. destruct (run_handler _ tt s) as [o [[] s']]. cbn. intros ->. reflexivity.
Qed.

End EndlessRuns.

(** C2 (divergence).  All services answer well and the notification
    server lists no tool.  After [send_notifications] has run, the
    router asks for [send_notifications] again: the graph has no such
    edge out of that node, and the loop that follows the router never
    reaches END, however many stages it may run.  With no server in
    reach it is [check_supplier] that the router asks for again. *)
Theorem router_reschedules_send_notifications (steps : nat) :
  (exists w state,
      graph_run quiet_notifications (6 + steps)
      = Workflow.NoEdge Workflow.N_send_notifications Workflow.R_send_notifications w state /\
      Workflow.notifications state = Some []) /\
  (forall w state, graph_run quiet_notifications steps <> Workflow.Done w state) /\
  (forall w state,
      Workflow.run_loop scenario_builtins (scenario_collab quiet_notifications)
        steps tt laptop_state <> Workflow.Done w state) /\
  (exists w state,
      graph_run no_servers (2 + steps)
      = Workflow.NoEdge Workflow.N_check_supplier Workflow.R_check_supplier w state) /\
  (exists w state, graph_run all_good 25 = Workflow.Done w state).
Proof.
  split; [|split; [|split; [|split]]].
  - eexists _, _. split; vm_compute; reflexivity.
  - intros w state.
    do 6 (destruct steps as [|steps]; [vm_compute; discriminate|]).
    vm_compute. discriminate.
  - intros w state. unfold Workflow.run_loop.
    rewrite (scenario_stage quiet_notifications Workflow.N_validate_request)
      by (vm_compute; reflexivity).
    revert steps w state.
    do 5 (eapply router_loop_skip;
          [vm_compute; reflexivity
          |apply scenario_stage; vm_compute; reflexivity
          |]).
    intros k w0 st. eapply quiet_loop_never_done; vm_compute; reflexivity.
  - eexists _, _. vm_compute. reflexivity.
  - eexists _, _. vm_compute. reflexivity.
Qed.

(** ** Further facts on validation, resolution and the payment latch *)

Section FurtherFacts.
Import Workflow.

(** The message about the amount is reserved to requests whose four
    fields are present and truthy and whose amount is not a number or
    satisfies [amount <= 0]. *)
Lemma validate_po_request_amount_message (req : gmap string PyVal) :
  Helpers.validate_po_request req = Ok (false, "Amount must be a positive number") ->
  Forall (fun f => truthy_opt (req !! f) = true) Helpers.required_fields /\
  exists amount, req !! "amount" = Some amount /\ truthy amount = true /\
                 (is_int_or_float amount = false \/ num_le_zero amount = true).
Proof.
  unfold Helpers.validate_po_request.
  destruct (Helpers.first_missing req Helpers.required_fields) as [f|] eqn:Hm.
  - intros E. simpl in E. discriminate E.
  - apply first_missing_none_iff in Hm. intros E. split; [exact Hm|].
    unfold Helpers.required_fields in Hm. rewrite !Forall_cons in Hm.
    destruct Hm as (_ & Ha & _ & _ & _).
    apply truthy_opt_present in Ha as (a & Ha & Hta).
    exists a. split; [exact Ha|]. split; [exact Hta|].
    unfold subscript in E. rewrite Ha in E.
    destruct (is_int_or_float a); [|left; reflexivity].
    destruct (num_le_zero a); [right; reflexivity|]. cbn in E.
    destruct (req !! "items") as [[]|]; try discriminate.
    destruct (length l =? 0)%nat; discriminate.
Qed.

(** An amount of exactly 0 is reported as a missing field. *)
Lemma validate_po_request_zero_amount :
  Helpers.validate_po_request (<["amount" := PyInt 0]> nan_request)
  = Ok (false, "Missing required field: amount").
Proof. vm_compute. reflexivity. Qed.

(** A PO-prefixed reference that comes with a mapped supplier resolves
    to that supplier's key. *)
Lemma po_code_resolves (s sup : string) (pid : Z) :
  startswith (upper (strip s)) "PO-" = true ->
  int_of_str s = None ->
  sup <> EmptyString ->
  Payment._STATIC_PO_MAP !! upper (strip sup) = Some pid -> pid <> 0 ->
  Payment._map_request_to_po (Payment.RefStr s) (Some sup) = Some pid.
Proof.
  intros Hpre Hint Hsup Hmap Hnz.
  unfold Payment._map_request_to_po, Payment.int_of_ref, Payment._looks_like_request_code.
  rewrite Hint, Hpre. destruct sup as [|c rest]; [contradiction|]. cbn [str_nonempty andb].
  rewrite Hmap. destruct (Z.eqb_spec pid 0); [contradiction | reflexivity].
Qed.

(** Whatever happens in the payment stage, [payment_attempted] is
    set when it hands the state back. *)
Lemma calculate_payment_latches {World Tool : Type} (B : Builtins) (C : Collab World Tool)
    (w : World) (state : POWorkflowState) (pid : string) :
  po_id state = Some pid ->
  let r := run_handler (calculate_payment B C) w state in
  fst r = None /\ payment_attempted (snd (snd r)) = Some true.
Proof.
  intros Hpid. unfold run_handler, calculate_payment, bind, state_item, get_state. cbn.
  rewrite Hpid. cbn. unfold try_finally, modify.
  destruct (try_except (calculate_payment_body B C) _ (w, state)) as [c s'] eqn:Hbody.
  cbn.
  assert (Hc : forall e, c <> Exc e).
  { intros e ->. unfold try_except in Hbody.
    destruct (calculate_payment_body B C (w, state)) as [[u| |e'] s0]; discriminate. }
  destruct c as [u| |e]; [split; reflexivity | split; reflexivity |].
  exfalso. exact (Hc e eq_refl).
Qed.

(** Once the latch is set, the router does not ask for the payment
    stage. *)
Lemma latched_payment_not_rescheduled (state : POWorkflowState) :
  payment_attempted state = Some true ->
  should_continue state <> R_calculate_payment.
Proof.
  intros Hlatch. unfold should_continue. rewrite Hlatch. cbn.
  rewrite andb_false_r.
  repeat match goal with
         | |- context [if ?b then _ else _] => destruct b
         end; discriminate.
Qed.

End FurtherFacts.

(** The request of the scenarios is well formed: [process_po] builds
    its initial state, and validation accepts it. *)
Lemma laptop_state_initial :
  Workflow.initial_state scenario_builtins laptop_request = Ok laptop_state /\
  Helpers.validate_po_request laptop_request = Ok (true, "Valid").
Proof. split; vm_compute; reflexivity. Qed.

(* ===================================================================== *)
(** * Further properties of the code *)
(* ===================================================================== *)

(** ** Request validation, case by case *)

Section VerdictFacts.
Import Helpers.

Lemma first_missing_split (req : gmap string PyVal) (fields : list string) (f : string) :
  first_missing req fields = Some f ->
  exists pre post,
    fields = (pre ++ f :: post)%list /\
    Forall (fun g => truthy_opt (req !! g) = true) pre /\
    truthy_opt (req !! f) = false.
Proof.
  induction fields as [|g rest IH]; [discriminate|]. cbn [first_missing].
  destruct (truthy_opt (req !! g)) eqn:E; cbn [negb].
  - intros H. destruct (IH H) as (pre & post & -> & Hpre & Hf).
    exists (g :: pre), post. split; [reflexivity|]. split; [|exact Hf].
    constructor; assumption.
  - intros H. injection H as <-. exists [], rest.
    split; [reflexivity|]. split; [constructor | exact E].
Qed.

(** X1.  [validate_po_request] never raises, and its verdict is one
    of four: valid, exactly for the well-formed requests; a missing
    field, named after the first required field, in the order
    supplier_id, amount, department, items, that is absent or falsy
    (an amount of 0 and an empty item list are reported this way);
    the amount message, when all four fields are truthy and the
    amount is no number or satisfies [amount <= 0]; the items message,
    when all is well but the items are not a list.  The test for an
    empty list behind that message is never reached. *)
Theorem validate_po_request_verdict (req : gmap string PyVal) :
  let present := Forall (fun f => truthy_opt (req !! f) = true) required_fields in
  (validate_po_request req = Ok (true, "Valid") /\ accepted req) \/
  (exists pre f post,
      required_fields = (pre ++ f :: post)%list /\
      Forall (fun g => truthy_opt (req !! g) = true) pre /\
      truthy_opt (req !! f) = false /\
      validate_po_request req = Ok (false, ("Missing required field: " ++ f)%string)) \/
  (present /\
   (exists amount, req !! "amount" = Some amount /\
                   (is_int_or_float amount = false \/ num_le_zero amount = true)) /\
   validate_po_request req = Ok (false, "Amount must be a positive number")) \/
  (present /\
   (exists amount, req !! "amount" = Some amount /\
                   is_int_or_float amount = true /\ num_le_zero amount = false) /\
   (exists items, req !! "items" = Some items /\
                  truthy items = true /\ is_list items = false) /\
   validate_po_request req = Ok (false, "Items must be a non-empty list")).
Proof.
  cbv zeta. unfold validate_po_request.
  destruct (first_missing req required_fields) as [f|] eqn:Hm.
  - right; left. destruct (first_missing_split _ _ _ Hm) as (pre & post & Hsplit & Hpre & Hf).
    exists pre, f, post. repeat split; assumption.
  - pose proof Hm as Hall. apply first_missing_none_iff in Hall.
    pose proof Hall as Hfields. unfold required_fields in Hfields.
    rewrite !Forall_cons in Hfields. destruct Hfields as (_ & Ha & _ & Hi & _).
    apply truthy_opt_present in Ha as (a & Ha & Hta).
    apply truthy_opt_present in Hi as (items & Hi & Hti).
    unfold subscript. rewrite Ha, Hi.
    destruct (is_int_or_float a) eqn:Hnum; cbn [negb orb].
    + destruct (num_le_zero a) eqn:Hle.
      * right; right; left. split; [exact Hall|]. split; [|reflexivity].
        exists a. split; [reflexivity | right; exact Hle].
      * destruct items as [| | | | |l|] eqn:Hitems;
          try (right; right; right; split; [exact Hall|];
               split; [exists a; repeat split; first [reflexivity | assumption]|];
               split; [eexists; repeat split; first [reflexivity | exact Hti]
                      | reflexivity]).
        destruct l as [|x l]; [discriminate Hti|]. cbn.
        left. split; [reflexivity|].
        unfold accepted. split; [exact Hall|]. split.
        -- exists a. repeat split; assumption.
        -- exists (x :: l). split; [exact Hi | discriminate].
    + right; right; left. split; [exact Hall|]. split; [|reflexivity].
      exists a. split; [reflexivity | left; exact Hnum].
Qed.

End VerdictFacts.

(** ** Stripping and upper-casing *)

Section StringFacts.

Lemma str_app_cons (a : ascii) (s t : string) :
  (String a s ++ t)%string = String a (s ++ t).
Proof. reflexivity. Qed.

Lemma str_app_nil_l (t : string) : (EmptyString ++ t)%string = t.
Proof. reflexivity. Qed.

Lemma str_app_assoc (s t u : string) : ((s ++ t) ++ u)%string = (s ++ t ++ u)%string.
Proof.
  induction s as [|a s IH]; [reflexivity|].
  rewrite !str_app_cons, IH. reflexivity.
Qed.

Lemma str_app_nil_r (s : string) : (s ++ "")%string = s.
Proof.
  induction s as [|a s IH]; [reflexivity|]. rewrite str_app_cons, IH. reflexivity.
Qed.

Lemma str_rev_onto_app (s acc : string) :
  str_rev_onto s acc = (str_rev s ++ acc)%string.
Proof.
  unfold str_rev. revert acc. induction s as [|a s IH]; intros acc; cbn [str_rev_onto].
  - reflexivity.
  - rewrite IH. rewrite (IH (String a EmptyString)).
    rewrite str_app_assoc. reflexivity.
Qed.

Lemma str_rev_cons (a : ascii) (s : string) :
  str_rev (String a s) = (str_rev s ++ String a EmptyString)%string.
Proof. unfold str_rev at 1. cbn [str_rev_onto]. apply str_rev_onto_app. Qed.

Lemma str_rev_app (s t : string) :
  str_rev (s ++ t) = (str_rev t ++ str_rev s)%string.
Proof.
  induction s as [|a s IH].
  - rewrite str_app_nil_l. change (str_rev "") with EmptyString.
    rewrite str_app_nil_r. reflexivity.
  - rewrite str_app_cons, !str_rev_cons, IH, str_app_assoc. reflexivity.
Qed.

Lemma str_rev_involutive (s : string) : str_rev (str_rev s) = s.
Proof.
  induction s as [|a s IH]; [reflexivity|].
  rewrite str_rev_cons, str_rev_app, IH. reflexivity.
Qed.

Lemma lstrip_idempotent (s : string) : lstrip (lstrip s) = lstrip s.
Proof.
  induction s as [|a s IH]; [reflexivity|]. cbn.
  destruct (is_space a) eqn:E; [exact IH|]. cbn. rewrite E. reflexivity.
Qed.

(** What [lstrip] returns is empty or starts with a character that is
    no whitespace. *)
Lemma lstrip_head (s : string) :
  lstrip s = EmptyString \/
  exists a t, lstrip s = String a t /\ is_space a = false.
Proof.
  induction s as [|a s IH]; [left; reflexivity|]. cbn.
  destruct (is_space a) eqn:E; [exact IH|]. right. exists a, s. split; [reflexivity | exact E].
Qed.

Lemma lstrip_app_last (s : string) (a : ascii) :
  is_space a = false ->
  lstrip (s ++ String a EmptyString) = (lstrip s ++ String a EmptyString)%string.
Proof.
  intros Ha. induction s as [|b s IH].
  - rewrite str_app_nil_l. cbn [lstrip]. rewrite Ha. reflexivity.
  - rewrite str_app_cons. cbn [lstrip].
    destruct (is_space b); [exact IH | reflexivity].
Qed.

(** [rstrip] goes past a leading character that is no whitespace. *)
Lemma rstrip_cons (a : ascii) (s : string) :
  is_space a = false -> rstrip (String a s) = String a (rstrip s).
Proof.
  intros Ha. unfold rstrip.
  rewrite str_rev_cons, (lstrip_app_last _ _ Ha), str_rev_app. reflexivity.
Qed.

Lemma rstrip_idempotent (s : string) : rstrip (rstrip s) = rstrip s.
Proof. unfold rstrip. rewrite str_rev_involutive, lstrip_idempotent. reflexivity. Qed.

Lemma strip_idempotent (s : string) : strip (strip s) = strip s.
Proof.
  unfold strip.
  assert (H : lstrip (rstrip (lstrip s)) = rstrip (lstrip s)).
  { destruct (lstrip_head s) as [-> | (a & t & -> & Ha)]; [reflexivity|].
    rewrite (rstrip_cons _ _ Ha). cbn. rewrite Ha. reflexivity. }
  rewrite H. apply rstrip_idempotent.
Qed.

Lemma is_space_upper (a : ascii) : is_space (upper_ascii a) = is_space a.
Proof. destruct a as [[] [] [] [] [] [] [] []]; reflexivity. Qed.

Lemma upper_ascii_idempotent (a : ascii) : upper_ascii (upper_ascii a) = upper_ascii a.
Proof. destruct a as [[] [] [] [] [] [] [] []]; reflexivity. Qed.

Lemma upper_idempotent (s : string) : upper (upper s) = upper s.
Proof.
  induction s as [|a s IH]; [reflexivity|]. cbn.
  rewrite upper_ascii_idempotent, IH. reflexivity.
Qed.

Lemma upper_app (s t : string) : upper (s ++ t) = (upper s ++ upper t)%string.
Proof.
  induction s as [|a s IH]; [reflexivity|].
  rewrite str_app_cons. cbn [upper]. rewrite IH. reflexivity.
Qed.

Lemma lstrip_upper (s : string) : lstrip (upper s) = upper (lstrip s).
Proof.
  induction s as [|a s IH]; [reflexivity|]. cbn. rewrite is_space_upper.
  destruct (is_space a); [exact IH | reflexivity].
Qed.

Lemma str_rev_upper (s : string) : str_rev (upper s) = upper (str_rev s).
Proof.
  induction s as [|a s IH]; [reflexivity|]. cbn [upper].
  rewrite !str_rev_cons, IH, upper_app. reflexivity.
Qed.

Lemma strip_upper (s : string) : strip (upper s) = upper (strip s).
Proof.
  unfold strip, rstrip.
  rewrite lstrip_upper, str_rev_upper, lstrip_upper, str_rev_upper. reflexivity.
Qed.

Lemma upper_empty (s : string) : upper s = EmptyString -> s = EmptyString.
Proof. destruct s; [reflexivity | discriminate]. Qed.

End StringFacts.

(** ** Stage handlers and the rest of the state *)

Section StageLogic.
Import Workflow.
Context {World Tool : Type} (B : Builtins) (C : Collab World Tool).

Lemma run_handler_state (m : M World unit) (w : World) (state : POWorkflowState) :
  snd (run_handler m w state) = snd (m (w, state)).
Proof. unfold run_handler. destruct (m (w, state)) as [[u| |e] s']; reflexivity. Qed.

Section Tracks.
Context {X : Type} (proj : POWorkflowState -> X) (R : X -> X -> Prop) `{!PreOrder R}.

Lemma tracks_ret {A} (a : A) : tracks proj R (ret (W := World) a).
Proof. intros s. reflexivity. Qed.

Lemma tracks_raise {A} (e : PyExn) : tracks proj R (raise (W := World) (A := A) e).
Proof. intros s. reflexivity. Qed.

Lemma tracks_return_state {A} : tracks proj R (return_state (W := World) (A := A)).
Proof. intros s. reflexivity. Qed.

Lemma tracks_get_state : tracks proj R (get_state (W := World)).
Proof. intros s. reflexivity. Qed.

Lemma tracks_lift_res {A} (r : Res A) : tracks proj R (lift_res (W := World) r).
Proof. intros s. destruct r; reflexivity. Qed.

Lemma tracks_call {A} (f : World -> Res A * World) : tracks proj R (call f).
Proof. intros s. unfold call. destruct (f (fst s)) as [[a|e] w]; reflexivity. Qed.

Lemma tracks_call_total {A} (f : World -> A * World) : tracks proj R (call_total f).
Proof. intros s. unfold call_total. destruct (f (fst s)) as [a w]. reflexivity. Qed.

Lemma tracks_modify (f : POWorkflowState -> POWorkflowState) :
  (forall st, R (proj st) (proj (f st))) -> tracks proj R (modify (W := World) f).
Proof. intros Hf s. apply Hf. Qed.

Lemma tracks_bind {A A'} (m : M World A) (k : A -> M World A') :
  tracks proj R m -> (forall a, tracks proj R (k a)) -> tracks proj R (bind m k).
Proof.
  intros Hm Hk s. unfold bind. specialize (Hm s).
  destruct (m s) as [[a| |e] s']; cbn in *; [|assumption|assumption].
  etransitivity; [exact Hm | apply Hk].
Qed.

Lemma tracks_try_except {A} (body : M World A) (handler : PyExn -> M World A) :
  tracks proj R body -> (forall e, tracks proj R (handler e)) ->
  tracks proj R (try_except body handler).
Proof.
  intros Hb Hh s. unfold try_except. specialize (Hb s).
  destruct (body s) as [[a| |e] s']; cbn in *; [assumption|assumption|].
  etransitivity; [exact Hb | apply Hh].
Qed.

Lemma tracks_try_finally {A} (body : M World A) (final : M World unit) :
  tracks proj R body -> tracks proj R final -> tracks proj R (try_finally body final).
Proof.
  intros Hb Hf s. unfold try_finally. specialize (Hb s).
  destruct (body s) as [c s']. specialize (Hf s').
  destruct (final s') as [[u| |e] s'']; cbn in *; etransitivity; eassumption.
Qed.

Lemma tracks_state_item {A} (key : string) (field : POWorkflowState -> option A) :
  tracks proj R (state_item (World := World) key field).
Proof.
  unfold state_item. apply tracks_bind; [apply tracks_get_state|].
  intros st. destruct (field st); [apply tracks_ret | apply tracks_raise].
Qed.

Lemma tracks_request_item (key : string) :
  tracks proj R (request_item (World := World) key).
Proof.
  unfold request_item. apply tracks_bind; [apply tracks_get_state|].
  intros st. apply tracks_lift_res.
Qed.

Lemma tracks_get_tools_safe (server : string) : tracks proj R (get_tools_safe C server).
Proof.
  unfold get_tools_safe. apply tracks_try_except.
  - apply tracks_bind; [apply tracks_call|].
    intros [[|t l]|d|]; try apply tracks_ret.
    destruct (dict_nonempty _); apply tracks_ret.
  - intros e. apply tracks_ret.
Qed.

Lemma tracks_tools_get (tools : Tools Tool) (name : string) :
  tracks proj R (tools_get (World := World) tools name).
Proof. destruct tools; [apply tracks_ret | apply tracks_raise]. Qed.

End Tracks.

(** One step of a proof that a handler tracks a relation; [side]
    proves the relation over each single write to the state. *)
Ltac tracks_step side :=
  lazymatch goal with
  | |- PreOrder _ => apply _
  | |- forall _, _ => intros
  | |- tracks _ _ (bind _ _) => apply tracks_bind
  | |- tracks _ _ (ret _) => apply tracks_ret
  | |- tracks _ _ (raise _) => apply tracks_raise
  | |- tracks _ _ return_state => apply tracks_return_state
  | |- tracks _ _ get_state => apply tracks_get_state
  | |- tracks _ _ (lift_res _) => apply tracks_lift_res
  | |- tracks _ _ (call _) => apply tracks_call
  | |- tracks _ _ (call_total _) => apply tracks_call_total
  | |- tracks _ _ (state_item _ _) => apply tracks_state_item
  | |- tracks _ _ (request_item _) => apply tracks_request_item
  | |- tracks _ _ (get_tools_safe _ _) => apply tracks_get_tools_safe
  | |- tracks _ _ (tools_get _ _) => apply tracks_tools_get
  | |- tracks _ _ (append_message _) =>
      unfold append_message; apply tracks_modify; intros; side
  | |- tracks _ _ (append_error _) =>
      unfold append_error; apply tracks_modify; intros; side
  | |- tracks _ _ (decide_ _) => unfold decide_; apply tracks_modify; intros; side
  | |- tracks _ _ (explain _) => unfold explain; apply tracks_modify; intros; side
  | |- tracks _ _ (modify _) => apply tracks_modify; intros; side
  | |- tracks _ _ (try_except _ _) => apply tracks_try_except
  | |- tracks _ _ (try_finally _ _) => apply tracks_try_finally
  | |- tracks _ _ (match ?x with _ => _ end) => destruct x
  end.

(** Every handler, taken apart down to its single writes. *)
Ltac tracks_handler side :=
  unfold handler_of, validate_po_request, validate_body, llm_analysis,
    check_supplier, check_supplier_body, reject_supplier,
    verify_budget, verify_budget_body, reserve,
    process_approval, process_approval_body, request_approval,
    send_notifications, send_notifications_body, send_email, send_slack,
    calculate_payment, calculate_payment_body, describe_plan, stage_failed;
  repeat tracks_step side.

Ltac side_grows := cbn; first [reflexivity | apply prefix_app_r; reflexivity].

Ltac side_same := cbn; reflexivity.

Lemma handler_errors_grow (n : Node) :
  tracks errors prefix (handler_of B C n).
Proof. destruct n; tracks_handler side_grows. Qed.

Lemma handler_messages_grow (n : Node) :
  tracks messages prefix (handler_of B C n).
Proof. destruct n; tracks_handler side_grows. Qed.

Lemma handler_frame (n : Node) : tracks (frame n) eq (handler_of B C n).
Proof. destruct n; tracks_handler side_same. Qed.

#[local] Instance kept_or_refused_preorder : PreOrder kept_or_refused.
Proof.
  split.
  - intros d. left. reflexivity.
  - intros a b c. unfold kept_or_refused. intros [-> | [-> | ->]] [-> | [-> | ->]]; auto.
Qed.

#[local] Instance stays_set_preorder : PreOrder stays_set.
Proof. split; [intros d H; exact H | intros a b c Hab Hbc H; exact (Hbc (Hab H))]. Qed.

#[local] Instance stays_latched_preorder : PreOrder stays_latched.
Proof. split; [intros d H; exact H | intros a b c Hab Hbc H; exact (Hbc (Hab H))]. Qed.

Ltac side_refused :=
  cbn; unfold kept_or_refused;
  first [left; reflexivity | right; left; reflexivity | right; right; reflexivity].

Ltac side_stays := cbn; first [reflexivity | intros _; reflexivity].

Lemma early_stage_refuses (n : Node) :
  n = N_validate_request \/ n = N_check_supplier \/ n = N_verify_budget ->
  tracks final_decision kept_or_refused (handler_of B C n).
Proof. intros [-> | [-> | ->]]; tracks_handler side_refused. Qed.

Lemma handler_decision_stays_set (n : Node) :
  tracks final_decision stays_set (handler_of B C n).
Proof. destruct n; tracks_handler side_stays. Qed.

Lemma handler_latch_stays (n : Node) :
  tracks payment_attempted stays_latched (handler_of B C n).
Proof. destruct n; tracks_handler side_stays. Qed.

(** What every stage tracks, a sequence of stages tracks. *)
Lemma run_stages_tracks {X : Type} (proj : POWorkflowState -> X) (R : X -> X -> Prop)
    `{!PreOrder R} :
  (forall n, tracks proj R (handler_of B C n)) ->
  forall ns w state, R (proj state) (proj (snd (run_stages B C ns w state))).
Proof.
  intros Hn ns. induction ns as [|n ns IH]; intros w state; cbn [run_stages].
  - reflexivity.
  - etransitivity; [|apply IH].
    rewrite run_handler_state. exact (Hn n (w, state)).
Qed.

(** X2.  Whatever stages run, in whatever order and world, and however
    each of them ends, the error log and the message log only grow:
    what was logged before is a prefix of what is logged after. *)
Theorem stage_logs_append_only (ns : list Node) (w : World) (state : POWorkflowState) :
  let state' := snd (run_stages B C ns w state) in
  errors state `prefix_of` errors state' /\ messages state `prefix_of` messages state'.
Proof.
  split.
  - apply (run_stages_tracks errors prefix). apply handler_errors_grow.
  - apply (run_stages_tracks messages prefix). apply handler_messages_grow.
Qed.

(** X3.  A stage writes the logs, the decision with its reason, and
    the entries it owns, and nothing else: [validate_po_request] owns
    [po_id], [po_request] and [processing_time]; [check_supplier],
    [verify_budget], [process_approval] and [send_notifications] own
    their result entry; [calculate_payment] owns [payment_plan] and
    [payment_attempted].  Apart from these the state after a stage is
    the state before it, even when the stage raises. *)
Theorem stage_writes_only_its_entries (n : Node) (w : World) (state : POWorkflowState) :
  frame n (snd (snd (run_handler (handler_of B C n) w state))) = frame n state.
Proof.
  rewrite run_handler_state. symmetry. exact (handler_frame n (w, state)).
Qed.

(** X4.  The three stages ahead of the approval can only refuse a
    request: each of them leaves [final_decision] as it found it or
    writes REJECTED or ERROR, never APPROVED or PENDING_APPROVAL. *)
Theorem early_stages_only_refuse (w : World) (state : POWorkflowState) :
  let decision_after n :=
    final_decision (snd (snd (run_handler (handler_of B C n) w state))) in
  kept_or_refused (final_decision state) (decision_after N_validate_request) /\
  kept_or_refused (final_decision state) (decision_after N_check_supplier) /\
  kept_or_refused (final_decision state) (decision_after N_verify_budget).
Proof.
  cbv zeta beta. rewrite !run_handler_state.
  split; [|split].
  - apply (early_stage_refuses N_validate_request (or_introl eq_refl) (w, state)).
  - apply (early_stage_refuses N_check_supplier (or_intror (or_introl eq_refl)) (w, state)).
  - apply (early_stage_refuses N_verify_budget (or_intror (or_intror eq_refl)) (w, state)).
Qed.

(** *** Exceptions that escape *)

Lemma never_raises_ret {A} (a : A) : never_raises (ret (W := World) a).
Proof. intros s e. discriminate. Qed.

Lemma never_raises_modify (f : POWorkflowState -> POWorkflowState) :
  never_raises (modify (W := World) f).
Proof. intros s e. discriminate. Qed.

Lemma never_raises_call_total {A} (f : World -> A * World) : never_raises (call_total f).
Proof. intros s e. unfold call_total. destruct (f (fst s)) as [a w]. discriminate. Qed.

Lemma never_raises_bind {A A'} (m : M World A) (k : A -> M World A') :
  never_raises m -> (forall a, never_raises (k a)) -> never_raises (bind m k).
Proof.
  intros Hm Hk s e. unfold bind. specialize (Hm s).
  destruct (m s) as [[a| |e'] s']; cbn in *;
    [apply Hk | discriminate | intros _; exact (Hm e' eq_refl)].
Qed.

Lemma never_raises_try_except {A} (body : M World A) (handler : PyExn -> M World A) :
  (forall e, never_raises (handler e)) -> never_raises (try_except body handler).
Proof.
  intros Hh s e. unfold try_except.
  destruct (body s) as [[a| |e'] s']; [discriminate | discriminate | apply Hh].
Qed.

Lemma never_raises_try_finally {A} (body : M World A) (final : M World unit) :
  never_raises body -> never_raises final -> never_raises (try_finally body final).
Proof.
  intros Hb Hf s e. unfold try_finally. specialize (Hb s).
  destruct (body s) as [c s']. specialize (Hf s').
  destruct (final s') as [[u| |e'] s'']; cbn in *;
    [|discriminate|intros _; exact (Hf e' eq_refl)].
  destruct c as [a| |e']; [discriminate | discriminate | intros _; exact (Hb e' eq_refl)].
Qed.

Lemma never_raises_stage_failed (prefix : string) (e : PyExn) :
  never_raises (stage_failed (World := World) prefix e).
Proof.
  unfold stage_failed, append_error, decide_, explain.
  repeat first [apply never_raises_bind; [|intros _] | apply never_raises_modify].
Qed.

Lemma never_raises_get_tools_safe (server : string) : never_raises (get_tools_safe C server).
Proof. unfold get_tools_safe. apply never_raises_try_except. intros e. apply never_raises_ret. Qed.

Lemma validate_never_raises : never_raises (validate_po_request B C).
Proof.
  unfold validate_po_request.
  apply never_raises_bind; [apply never_raises_call_total|]. intros start_time.
  apply never_raises_try_finally.
  - apply never_raises_try_except. apply never_raises_stage_failed.
  - apply never_raises_bind; [apply never_raises_call_total|]. intros now.
    apply never_raises_modify.
Qed.

Lemma never_raises_run (m : M World unit) (w : World) (state : POWorkflowState) :
  never_raises m -> fst (run_handler m w state) = None.
Proof.
  intros Hm. unfold run_handler. specialize (Hm (w, state)).
  destruct (m (w, state)) as [[u| |e] s']; [reflexivity | reflexivity |].
  exfalso. exact (Hm e eq_refl).
Qed.

Lemma guarded_never_raises (m : M World unit) (w : World) (state : POWorkflowState)
    (pid : string) :
  po_id state = Some pid -> never_raises m ->
  fst (run_handler (bind (state_item "po_id" po_id) (fun _ => m)) w state) = None.
Proof.
  intros Hpid Hm. unfold run_handler, bind, state_item, get_state. cbn.
  rewrite Hpid. cbn. specialize (Hm (w, state)).
  destruct (m (w, state)) as [[u| |e] s']; [reflexivity | reflexivity |].
  exfalso. exact (Hm e eq_refl).
Qed.

(** A stage behind the validation hands the state back whenever
    [po_id] is there. *)
Lemma later_stage_returns (n : Node) (w : World) (state : POWorkflowState) (pid : string) :
  n <> N_validate_request -> po_id state = Some pid ->
  fst (run_handler (handler_of B C n) w state) = None.
Proof.
  intros Hn Hpid. destruct n; [contradiction| | | | |];
    apply (guarded_never_raises _ w state pid Hpid).
  - apply never_raises_try_except. apply never_raises_stage_failed.
  - apply never_raises_try_except. apply never_raises_stage_failed.
  - apply never_raises_try_finally; [|apply never_raises_modify].
    apply never_raises_try_except. apply never_raises_stage_failed.
  - apply never_raises_try_except. apply never_raises_stage_failed.
  - apply never_raises_try_except. intros e. apply never_raises_modify.
Qed.

(** Without [po_id] it raises at once and leaves the state alone. *)
Lemma later_stage_without_po_id (n : Node) (w : World) (state : POWorkflowState) :
  n <> N_validate_request -> po_id state = None ->
  run_handler (handler_of B C n) w state = (Some (KeyError "po_id"), (w, state)).
Proof.
  intros Hn Hpid. destruct n; [contradiction| | | | |];
    unfold run_handler, handler_of, check_supplier, verify_budget, process_approval,
      calculate_payment, send_notifications, bind, state_item, get_state;
    cbn; rewrite Hpid; reflexivity.
Qed.

Lemma later_stage_keeps_po_id (n : Node) (w : World) (state : POWorkflowState) :
  n <> N_validate_request ->
  po_id (snd (snd (run_handler (handler_of B C n) w state))) = po_id state.
Proof.
  intros Hn. pose proof (handler_frame n (w, state)) as Hf.
  rewrite run_handler_state.
  apply (f_equal po_id) in Hf. destruct n; [contradiction| | | | |]; exact (eq_sym Hf).
Qed.

(** What follows a part of a body that keeps [proj] does not show in
    [proj]. *)
Lemma bind_keeps {X A A'} (proj : POWorkflowState -> X) (m : M World A) (k : A -> M World A') :
  (forall a, tracks proj eq (k a)) ->
  forall s, proj (snd (snd (bind m k s))) = proj (snd (snd (m s))).
Proof.
  intros Hk s. unfold bind. destruct (m s) as [[a| |e] s']; [|reflexivity|reflexivity].
  symmetry. exact (Hk a s').
Qed.

Lemma try_except_keeps {X A} (proj : POWorkflowState -> X)
    (body : M World A) (handler : PyExn -> M World A) :
  (forall e, tracks proj eq (handler e)) ->
  forall s, proj (snd (snd (try_except body handler s))) = proj (snd (snd (body s))).
Proof.
  intros Hh s. unfold try_except. destruct (body s) as [[a| |e] s']; [reflexivity|reflexivity|].
  symmetry. exact (Hh e s').
Qed.

Lemma try_finally_keeps {X A} (proj : POWorkflowState -> X)
    (body : M World A) (final : M World unit) :
  tracks proj eq final ->
  forall s, proj (snd (snd (try_finally body final s))) = proj (snd (snd (body s))).
Proof.
  intros Hf s. unfold try_finally. destruct (body s) as [c s']. specialize (Hf s').
  destruct (final s') as [[u| |e] s'']; symmetry; exact Hf.
Qed.

(** *** The entry stage *)

Ltac side_ids := unfold request_ids; cbn; reflexivity.

Lemma validate_stage_ids (w : World) (state : POWorkflowState) :
  let state' := snd (snd (run_handler (validate_po_request B C) w state)) in
  let new_id := generate_po_id (fst (now_strftime C (snd (time_time C w)))) in
  request_ids state'
  = if str_truthy (po_id state) then (po_id state, po_request state)
    else (Some new_id, <["po_id" := PyStr new_id]> (po_request state)).
Proof.
  cbv zeta. rewrite run_handler_state. unfold validate_po_request.
  unfold bind at 1, call_total at 1. cbn [fst snd].
  destruct (time_time C w) as [start_time w1]. cbn [fst snd].
  rewrite (try_finally_keeps request_ids)
    by repeat tracks_step side_ids.
  rewrite (try_except_keeps request_ids)
    by (intros e; unfold stage_failed; repeat tracks_step side_ids).
  unfold validate_body. unfold bind at 1, get_state at 1. cbn [fst snd].
  rewrite (bind_keeps request_ids)
    by (unfold llm_analysis; repeat tracks_step side_ids).
  destruct (str_truthy (po_id state)); cbn [negb]; [reflexivity|].
  unfold bind, call_total, modify. cbn [fst snd].
  destruct (now_strftime C w1) as [stamp w2]. reflexivity.
Qed.

Lemma validate_stage_po_id (w : World) (state : POWorkflowState) :
  fst (run_handler (validate_po_request B C) w state) = None /\
  exists pid, po_id (snd (snd (run_handler (validate_po_request B C) w state))) = Some pid.
Proof.
  split; [apply never_raises_run, validate_never_raises|].
  pose proof (validate_stage_ids w state) as Hids. cbv zeta in Hids.
  unfold request_ids in Hids.
  destruct (str_truthy (po_id state)) eqn:E; inversion Hids as [[Hid Hreq]].
  - destruct (po_id state) as [pid|]; [exists pid; exact Hid | discriminate E].
  - eexists; exact Hid.
Qed.

(** X5.  On a state that holds the request and the two logs,
    [validate_po_request] lets no exception escape and always
    leaves a non-empty [po_id]: one that is already there is kept,
    together with the request; otherwise the identifier made of the
    clock's timestamp is stored in the state and written into the
    request under [po_id].  The processing time is recorded on every
    path. *)
Theorem validate_stage_assigns_po_id (w : World) (state : POWorkflowState) :
  let r := run_handler (validate_po_request B C) w state in
  let state' := snd (snd r) in
  let new_id := generate_po_id (fst (now_strftime C (snd (time_time C w)))) in
  fst r = None /\
  str_truthy (po_id state') = true /\
  (if str_truthy (po_id state)
   then po_id state' = po_id state /\ po_request state' = po_request state
   else po_id state' = Some new_id /\
        po_request state' = <["po_id" := PyStr new_id]> (po_request state)) /\
  (exists t, processing_time state' = Some t).
Proof.
  cbv zeta. pose proof (validate_stage_ids w state) as Hids. cbv zeta in Hids.
  unfold request_ids in Hids.
  split; [apply never_raises_run, validate_never_raises|].
  split; [|split].
  - destruct (str_truthy (po_id state)) eqn:E; inversion Hids as [[Hid Hreq]];
      rewrite Hid; [exact E | reflexivity].
  - destruct (str_truthy (po_id state)); inversion Hids as [[Hid Hreq]];
      split; first [assumption | reflexivity].
  - rewrite run_handler_state. unfold validate_po_request.
    unfold bind at 1, call_total at 1. cbn [fst snd].
    destruct (time_time C w) as [start_time w1]. cbn [fst snd].
    unfold try_finally.
    destruct (try_except _ _ (w1, state)) as [c s1].
    unfold bind, call_total, modify. destruct (time_time C (fst s1)) as [now w2].
    cbn. destruct c; cbn; eexists; reflexivity.
Qed.

(** *** The payment latch *)

(** X6.  [calculate_payment] is asked for at most once: when it has
    run on a state with a [po_id], [payment_attempted] is set, no
    stage run afterwards unsets it, and the router never answers
    [calculate_payment] again, whatever the payment stage did (plan
    stored, error reply, exception). *)
Theorem payment_stage_not_asked_twice (ns : list Node) (w : World)
    (state : POWorkflowState) (pid : string) :
  po_id state = Some pid ->
  let state' := snd (run_stages B C (N_calculate_payment :: ns) w state) in
  payment_attempted state' = Some true /\ should_continue state' <> R_calculate_payment.
Proof.
  intros Hpid. cbv zeta. cbn [run_stages].
  destruct (calculate_payment_latches B C w state pid Hpid) as [_ Hlatch].
  cbn [handler_of].
  set (r := snd (run_handler (calculate_payment B C) w state)) in *.
  assert (Hafter : payment_attempted (snd (run_stages B C ns (fst r) (snd r))) = Some true).
  { pose proof (run_stages_tracks payment_attempted stays_latched handler_latch_stays
                  ns (fst r) (snd r)) as Hk.
    unfold stays_latched in Hk.
    assert (Hset : bool_truthy (payment_attempted (snd r)) = true)
      by (rewrite Hlatch; reflexivity).
    specialize (Hk Hset). revert Hk.
    destruct (payment_attempted (snd (run_stages B C ns (fst r) (snd r)))) as [[|]|];
      cbn; intros Hk; [reflexivity | discriminate Hk | discriminate Hk]. }
  split; [exact Hafter | apply latched_payment_not_rescheduled; exact Hafter].
Qed.

(** *** Runs of the graph *)

Lemma edge_forward (n n' : Node) (r : Route) :
  edge n r = Some (Goto n') -> (rank n < rank n')%nat.
Proof. destruct n, r; cbn; intros E; inversion E; subst; cbn; lia. Qed.

Lemma run_from_enough (steps : nat) :
  forall n w state extra,
    (6 <= steps + rank n)%nat ->
    run_from B C (steps + extra) n w state = run_from B C steps n w state /\
    (forall n' w' state', run_from B C steps n w state <> StepLimit n' w' state').
Proof.
  induction steps as [|steps IH]; intros n w state extra Hrank.
  - destruct n; cbn in Hrank; lia.
  - cbn [Nat.add run_from].
    destruct (run_handler (handler_of B C n) w state) as [[e|] [w1 s1]];
      [split; [reflexivity | discriminate]|].
    destruct (edge n (should_continue s1)) as [[n1|]|] eqn:E;
      [|split; [reflexivity | discriminate]|split; [reflexivity | discriminate]].
    apply edge_forward in E. apply IH. lia.
Qed.

(** X7.  The graph is acyclic: every edge leads to a later stage, so
    a run executes each stage at most once and is over after at most
    six stage executions.  Allowing more steps changes nothing, and
    the step limit is never what ends a run of six. *)
Theorem graph_run_ends_within_six_stages (extra : nat) (w : World)
    (state : POWorkflowState) :
  (forall n n' r, edge n r = Some (Goto n') -> (rank n < rank n')%nat) /\
  run_graph B C (6 + extra) w state = run_graph B C 6 w state /\
  (forall n w' state', run_graph B C 6 w state <> StepLimit n w' state').
Proof.
  split; [intros n n' r; apply edge_forward|].
  apply (run_from_enough 6 N_validate_request w state extra). cbn. lia.
Qed.

Lemma run_from_later_never_raises (steps : nat) :
  forall n w state pid,
    n <> N_validate_request -> po_id state = Some pid ->
    match run_from B C steps n w state with
    | NodeRaised _ _ _ _ => False
    | _ => True
    end.
Proof.
  induction steps as [|steps IH]; intros n w state pid Hn Hpid; [exact I|].
  cbn [run_from].
  pose proof (later_stage_returns n w state pid Hn Hpid) as Hret.
  pose proof (later_stage_keeps_po_id n w state Hn) as Hkeep.
  destruct (run_handler (handler_of B C n) w state) as [[e|] [w1 s1]];
    [discriminate Hret|].
  cbn [snd] in Hkeep.
  destruct (edge n (should_continue s1)) as [[n1|]|] eqn:E; [|exact I|exact I].
  apply edge_forward in E.
  apply (IH n1 w1 s1 pid); [|congruence].
  intros ->. cbn in E. lia.
Qed.

(** X8.  No exception escapes a stage in a run of the graph, from any
    state that holds the request and the two logs and with any
    collaborators: the entry stage always provides
    [po_id], the only key the later stages read outside their [try]
    blocks, and none of them removes it.  A run therefore ends at END,
    at a router answer the current stage has no edge for, or at the
    step limit. *)
Theorem graph_run_never_raises (steps : nat) (w : World) (state : POWorkflowState) :
  match run_graph B C steps w state with
  | NodeRaised _ _ _ _ => False
  | _ => True
  end.
Proof.
  unfold run_graph. destruct steps as [|steps]; [exact I|]. cbn [run_from handler_of].
  destruct (validate_stage_po_id w state) as (Hret & pid & Hpid).
  destruct (run_handler (validate_po_request B C) w state) as [[e|] [w1 s1]];
    [discriminate Hret|].
  cbn [snd] in Hpid.
  destruct (edge N_validate_request (should_continue s1)) as [[n1|]|] eqn:E;
    [|exact I|exact I].
  apply edge_forward in E.
  apply (run_from_later_never_raises steps n1 w1 s1 pid); [|exact Hpid].
  intros ->. cbn in E. lia.
Qed.

(** *** Runs that reach END *)

Lemma stage_keeps_approval_decided (n : Node) (w : World) (state : POWorkflowState) :
  approval_decided state ->
  approval_decided (snd (snd (run_handler (handler_of B C n) w state))).
Proof.
  intros Hinv.
  assert (Hother : n <> N_process_approval ->
            approval_decided (snd (snd (run_handler (handler_of B C n) w state)))).
  { intros Hn. unfold approval_decided. rewrite run_handler_state.
    pose proof (handler_frame n (w, state)) as Hf.
    apply (f_equal approval_status) in Hf.
    assert (Hsame : approval_status (snd (snd (handler_of B C n (w, state))))
                    = approval_status state)
      by (destruct n; first [contradiction | exact (eq_sym Hf)]).
    rewrite Hsame. intros Ha.
    exact (handler_decision_stays_set n (w, state) (Hinv Ha)). }
  destruct n; try (apply Hother; discriminate).
  destruct (po_id state) as [pid|] eqn:Hpid.
  - pose proof (later_stage_returns N_process_approval w state pid
                  ltac:(discriminate) Hpid) as Hret.
    pose proof (process_approval_settles B C (w, state)) as Hset.
    cbn [handler_of] in *. unfold run_handler in *. unfold fd in Hset.
    intros _.
    destruct (process_approval B C (w, state)) as [[u| |e] s']; cbn in *;
      [| |discriminate Hret];
      destruct Hset as [-> | [-> | ->]]; reflexivity.
  - rewrite (later_stage_without_po_id N_process_approval w state ltac:(discriminate) Hpid).
    exact Hinv.
Qed.

Lemma stage_keeps_plan_attempted (n : Node) (w : World) (state : POWorkflowState) :
  plan_attempted state ->
  plan_attempted (snd (snd (run_handler (handler_of B C n) w state))).
Proof.
  intros Hinv.
  assert (Hother : n <> N_calculate_payment ->
            plan_attempted (snd (snd (run_handler (handler_of B C n) w state)))).
  { intros Hn. unfold plan_attempted. rewrite run_handler_state.
    pose proof (handler_frame n (w, state)) as Hf.
    assert (Hplan : payment_plan (snd (snd (handler_of B C n (w, state))))
                    = payment_plan state)
      by (apply (f_equal payment_plan) in Hf;
          destruct n; first [contradiction | exact (eq_sym Hf)]).
    assert (Hlatch : payment_attempted (snd (snd (handler_of B C n (w, state))))
                     = payment_attempted state)
      by (apply (f_equal payment_attempted) in Hf;
          destruct n; first [contradiction | exact (eq_sym Hf)]).
    rewrite Hplan, Hlatch. exact Hinv. }
  destruct n; try (apply Hother; discriminate).
  destruct (po_id state) as [pid|] eqn:Hpid.
  - destruct (calculate_payment_latches B C w state pid Hpid) as [_ Hlatch].
    intros _. cbn [handler_of]. rewrite Hlatch. reflexivity.
  - rewrite (later_stage_without_po_id N_calculate_payment w state ltac:(discriminate) Hpid).
    exact Hinv.
Qed.

Lemma run_from_done (steps : nat) :
  forall n w state w' state',
    approval_decided state -> plan_attempted state ->
    run_from B C steps n w state = Done w' state' ->
    should_continue state' = R_END /\ approval_decided state' /\ plan_attempted state'.
Proof.
  induction steps as [|steps IH]; intros n w state w' state' Ha Hp; [discriminate|].
  cbn [run_from].
  pose proof (stage_keeps_approval_decided n w state Ha) as Ha'.
  pose proof (stage_keeps_plan_attempted n w state Hp) as Hp'.
  destruct (run_handler (handler_of B C n) w state) as [[e|] [w1 s1]]; [discriminate|].
  cbn [snd] in Ha', Hp'.
  destruct (edge n (should_continue s1)) as [[n1|]|] eqn:E; [|intros Hd|discriminate].
  - apply IH; assumption.
  - inversion Hd; subst. split; [|split; assumption].
    unfold edge in E. destruct (existsb _ _); [|discriminate E].
    destruct (should_continue state'); first [reflexivity | discriminate E].
Qed.

Lemma end_of_route (state : POWorkflowState) :
  should_continue state = R_END ->
  dict_truthy (supplier_validation state) = true /\
  dict_truthy (budget_check state) = true /\
  dict_truthy (approval_status state) = true /\
  (dict_truthy (payment_plan state) = true \/
   bool_truthy (payment_attempted state) = true) /\
  (str_truthy (final_decision state) = true ->
   list_truthy (notifications state) = true).
Proof.
  unfold should_continue.
  destruct (dict_truthy (supplier_validation state)); cbn [negb]; [|discriminate].
  destruct (dict_truthy (budget_check state)); cbn [negb]; [|discriminate].
  destruct (dict_truthy (approval_status state)); cbn [negb]; [|discriminate].
  destruct (dict_truthy (payment_plan state)), (bool_truthy (payment_attempted state));
    cbn [negb andb]; try discriminate;
    destruct (str_truthy (final_decision state)), (list_truthy (notifications state));
    cbn [negb andb]; try discriminate; intuition.
Qed.

(** X9.  When the graph run of [process_po] reaches END, the outcome
    is complete: a decision is set, at least one notification result
    is stored, the supplier, budget and approval results are on
    record, and the payment stage has been through (its latch is
    set).  The router alone does not give this: it answers END on an
    empty decision as well. *)
Theorem completed_run_is_decided (request : gmap string PyVal)
    (state0 : POWorkflowState) (steps : nat) (w w' : World) (state' : POWorkflowState) :
  initial_state B request = Ok state0 ->
  run_graph B C steps w state0 = Done w' state' ->
  should_continue state' = R_END /\
  decision_set (final_decision state') /\
  ~ no_notifications (notifications state') /\
  ~ no_result (supplier_validation state') /\
  ~ no_result (budget_check state') /\
  ~ no_result (approval_status state') /\
  payment_attempted state' = Some true.
Proof.
  intros Hinit Hrun. unfold initial_state in Hinit.
  destruct (py_format B _ _) as [amount|e]; [|discriminate Hinit].
  inversion Hinit as [Hst]. clear Hinit.
  assert (Ha : approval_decided state0) by (subst state0; intros H; discriminate H).
  assert (Hp : plan_attempted state0) by (subst state0; intros H; discriminate H).
  clear Hst.
  destruct (run_from_done steps _ _ _ _ _ Ha Hp Hrun) as (Hend & Ha' & Hp').
  destruct (end_of_route state' Hend) as (Hs & Hb & Happ & Hpay & Hnote).
  pose proof (Ha' Happ) as Hdec.
  split; [exact Hend|].
  split; [apply str_truthy_true; exact Hdec|].
  split; [rewrite <- list_truthy_false, (Hnote Hdec); discriminate|].
  split; [apply dict_truthy_true; exact Hs|].
  split; [apply dict_truthy_true; exact Hb|].
  split; [apply dict_truthy_true; exact Happ|].
  assert (Hl : bool_truthy (payment_attempted state') = true)
    by (destruct Hpay as [Hplan | Hl]; [exact (Hp' Hplan) | exact Hl]).
  destruct (payment_attempted state') as [[|]|]; [reflexivity | discriminate Hl | discriminate Hl].
Qed.

(** *** Tool responses and tool listings *)

(** X10.  A tool response that is not a string is always normalised to
    a dictionary, so that the [.get] calls of the stages cannot fail on
    it: the result is the response itself, its first element, or an
    error dictionary ([error] true, with a message).  Normalising
    twice changes nothing. *)
Theorem tool_response_normalised (response : PyVal) (tool_name : string) :
  is_str response = false ->
  let result := _handle_tool_response B response tool_name in
  (exists d, result = PyDict d) /\
  (result = response \/
   (exists rest, response = PyList (result :: rest)) \/
   (exists message, result = error_dict message)) /\
  (forall name, _handle_tool_response B result name = result) /\
  (forall key default, exists v, py_get result key default = Ok v).
Proof.
  intros Hstr. cbv zeta.
  assert (Hdict : exists d, _handle_tool_response B response tool_name = PyDict d).
  { destruct response as [| | | | |[|[]]|]; try discriminate Hstr;
      cbn; eexists; reflexivity. }
  destruct Hdict as [d Hd]. rewrite Hd.
  split; [exists d; reflexivity|].
  split.
  - rewrite <- Hd.
    destruct response as [| | | | |[|[]]|]; try discriminate Hstr; cbn;
      first [left; reflexivity
            |right; left; eexists; reflexivity
            |right; right; eexists; reflexivity].
  - split; [reflexivity|]. intros key default. cbn. eexists; reflexivity.
Qed.

Lemma get_tools_safe_listing (server_name : string) (w : World) (state : POWorkflowState) :
  exists tools,
    get_tools_safe C server_name (w, state)
    = (Norm tools, (snd (get_tools C server_name w), state)).
Proof.
  unfold get_tools_safe, try_except, bind, call. cbn [fst snd].
  destruct (get_tools C server_name w) as [[[[|t l]|d|]|e] w']; cbn [fst snd];
    try (eexists; reflexivity).
  destruct (dict_nonempty _); eexists; reflexivity.
Qed.

Lemma test_servers_true (servers : list string) (w : World) (state : POWorkflowState) :
  exists w', test_servers C servers (w, state) = (Norm true, (w', state)).
Proof.
  revert w. induction servers as [|server rest IH]; intros w; cbn [test_servers].
  - exists w. reflexivity.
  - unfold bind at 1, test_connection, try_except, bind.
    destruct (get_tools_safe_listing server w state) as (tools & Hget).
    rewrite Hget. cbn. apply IH.
Qed.

(** X11.  [get_tools_safe] never fails and never touches the state,
    whatever the client does; hence [test_mcp_connections] always
    answers [True]: the [except] branch that would answer [False] is
    never taken, even with every server out of reach. *)
Theorem test_mcp_connections_always_true (w : World) (state : POWorkflowState) :
  (forall server_name,
      exists tools,
        get_tools_safe C server_name (w, state)
        = (Norm tools, (snd (get_tools C server_name w), state)) /\
        match fst (get_tools C server_name w) with
        | Raise _ | Ok (RawList []) => tools = ToolsDict ∅
        | Ok (RawDict d) => tools = ToolsDict d
        | Ok (RawList l) =>
            tools = if dict_nonempty (tool_dict_of l) then ToolsDict (tool_dict_of l)
                    else ToolsOther
        | Ok RawOther => tools = ToolsOther
        end) /\
  exists w', test_mcp_connections C (w, state) = (Norm true, (w', state)).
Proof.
  split; [|apply test_servers_true].
  intros server_name. unfold get_tools_safe, try_except, bind, call. cbn [fst snd].
  destruct (get_tools C server_name w) as [[[[|t l]|d|]|e] w']; cbn [fst snd];
    try (eexists; split; reflexivity).
  destruct (dict_nonempty _); eexists; split; reflexivity.
Qed.

(** *** Result entries and the gates of the router *)

#[local] Instance kept_or_recorded_preorder : PreOrder kept_or_recorded.
Proof.
  split.
  - intros d. left. reflexivity.
  - intros a b c [-> | Hb] [-> | Hc]; unfold kept_or_recorded; auto.
Qed.

Lemma dict_nonempty_insert (k : string) (v : PyVal) (d : gmap string PyVal) :
  dict_nonempty (<[k := v]> d) = true.
Proof.
  unfold dict_nonempty. destruct (Nat.eqb_spec (size (<[k := v]> d)) 0) as [E|]; [|reflexivity].
  apply map_size_empty_iff in E. exfalso. exact (insert_non_empty d k v E).
Qed.

Ltac side_recorded :=
  cbn; unfold kept_or_recorded;
  first [left; reflexivity | right; cbn; apply dict_nonempty_insert].

Lemma stage_records_nonempty :
  tracks supplier_validation kept_or_recorded (check_supplier B C) /\
  tracks budget_check kept_or_recorded (verify_budget B C) /\
  tracks approval_status kept_or_recorded (process_approval B C).
Proof. split; [|split]; tracks_handler side_recorded. Qed.

Lemma route_needs_empty_entry (state : POWorkflowState) :
  (should_continue state = R_check_supplier ->
   dict_truthy (supplier_validation state) = false) /\
  (should_continue state = R_verify_budget ->
   dict_truthy (budget_check state) = false) /\
  (should_continue state = R_process_approval ->
   dict_truthy (approval_status state) = false).
Proof.
  unfold should_continue.
  destruct (dict_truthy (supplier_validation state)),
           (dict_truthy (budget_check state)),
           (dict_truthy (approval_status state)); cbn [negb];
    repeat split; intros H; try reflexivity; exfalso; revert H;
    repeat match goal with
           | |- context [if ?b then _ else _] => destruct b
           end; discriminate.
Qed.

(** X12.  What [check_supplier], [verify_budget] and
    [process_approval] record is never empty: each leaves its result
    entry as it found it or stores a dictionary with at least one key
    (the time stamp).  A recorded result therefore passes the router's
    test: if the router asks for one of these stages right after it
    has run, the stage has left its entry as it was. *)
Theorem rescheduled_stage_recorded_nothing (w : World) (state : POWorkflowState) :
  let after n := snd (snd (run_handler (handler_of B C n) w state)) in
  (kept_or_recorded (supplier_validation state)
     (supplier_validation (after N_check_supplier)) /\
   kept_or_recorded (budget_check state) (budget_check (after N_verify_budget)) /\
   kept_or_recorded (approval_status state)
     (approval_status (after N_process_approval))) /\
  (should_continue (after N_check_supplier) = R_check_supplier ->
   supplier_validation (after N_check_supplier) = supplier_validation state) /\
  (should_continue (after N_verify_budget) = R_verify_budget ->
   budget_check (after N_verify_budget) = budget_check state) /\
  (should_continue (after N_process_approval) = R_process_approval ->
   approval_status (after N_process_approval) = approval_status state).
Proof.
  cbv zeta beta. rewrite !run_handler_state. cbn [handler_of].
  destruct stage_records_nonempty as (Hs & Hb & Ha).
  specialize (Hs (w, state)). specialize (Hb (w, state)). specialize (Ha (w, state)).
  cbn [snd] in Hs, Hb, Ha.
  split; [split; [exact Hs | split; [exact Hb | exact Ha]]|].
  split; [|split]; intros Hroute.
  - destruct Hs as [Hs | Hs]; [exact Hs|].
    apply (proj1 (route_needs_empty_entry _)) in Hroute. congruence.
  - destruct Hb as [Hb | Hb]; [exact Hb|].
    apply (proj1 (proj2 (route_needs_empty_entry _))) in Hroute. congruence.
  - destruct Ha as [Ha | Ha]; [exact Ha|].
    apply (proj2 (proj2 (route_needs_empty_entry _))) in Hroute. congruence.
Qed.

(** X13.  On a state that holds the request and the two logs, the only
    exception that escapes a stage is the [KeyError] for [po_id]: the entry stage never raises; a later stage raises
    exactly when the state has no [po_id], before its [try] block, and
    then neither the world nor the state has changed. *)
Theorem stage_raises_only_without_po_id (n : Node) (w : World) (state : POWorkflowState) :
  let r := run_handler (handler_of B C n) w state in
  match n, po_id state with
  | N_validate_request, _ => fst r = None
  | _, Some _ => fst r = None
  | _, None => r = (Some (KeyError "po_id"), (w, state))
  end.
Proof.
  cbv zeta.
  destruct n; [apply never_raises_run, validate_never_raises|..];
    (destruct (po_id state) as [pid|] eqn:Hpid;
     [eapply later_stage_returns; [discriminate | exact Hpid]
     |apply later_stage_without_po_id; [discriminate | exact Hpid]]).
Qed.

End StageLogic.

Lemma tool_response_normalised_witness :
  exists d,
    Workflow._handle_tool_response scenario_builtins (PyList [PyInt 1; PyInt 2])
      "validate_supplier" = PyDict d.
Proof.
  exact (proj1 (tool_response_normalised scenario_builtins (PyList [PyInt 1; PyInt 2])
                  "validate_supplier" eq_refl)).
Defined.

Lemma payment_stage_not_asked_twice_witness :
  Workflow.should_continue
    (snd (run_stages scenario_builtins (scenario_collab failing_services)
            [Workflow.N_calculate_payment; Workflow.N_send_notifications] tt
            (after failing_services Workflow.N_validate_request laptop_state)))
  <> Workflow.R_calculate_payment.
Proof.
  refine (proj2 (payment_stage_not_asked_twice scenario_builtins
                   (scenario_collab failing_services) [Workflow.N_send_notifications] tt
                   (after failing_services Workflow.N_validate_request laptop_state)
                   "PO-20250822151755" _)).
  vm_compute. reflexivity.
Defined.

Lemma completed_run_is_decided_witness :
  exists w' state',
    graph_run all_good 6 = Workflow.Done w' state' /\
    decision_set (Workflow.final_decision state') /\
    Workflow.payment_attempted state' = Some true.
Proof.
  destruct (graph_run all_good 6) as [w' state'|n e w' state'|n r w' state'|n w' state'] eqn:E;
    [|vm_compute in E; discriminate E ..].
  exists w', state'. split; [reflexivity|].
  assert (Hinit : Workflow.initial_state scenario_builtins laptop_request = Ok laptop_state)
    by (vm_compute; reflexivity).
  pose proof (completed_run_is_decided scenario_builtins (scenario_collab all_good)
                laptop_request laptop_state 6 tt w' state' Hinit E) as H.
  split; [exact (proj1 (proj2 H)) | exact (proj2 (proj2 (proj2 (proj2 (proj2 (proj2 H))))))].
Defined.

(** ** Identifiers of the payment server *)

Section IdentifierFacts.
Import Payment.

Lemma static_map_values (sid : string) (pid : Z) :
  _STATIC_PO_MAP !! sid = Some pid -> 1 <= pid <= 4.
Proof.
  unfold _STATIC_PO_MAP. rewrite !lookup_insert_Some, lookup_empty.
  intros [[_ <-] | [_ [[_ <-] | [_ [[_ <-] | [_ [[_ <-] | [_ H]]]]]]]];
    first [lia | discriminate H].
Qed.

Lemma strip_po_prefix (stamp : string) :
  strip (generate_po_id stamp) = ("PO-" ++ rstrip stamp)%string.
Proof.
  unfold strip, generate_po_id.
  change (lstrip ("PO-" ++ stamp)) with ("PO-" ++ stamp)%string.
  change ("PO-" ++ stamp)%string with (String "P" (String "O" (String "-" stamp))).
  rewrite !rstrip_cons by reflexivity. reflexivity.
Qed.

Lemma generated_id_is_no_number (stamp : string) :
  int_of_str (generate_po_id stamp) = None.
Proof. reflexivity. Qed.

Lemma generated_id_looks_like_code (stamp : string) :
  _looks_like_request_code (RefStr (generate_po_id stamp)) = true.
Proof.
  unfold _looks_like_request_code, startswith. rewrite strip_po_prefix.
  change (upper ("PO-" ++ rstrip stamp))
    with (String "P" (String "O" (String "-" (upper (rstrip stamp))))).
  destruct (upper (rstrip stamp)); reflexivity.
Qed.

(** X14.  The identifiers the workflow generates ("PO-" and a
    timestamp) never parse as a number and always look like a request
    code, so the payment server resolves them through the static
    supplier table alone: the purchase order it prices is the one
    filed under the upper-cased, stripped supplier identifier,
    whatever the timestamp, and none without a supplier. *)
Theorem generated_po_id_resolved_by_supplier (stamp : string) :
  int_of_ref (RefStr (generate_po_id stamp)) = None /\
  _looks_like_request_code (RefStr (generate_po_id stamp)) = true /\
  (forall sup,
      _map_request_to_po (RefStr (generate_po_id stamp)) (Some sup)
      = _STATIC_PO_MAP !! upper (strip sup)) /\
  _map_request_to_po (RefStr (generate_po_id stamp)) None = None.
Proof.
  split; [apply generated_id_is_no_number|].
  split; [apply generated_id_looks_like_code|].
  split.
  - intros sup. unfold _map_request_to_po. cbn [int_of_ref].
    rewrite generated_id_is_no_number, generated_id_looks_like_code. cbn [andb].
    destruct sup as [|a sup]; [reflexivity|]. cbn [str_nonempty].
    destruct (_STATIC_PO_MAP !! upper (strip (String a sup))) as [pid|] eqn:E;
      [|reflexivity].
    apply static_map_values in E.
    destruct (Z.eqb_spec pid 0); [lia | reflexivity].
  - unfold _map_request_to_po. cbn [int_of_ref].
    rewrite generated_id_is_no_number. reflexivity.
Qed.

(** X15.  Supplier identifiers are normalised before use: the static
    table is consulted case-insensitively and without surrounding
    whitespace, and the risk tool strips the identifier, reports the
    stripped one, and answers for it as for the stripped identifier
    itself. *)
Theorem supplier_id_normalised (sup : string) :
  (forall po_ref,
      _map_request_to_po po_ref (Some sup)
      = _map_request_to_po po_ref (Some (upper (strip sup)))) /\
  (forall (F : Type) (num : PyNum F) (db : Db F),
      compute_supplier_risk db (Some sup) = compute_supplier_risk db (Some (strip sup)) /\
      forall risk, compute_supplier_risk db (Some sup) = Success risk ->
                   r_supplier_id risk = Some (strip sup)).
Proof.
  split.
  - intros po_ref. unfold _map_request_to_po.
    destruct (int_of_ref po_ref); [reflexivity|].
    destruct (_looks_like_request_code po_ref); [|reflexivity]. cbn [andb].
    cbv zeta. rewrite (strip_upper (strip sup)), upper_idempotent, strip_idempotent.
    destruct sup as [|a sup]; [reflexivity|]. cbn [str_nonempty].
    destruct (upper (strip (String a sup))) as [|b t] eqn:E; [|reflexivity].
    reflexivity.
  - intros F num db. unfold compute_supplier_risk. cbn [or_empty].
    rewrite strip_idempotent. split; [reflexivity|].
    intros risk. destruct (str_nonempty (strip sup)); cbn [negb]; [|discriminate].
    unfold _compute_supplier_risk_score, res_bind.
    repeat match goal with
           | |- context [match ?q db ?sid with _ => _ end] => destruct (q db sid)
           | |- context [let '(_, _) := ?p in _] => destruct p
           end; try discriminate.
    intros E. inversion E. reflexivity.
Qed.

End IdentifierFacts.

(** ** Rounding, once more *)

Section RoundingFacts.
Local Open Scope Q_scope.

(** The rounded value is within a half of the argument, and on a tie
    it is even. *)
Lemma round_half_even_spec (q : Q) :
  - (1 # 2) <= q - inject_Z (round_half_even q) <= 1 # 2 /\
  (q - inject_Z (round_half_even q) == 1 # 2 \/
   q - inject_Z (round_half_even q) == - (1 # 2) ->
   Z.even (round_half_even q) = true).
Proof.
  pose proof (Qfloor_le q) as Hlo. pose proof (Qlt_floor q) as Hhi.
  rewrite inject_Z_plus in Hhi. change (inject_Z 1) with 1 in Hhi.
  unfold round_half_even.
  destruct (Qcompare (q - inject_Z (Qfloor q)) (1 # 2)) eqn:C.
  - apply Qeq_alt in C. destruct (Z.even (Qfloor q)) eqn:Ev.
    + split; [lra | intros _; exact Ev].
    + rewrite inject_Z_plus. change (inject_Z 1) with 1.
      split; [lra|]. intros _. rewrite Z.even_add, Ev. reflexivity.
  - apply Qlt_alt in C. split; [lra|]. intros [H | H]; exfalso; lra.
  - apply Qgt_alt in C. rewrite inject_Z_plus. change (inject_Z 1) with 1.
    split; [lra|]. intros [H | H]; exfalso; lra.
Qed.

(** There is one such integer only. *)
Lemma round_half_even_unique (q : Q) (z : Z) :
  - (1 # 2) <= q - inject_Z z <= 1 # 2 ->
  (q - inject_Z z == 1 # 2 \/ q - inject_Z z == - (1 # 2) -> Z.even z = true) ->
  round_half_even q = z.
Proof.
  intros Hz Hev. destruct (round_half_even_spec q) as [H0 Hev0].
  set (z0 := round_half_even q) in *.
  assert (Hle : (z0 - 1 <= z <= z0 + 1)%Z).
  { split; rewrite Zle_Qle.
    - unfold Z.sub. rewrite inject_Z_plus, inject_Z_opp. change (inject_Z 1) with 1.
      revert Hz H0. generalize (inject_Z z) (inject_Z z0). intros a b Hz H0. lra.
    - rewrite inject_Z_plus. change (inject_Z 1) with 1.
      revert Hz H0. generalize (inject_Z z) (inject_Z z0). intros a b Hz H0. lra. }
  destruct (Z.eq_dec z z0) as [E | Hne]; [symmetry; exact E | exfalso].
  assert (Hcase : z = (z0 + 1)%Z \/ z = (z0 - 1)%Z) by lia.
  destruct Hcase as [E | E].
  - assert (Ez : inject_Z z == inject_Z z0 + 1)
      by (rewrite E, inject_Z_plus; reflexivity).
    assert (E1 : Z.even z = true)
      by (apply Hev; right; revert Hz H0 Ez;
          generalize (inject_Z z) (inject_Z z0); intros a b Hz H0 Ez; lra).
    assert (E2 : Z.even z0 = true)
      by (apply Hev0; left; revert Hz H0 Ez;
          generalize (inject_Z z) (inject_Z z0); intros a b Hz H0 Ez; lra).
    rewrite E, Z.even_add, E2 in E1. discriminate E1.
  - assert (Ez : inject_Z z == inject_Z z0 - 1)
      by (rewrite E; unfold Z.sub; rewrite inject_Z_plus, inject_Z_opp; reflexivity).
    assert (E1 : Z.even z = true)
      by (apply Hev; left; revert Hz H0 Ez;
          generalize (inject_Z z) (inject_Z z0); intros a b Hz H0 Ez; lra).
    assert (E2 : Z.even z0 = true)
      by (apply Hev0; right; revert Hz H0 Ez;
          generalize (inject_Z z) (inject_Z z0); intros a b Hz H0 Ez; lra).
    rewrite E, Z.even_sub, E2 in E1. discriminate E1.
Qed.

(** Rounding commutes with the reflection at an even integer. *)
Lemma round_half_even_reflect (n : Z) (q : Q) :
  Z.even n = true ->
  round_half_even (inject_Z n - q) = (n - round_half_even q)%Z.
Proof.
  intros Hn. destruct (round_half_even_spec q) as [H0 Hev0].
  apply round_half_even_unique.
  - unfold Z.sub. rewrite inject_Z_plus, inject_Z_opp.
    revert H0. generalize (inject_Z n) (inject_Z (round_half_even q)). intros a b H0. lra.
  - intros Htie. rewrite Z.even_sub, Hn, Hev0; [reflexivity|].
    revert Htie. unfold Z.sub. rewrite inject_Z_plus, inject_Z_opp.
    generalize (inject_Z n) (inject_Z (round_half_even q)). intros a b [H | H];
      [right | left]; lra.
Qed.

Lemma q_round_reflect_100 (x : Q) :
  Exact.q_round 2 (100 - x) == 100 - Exact.q_round 2 x.
Proof.
  rewrite !q_round_is_cents.
  assert (E : (100 - x) * 100 == inject_Z 10000 - x * 100)
    by (change (inject_Z 10000) with 10000; ring).
  rewrite (round_half_even_comp _ _ E), round_half_even_reflect by reflexivity.
  unfold Z.sub. rewrite inject_Z_plus, inject_Z_opp.
  change (inject_Z 10000) with 10000. field.
Qed.

(** Rounding to cents does not cross a whole number of cents. *)
Lemma Qdiv_100 (y : Q) : y / 100 == y * (1 # 100).
Proof. field. Qed.

Lemma q_round_le_cents (x : Q) (n : Z) :
  x <= inject_Z n / 100 -> Exact.q_round 2 x <= inject_Z n / 100.
Proof.
  intros H. rewrite q_round_is_cents. rewrite Qdiv_100 in H. rewrite !Qdiv_100.
  assert (Hr : (round_half_even (x * 100) <= n)%Z).
  { apply round_half_even_le. revert H. generalize (inject_Z n). intros a H. lra. }
  rewrite Zle_Qle in Hr.
  revert Hr. generalize (inject_Z (round_half_even (x * 100))) (inject_Z n).
  intros a b Hr. lra.
Qed.

Lemma q_round_ge_cents (x : Q) (n : Z) :
  inject_Z n / 100 <= x -> inject_Z n / 100 <= Exact.q_round 2 x.
Proof.
  intros H. rewrite q_round_is_cents. rewrite Qdiv_100 in H. rewrite !Qdiv_100.
  assert (Hr : (n <= round_half_even (x * 100))%Z).
  { apply round_half_even_ge. revert H. generalize (inject_Z n). intros a H. lra. }
  rewrite Zle_Qle in Hr.
  revert Hr. generalize (inject_Z (round_half_even (x * 100))) (inject_Z n).
  intros a b Hr. lra.
Qed.

Lemma q_round_le_int (x : Q) (n : Z) :
  x <= inject_Z n -> Exact.q_round 2 x <= inject_Z n.
Proof.
  intros H.
  assert (E : inject_Z n == inject_Z (n * 100) / 100)
    by (rewrite inject_Z_mult; change (inject_Z 100) with 100; field).
  rewrite E. apply q_round_le_cents. rewrite <- E. exact H.
Qed.

Lemma q_round_ge_int (x : Q) (n : Z) :
  inject_Z n <= x -> inject_Z n <= Exact.q_round 2 x.
Proof.
  intros H.
  assert (E : inject_Z n == inject_Z (n * 100) / 100)
    by (rewrite inject_Z_mult; change (inject_Z 100) with 100; field).
  rewrite E. apply q_round_ge_cents. rewrite <- E. exact H.
Qed.

End RoundingFacts.

(** ** The payment plan *)

Section PlanFacts.
Import Payment.
Local Open Scope Q_scope.

Lemma q_round_error (x : Q) : - (1 # 200) <= x - Exact.q_round 2 x <= 1 # 200.
Proof.
  rewrite q_round_is_cents, Qdiv_100.
  destruct (round_half_even_spec (x * 100)) as [H _].
  revert H. generalize (inject_Z (round_half_even (x * 100))). intros r H. lra.
Qed.

(** What a successful risk computation returns, over exact arithmetic. *)
Lemma risk_inversion (db : Db Q) (sid : option string) (risk : Risk) :
  @_compute_supplier_risk_score Q Exact.num db sid = Ok risk ->
  exists score,
    0 <= score <= 100 /\
    risk_score risk == Exact.q_round 2 score /\
    risk_band risk = bandQ score /\
    r_supplier_id risk = sid.
Proof.
  intros E.
  assert (Hq : exists o r ot ql iv pa,
             ordered_q db sid = Ok o /\ received_q db sid = Ok r /\
             ontime_q db sid = Ok ot /\ quality_q db sid = Ok ql /\
             inv_q db sid = Ok iv /\ pay_q db sid = Ok pa).
  { revert E. unfold _compute_supplier_risk_score, res_bind.
    destruct (ordered_q db sid) as [o|]; [|discriminate].
    destruct (received_q db sid) as [r|]; [|discriminate].
    destruct (ontime_q db sid) as [ot|]; [|discriminate].
    destruct (counts_of ot).
    destruct (quality_q db sid) as [ql|]; [|discriminate].
    destruct (counts_of ql).
    destruct (inv_q db sid) as [iv|]; [|discriminate].
    destruct (counts_of iv).
    destruct (pay_q db sid) as [pa|]; [|discriminate].
    intros _. exists o, r, ot, ql, iv, pa. repeat split; reflexivity. }
  destruct Hq as (o & r & ot & ql & iv & pa & Ho & Hr & Hot & Hql & Hiv & Hpa).
  assert (Hsid : r_supplier_id risk = sid).
  { revert E. unfold _compute_supplier_risk_score, res_bind.
    rewrite Ho, Hr, Hot, Hql, Hiv, Hpa.
    destruct (counts_of ot), (counts_of ql), (counts_of iv), (counts_of pa).
    intros E. inversion E. reflexivity. }
  destruct (risk_score_ok db sid o r ot ql iv pa Ho Hr Hot Hql Hiv Hpa)
    as (risk' & Hrisk & Hscore & Hband).
  rewrite E in Hrisk. inversion Hrisk; subst risk'. clear Hrisk.
  set (score := ratio_or 1 (_safe_float (qty_of r) 0) (_safe_float (qty_of o) 0) * 35
                + ratio_or 1 (inject_Z (snd (counts_of ot))) (inject_Z (fst (counts_of ot))) * 25
                + ratio_or 1 (inject_Z (snd (counts_of ql))) (inject_Z (fst (counts_of ql))) * 20
                + (1 - ratio_or 0 (inject_Z (snd (counts_of iv))) (inject_Z (fst (counts_of iv)))) * 10
                + (1 - ratio_or 0 (inject_Z (snd (counts_of pa))) (inject_Z (fst (counts_of pa)))) * 10).
  assert (Es : @weighted_score Q Exact.num
                 (@fulfillment_of Q Exact.num (_safe_float (qty_of o) 0)
                    (_safe_float (qty_of r) 0))
                 (@count_ratio Q Exact.num 1 (fst (counts_of ot)) (snd (counts_of ot)))
                 (@count_ratio Q Exact.num 1 (fst (counts_of ql)) (snd (counts_of ql)))
                 (@count_ratio Q Exact.num 0 (fst (counts_of iv)) (snd (counts_of iv)))
                 (@count_ratio Q Exact.num 0 (fst (counts_of pa)) (snd (counts_of pa)))
               == score).
  { rewrite weighted_score_spec, fulfillment_of_spec, !count_ratio_spec.
    unfold score. ring. }
  exists score. split; [|split; [|split]].
  - pose proof (ratio_or_range 1 (_safe_float (qty_of r) 0) (_safe_float (qty_of o) 0)
                  ltac:(lra)) as H1.
    pose proof (ratio_or_range 1 (inject_Z (snd (counts_of ot)))
                  (inject_Z (fst (counts_of ot))) ltac:(lra)) as H2.
    pose proof (ratio_or_range 1 (inject_Z (snd (counts_of ql)))
                  (inject_Z (fst (counts_of ql))) ltac:(lra)) as H3.
    pose proof (ratio_or_range 0 (inject_Z (snd (counts_of iv)))
                  (inject_Z (fst (counts_of iv))) ltac:(lra)) as H4.
    pose proof (ratio_or_range 0 (inject_Z (snd (counts_of pa)))
                  (inject_Z (fst (counts_of pa))) ltac:(lra)) as H5.
    unfold score. revert H1 H2 H3 H4 H5.
    generalize (ratio_or 1 (_safe_float (qty_of r) 0) (_safe_float (qty_of o) 0))
               (ratio_or 1 (inject_Z (snd (counts_of ot))) (inject_Z (fst (counts_of ot))))
               (ratio_or 1 (inject_Z (snd (counts_of ql))) (inject_Z (fst (counts_of ql))))
               (ratio_or 0 (inject_Z (snd (counts_of iv))) (inject_Z (fst (counts_of iv))))
               (ratio_or 0 (inject_Z (snd (counts_of pa))) (inject_Z (fst (counts_of pa)))).
    intros a b c d e H1 H2 H3 H4 H5. lra.
  - rewrite Hscore. apply q_round_comp. exact Es.
  - rewrite Hband. apply band_comp. exact Es.
  - exact Hsid.
Qed.

(** What a successful plan is made of, over exact arithmetic. *)
Lemma plan_inversion (db : Db Q) (po_id : Z) (plan : Plan) :
  @_recommend_payment_plan Q Exact.num db po_id = Ok (Success plan) ->
  exists base,
    @_compute_base_po_amount Q Exact.num db po_id = Ok (Success base) /\
    @_compute_supplier_risk_score Q Exact.num db (b_supplier_id base) = Ok (risk plan) /\
    total_in_inr plan = b_total_in_inr base /\
    band (policy plan) = risk_band (risk plan) /\
    milestone (policy plan) = _milestone_for_band (risk_band (risk plan)) /\
    upfront_percent (policy plan) = Exact.q_round 2 (upQ (risk_score (risk plan))) /\
    balance_percent (policy plan) = Exact.q_round 2 (100 - upQ (risk_score (risk plan))) /\
    upfront_amount plan
    = Exact.q_round 2 (total_in_inr plan * upQ (risk_score (risk plan)) / 100) /\
    balance_amount plan = Exact.q_round 2 (total_in_inr plan - upfront_amount plan).
Proof.
  unfold _recommend_payment_plan, res_bind.
  destruct (@_compute_base_po_amount Q Exact.num db po_id) as [[e|base]|e] eqn:Hbase;
    try discriminate.
  destruct (@_compute_supplier_risk_score Q Exact.num db (b_supplier_id base))
    as [risk|e] eqn:Hrisk; [|discriminate].
  intros E. injection E as <-. exists base. cbn.
  repeat split; first [reflexivity | exact Hrisk].
Qed.

Lemma upQ_comp (x y : Q) : x == y -> upQ x == upQ y.
Proof.
  intros E. apply Qle_antisym; apply upfront_percent_monotone; rewrite E; apply Qle_refl.
Qed.

Lemma upQ_anchors : upQ 40 == 40 /\ upQ 60 == 70 /\ upQ 80 == 100.
Proof. repeat split; vm_compute; reflexivity. Qed.

(** X16.  The two percentages of a plan are complementary: over exact
    arithmetic the rounded upfront percentage and the rounded balance
    percentage add up to 100, each within [0, 100]; the milestone is
    the one of the band. *)
Theorem plan_percentages_add_up (db : Db Q) (po_id : Z) (plan : Plan) :
  @_recommend_payment_plan Q Exact.num db po_id = Ok (Success plan) ->
  upfront_percent (policy plan) + balance_percent (policy plan) == 100 /\
  0 <= upfront_percent (policy plan) <= 100 /\
  0 <= balance_percent (policy plan) <= 100 /\
  milestone (policy plan) = _milestone_for_band (band (policy plan)).
Proof.
  intros Hplan.
  destruct (plan_inversion db po_id plan Hplan)
    as (base & _ & _ & _ & Hband & Hmile & Hup & Hbal & _ & _).
  rewrite Hup, Hbal, Hmile, Hband.
  pose proof (upfront_percent_range (risk_score (risk plan))) as Hr.
  pose proof (q_round_range _ Hr) as Hu.
  pose proof (q_round_reflect_100 (upQ (risk_score (risk plan)))) as Hrefl.
  revert Hu Hrefl.
  generalize (Exact.q_round 2 (upQ (risk_score (risk plan))))
             (Exact.q_round 2 (100 - upQ (risk_score (risk plan)))).
  intros u b Hu Hrefl. repeat split; lra.
Qed.

(** X17.  Neither amount of a plan overshoots the total: over exact
    arithmetic, for a total that is not negative the upfront amount
    and the balance both lie between 0 and the total (and between the
    total and 0 for a negative one). *)
Theorem plan_amounts_within_total (db : Db Q) (po_id : Z) (plan : Plan) :
  @_recommend_payment_plan Q Exact.num db po_id = Ok (Success plan) ->
  (0 <= total_in_inr plan ->
   0 <= upfront_amount plan <= total_in_inr plan /\
   0 <= balance_amount plan <= total_in_inr plan) /\
  (total_in_inr plan <= 0 ->
   total_in_inr plan <= upfront_amount plan <= 0 /\
   total_in_inr plan <= balance_amount plan <= 0).
Proof.
  intros Hplan.
  destruct (plan_inversion db po_id plan Hplan)
    as (base & Hbase & _ & Htotal & _ & _ & _ & _ & Hup & Hbal).
  destruct (base_total_cents db po_id base Hbase) as [n Hn].
  rewrite <- Htotal in Hn.
  pose proof (upfront_percent_range (risk_score (risk plan))) as Hr.
  set (total := total_in_inr plan) in *.
  set (pct := upQ (risk_score (risk plan))) in *.
  assert (Hupc : upfront_amount plan
                 == inject_Z (round_half_even (total * pct / 100 * 100)) / 100)
    by (rewrite Hup; apply q_round_is_cents).
  set (m := round_half_even _) in Hupc.
  assert (Hdiff : total - upfront_amount plan == inject_Z (n - m) / 100).
  { rewrite Hn, Hupc. unfold Z.sub. rewrite inject_Z_plus, inject_Z_opp. field. }
  assert (Hbal' : balance_amount plan == total - upfront_amount plan)
    by (rewrite Hbal; apply (q_round_cents (n - m)); exact Hdiff).
  assert (Hzero : inject_Z 0 / 100 == 0) by reflexivity.
  split; intros Hsign.
  - assert (Hx : 0 <= total * pct / 100 <= total).
    { rewrite Qdiv_100. clearbody total pct. nra. }
    assert (H1 : 0 <= upfront_amount plan).
    { rewrite Hup, <- Hzero. apply q_round_ge_cents. rewrite Hzero. apply Hx. }
    assert (H2 : upfront_amount plan <= total).
    { rewrite Hup. rewrite Hn at 2. apply q_round_le_cents. rewrite <- Hn. apply Hx. }
    rewrite Hbal'. revert H1 H2. generalize (upfront_amount plan). clearbody total.
    intros u H1 H2. repeat split; lra.
  - assert (Hx : total <= total * pct / 100 <= 0).
    { rewrite Qdiv_100. clearbody total pct. nra. }
    assert (H1 : upfront_amount plan <= 0).
    { rewrite Hup, <- Hzero. apply q_round_le_cents. rewrite Hzero. apply Hx. }
    assert (H2 : total <= upfront_amount plan).
    { rewrite Hup. rewrite Hn at 1. apply q_round_ge_cents. rewrite <- Hn. apply Hx. }
    rewrite Hbal'. revert H1 H2. generalize (upfront_amount plan). clearbody total.
    intros u H1 H2. repeat split; lra.
Qed.

(** X18.  The band of a plan is taken from the unrounded score, its
    upfront percentage from the score rounded to 2 decimals; over
    exact arithmetic the two still fit: a LOW plan is paid in full
    upfront, a MEDIUM plan at 70 per cent or more, a HIGH plan between
    40 and 70, a VERY_HIGH plan at 40 at most.  The upper ends are the
    floor of the next band, which a score within half a cent of the
    boundary reaches. *)
Theorem plan_percentage_fits_band (db : Db Q) (po_id : Z) (plan : Plan) :
  @_recommend_payment_plan Q Exact.num db po_id = Ok (Success plan) ->
  match band (policy plan) with
  | LOW => upfront_percent (policy plan) == 100
  | MEDIUM => 70 <= upfront_percent (policy plan) <= 100
  | HIGH => 40 <= upfront_percent (policy plan) <= 70
  | VERY_HIGH => 0 <= upfront_percent (policy plan) <= 40
  end.
Proof.
  intros Hplan.
  destruct (plan_inversion db po_id plan Hplan)
    as (base & _ & Hrisk & _ & Hband & _ & Hup & _ & _ & _).
  destruct (risk_inversion db _ _ Hrisk) as (score & Hrange & Hscore & Hb & _).
  rewrite Hband, Hb, Hup.
  destruct upQ_anchors as (A40 & A60 & A80).
  pose proof (upfront_percent_range (risk_score (risk plan))) as Hr.
  assert (Hlo : forall k : Z, inject_Z k <= score ->
                  upQ (inject_Z k) <= upQ (risk_score (risk plan))).
  { intros k Hk. apply upfront_percent_monotone. rewrite Hscore.
    apply q_round_ge_int. exact Hk. }
  assert (Hhi : forall k : Z, score <= inject_Z k ->
                  upQ (risk_score (risk plan)) <= upQ (inject_Z k)).
  { intros k Hk. apply upfront_percent_monotone. rewrite Hscore.
    apply q_round_le_int. exact Hk. }
  destruct (risk_band_cases score) as [[Hs ->]|[[Hs ->]|[[Hs ->]|[Hs ->]]]].
  - specialize (Hlo 80%Z Hs). change (inject_Z 80) with 80 in Hlo.
    apply Qle_antisym.
    + apply (q_round_le_int _ 100). apply Hr.
    + apply (q_round_ge_int _ 100). change (inject_Z 100) with 100. lra.
  - specialize (Hlo 60%Z ltac:(apply Hs)). change (inject_Z 60) with 60 in Hlo.
    split.
    + apply (q_round_ge_int _ 70). change (inject_Z 70) with 70. lra.
    + apply (q_round_le_int _ 100). apply Hr.
  - specialize (Hlo 40%Z ltac:(apply Hs)). change (inject_Z 40) with 40 in Hlo.
    specialize (Hhi 60%Z ltac:(change (inject_Z 60) with 60; lra)).
    change (inject_Z 60) with 60 in Hhi.
    split.
    + apply (q_round_ge_int _ 40). change (inject_Z 40) with 40. lra.
    + apply (q_round_le_int _ 70). change (inject_Z 70) with 70. lra.
  - specialize (Hhi 40%Z ltac:(change (inject_Z 40) with 40; lra)).
    change (inject_Z 40) with 40 in Hhi.
    split.
    + apply (q_round_ge_int _ 0). apply Hr.
    + apply (q_round_le_int _ 40). change (inject_Z 40) with 40. lra.
Qed.

(** X19.  The upfront percentage band by band, over exact arithmetic:
    100 in LOW; from 70 to below 86 in MEDIUM, from 40 to below 62 in
    HIGH, from 0 to below 31 in VERY_HIGH.  The interpolation runs to
    the anchors 79, 59 and 39, so the percentage stays within 85, 60
    and 30 exactly for the scores up to these and goes past them in
    the last unit of each band.  Below 80 a higher score always earns
    strictly more. *)
Theorem upfront_percent_by_band (s : Q) :
  (bandQ s = LOW -> upQ s == 100) /\
  (bandQ s = MEDIUM -> 70 <= upQ s < 86 /\ (upQ s <= 85 <-> s <= 79)) /\
  (bandQ s = HIGH -> 40 <= upQ s < 62 /\ (upQ s <= 60 <-> s <= 59)) /\
  (bandQ s = VERY_HIGH -> 0 <= upQ s < 31 /\ (upQ s <= 30 <-> s <= 39)) /\
  (forall s', 0 <= s -> s < s' -> s' <= 80 -> upQ s < upQ s').
Proof.
  pose proof (upfront_percent_cases s) as Hu. cbv zeta in Hu.
  pose proof (clamp_cases s 0 100 ltac:(lra)) as Hc.
  destruct (band_partition s) as (BL & BM & BH & BV).
  split; [|split; [|split; [|split]]].
  - intros Hb. apply BL in Hb.
    revert Hu Hc. generalize (upQ s) (clampQ s 0 100). intros u c Hu Hc. lra.
  - intros Hb. apply BM in Hb.
    revert Hu Hc. generalize (upQ s) (clampQ s 0 100). intros u c Hu Hc.
    repeat split; intros; lra.
  - intros Hb. apply BH in Hb.
    revert Hu Hc. generalize (upQ s) (clampQ s 0 100). intros u c Hu Hc.
    repeat split; intros; lra.
  - intros Hb. apply BV in Hb.
    revert Hu Hc. generalize (upQ s) (clampQ s 0 100). intros u c Hu Hc.
    repeat split; intros; lra.
  - intros s' H0 Hlt H80.
    pose proof (upfront_percent_cases s') as Hu'. cbv zeta in Hu'.
    pose proof (clamp_cases s' 0 100 ltac:(lra)) as Hc'.
    revert Hu Hc Hu' Hc'.
    generalize (upQ s) (clampQ s 0 100) (upQ s') (clampQ s' 0 100).
    intros u c u' c' Hu Hc Hu' Hc'. lra.
Qed.

End PlanFacts.

Lemma plan_percentages_add_up_witness :
  exists plan,
    @Payment._recommend_payment_plan Q Exact.num (history_db q_dec) 1
    = Ok (Payment.Success plan) /\
    (Payment.upfront_percent (Payment.policy plan)
     + Payment.balance_percent (Payment.policy plan) == 100)%Q.
Proof.
  eexists. split; [vm_compute; reflexivity|].
  apply (plan_percentages_add_up (history_db q_dec) 1). vm_compute. reflexivity.
Defined.

Lemma plan_amounts_within_total_witness :
  exists plan,
    @Payment._recommend_payment_plan Q Exact.num (history_db q_dec) 1
    = Ok (Payment.Success plan) /\
    (0 <= Payment.upfront_amount plan <= Payment.total_in_inr plan)%Q.
Proof.
  eexists. split; [vm_compute; reflexivity|].
  apply (plan_amounts_within_total (history_db q_dec) 1); [vm_compute; reflexivity|].
  vm_compute. discriminate.
Defined.

Lemma plan_percentage_fits_band_witness :
  exists plan,
    @Payment._recommend_payment_plan Q Exact.num (near_low_db q_dec) 1
    = Ok (Payment.Success plan) /\
    Payment.band (Payment.policy plan) = Payment.MEDIUM /\
    (Payment.upfront_percent (Payment.policy plan) == 100)%Q /\
    (70 <= Payment.upfront_percent (Payment.policy plan) <= 100)%Q.
Proof.
  eexists. split; [vm_compute; reflexivity|].
  split; [vm_compute; reflexivity|].
  split; [vm_compute; reflexivity|].
  apply (plan_percentage_fits_band (near_low_db q_dec) 1 _ eq_refl).
Defined.

(** ** The tools of the payment server *)

Section ToolFacts.
Import Payment.

Lemma risk_reports_supplier {F : Type} `{PyNum F} (db : Db F) (sid : option string)
    (risk : Risk) :
  _compute_supplier_risk_score db sid = Ok risk -> r_supplier_id risk = sid.
Proof.
  unfold _compute_supplier_risk_score, res_bind.
  destruct (ordered_q db sid); [|discriminate].
  destruct (received_q db sid); [|discriminate].
  destruct (ontime_q db sid) as [ot|]; [|discriminate]. destruct (counts_of ot).
  destruct (quality_q db sid) as [ql|]; [|discriminate]. destruct (counts_of ql).
  destruct (inv_q db sid) as [iv|]; [|discriminate]. destruct (counts_of iv).
  destruct (pay_q db sid) as [pa|]; [|discriminate]. destruct (counts_of pa).
  intros E. inversion E. reflexivity.
Qed.

Lemma plan_of_header {F : Type} `{PyNum F} (db : Db F) (pid : Z) (plan : Plan) :
  _recommend_payment_plan db pid = Ok (Success plan) ->
  exists head,
    head_q db pid = Ok (Some head) /\
    p_po_id plan = pid /\
    p_supplier_id plan = h_supplier_id head /\
    p_currency plan = h_currency head /\
    r_supplier_id (risk plan) = h_supplier_id head.
Proof.
  unfold _recommend_payment_plan, _compute_base_po_amount, res_bind.
  destruct (line_q db pid) as [line_row|]; [|discriminate].
  destruct (head_q db pid) as [[head|]|]; try discriminate.
  cbn [b_supplier_id b_total_in_inr b_currency b_exchange_rate].
  destruct (_compute_supplier_risk_score db (h_supplier_id head)) as [risk|] eqn:Hrisk;
    [|discriminate].
  intros E. injection E as <-. exists head. cbn.
  repeat split. exact (risk_reports_supplier db _ _ Hrisk).
Qed.

(** X20.  A plan is only ever computed for a purchase order that is
    in the table: the reference resolves to a key other than 0, the
    key exists, and the plan carries that key, with the supplier and
    the risk of the order's own header, not of the [supplier_id]
    argument; no environment variable is missing.  For a numeric
    reference the [supplier_id] argument plays no part at all. *)
Theorem plan_is_for_the_resolved_order {F : Type} `{PyNum F} (missing : list string)
    (db : Db F) (po_ref : PoRef) (supplier_id : option string) (plan : Plan) :
  recommend_payment_plan missing db po_ref supplier_id = Success plan ->
  missing = [] /\
  (exists pid head,
      _map_request_to_po po_ref supplier_id = Some pid /\ pid <> 0 /\
      exists_q db pid = Ok (Some tt) /\ head_q db pid = Ok (Some head) /\
      p_po_id plan = pid /\
      p_supplier_id plan = h_supplier_id head /\
      r_supplier_id (risk plan) = h_supplier_id head) /\
  (forall n other, po_ref = RefInt n ->
                   recommend_payment_plan missing db po_ref other = Success plan).
Proof.
  intros Hplan.
  assert (Hmissing : missing = []).
  { unfold recommend_payment_plan in Hplan.
    destruct missing; [reflexivity | discriminate Hplan]. }
  subst missing. split; [reflexivity|]. split.
  - unfold recommend_payment_plan, _po_exists, res_bind in Hplan. cbn [list_nonempty] in Hplan.
    destruct (_map_request_to_po po_ref supplier_id) as [pid|]; [|discriminate Hplan].
    destruct (Z.eqb_spec pid 0) as [|Hnz]; [discriminate Hplan|].
    destruct (exists_q db pid) as [[[]|]|] eqn:Hex; try discriminate Hplan.
    destruct (_recommend_payment_plan db pid) as [r|] eqn:Hrec; [|discriminate Hplan].
    subst r.
    destruct (plan_of_header db pid plan Hrec) as (head & Hh & Hp & Hs & _ & Hr).
    exists pid, head. repeat split; assumption.
  - intros n other ->. exact Hplan.
Qed.

End ToolFacts.

Lemma plan_is_for_the_resolved_order_witness :
  exists plan,
    @Payment.recommend_payment_plan spec_float B64.num [] (history_db B64.dec)
      (Payment.RefInt 2) (Some "SUP001") = Payment.Success plan /\
    Payment.p_supplier_id plan = Some "SUP002" /\
    exists pid head,
      Payment._map_request_to_po (Payment.RefInt 2) (Some "SUP001") = Some pid /\
      pid <> 0 /\
      Payment.exists_q (history_db B64.dec) pid = Ok (Some tt) /\
      Payment.head_q (history_db B64.dec) pid = Ok (Some head) /\
      Payment.p_po_id plan = pid /\
      Payment.p_supplier_id plan = Payment.h_supplier_id head /\
      Payment.r_supplier_id (Payment.risk plan) = Payment.h_supplier_id head.
Proof.
  eexists. split; [vm_compute; reflexivity|].
  split; [vm_compute; reflexivity|].
  exact (proj1 (proj2 (@plan_is_for_the_resolved_order spec_float B64.num []
                         (history_db B64.dec) (Payment.RefInt 2) (Some "SUP001") _ eq_refl))).
Defined.

Section BaseFacts.
Import Payment.
Local Open Scope Q_scope.

(** X21.  The totals of a purchase order, over exact arithmetic: the
    order has a header row, whose supplier is reported; a missing
    exchange rate counts as 1, and at rate 1 the converted total is the
    order total; every reported amount is rounded on its own, so the
    reported line total, tax and freight may fail to add up to the
    reported order total, by 2 cents at most. *)
Theorem base_amount_totals (db : Db Q) (po_id : Z) (base : Base) :
  @_compute_base_po_amount Q Exact.num db po_id = Ok (Success base) ->
  (exists head,
      head_q db po_id = Ok (Some head) /\
      b_supplier_id base = h_supplier_id head /\
      b_exchange_rate base = _safe_float (h_exchange_rate head) 1) /\
  (b_exchange_rate base == 1 -> b_total_in_inr base == b_total_po_amount base) /\
  - (2 # 100)
  <= b_total_po_amount base
     - (b_line_total base + b_tax_amount base + b_freight_amount base)
  <= 2 # 100.
Proof.
  unfold _compute_base_po_amount, res_bind.
  destruct (line_q db po_id) as [line_row|]; [|discriminate].
  destruct (head_q db po_id) as [[head|]|]; try discriminate.
  intros E. injection E as <-.
  cbn [b_supplier_id b_exchange_rate b_total_in_inr b_total_po_amount
       b_line_total b_tax_amount b_freight_amount].
  cbn [num_round num_add num_mul num_of_Z Exact.num].
  change (inject_Z 1) with 1. change (inject_Z 0) with 0.
  set (line := _safe_float (qty_of line_row) 0).
  set (tax := _safe_float (h_tax_amount head) 0).
  set (freight := _safe_float (h_freight_amount head) 0).
  set (rate := _safe_float (h_exchange_rate head) 1).
  split; [exists head; repeat split; reflexivity|]. split.
  - intros Hrate. apply q_round_comp. rewrite Hrate. ring.
  - pose proof (q_round_error (line + tax + freight)) as H0.
    pose proof (q_round_error line) as H1.
    pose proof (q_round_error tax) as H2.
    pose proof (q_round_error freight) as H3.
    revert H0 H1 H2 H3.
    generalize (Exact.q_round 2 (line + tax + freight)) (Exact.q_round 2 line)
               (Exact.q_round 2 tax) (Exact.q_round 2 freight).
    clearbody line tax freight. intros a b c d H0 H1 H2 H3. lra.
Qed.

End BaseFacts.

Lemma base_amount_totals_witness :
  exists base,
    @Payment._compute_base_po_amount Q Exact.num (half_cent_db q_dec) 1
    = Ok (Payment.Success base) /\
    (Payment.b_total_po_amount base == 2 # 100)%Q /\
    (Payment.b_line_total base + Payment.b_tax_amount base
     + Payment.b_freight_amount base == 0)%Q /\
    (Payment.b_total_in_inr base == Payment.b_total_po_amount base)%Q.
Proof.
  eexists. split; [vm_compute; reflexivity|].
  split; [vm_compute; reflexivity|].
  split; [vm_compute; reflexivity|].
  apply (base_amount_totals (half_cent_db q_dec) 1 _ eq_refl).
  vm_compute. reflexivity.
Defined.

(** ** The budget server *)

Section BudgetFacts.
Import BudgetServer.
Local Open Scope Q_scope.

Ltac exact_num :=
  cbn [num_leb num_ltb num_of_Z num_eqb num_add num_sub num_mul num_div
       num_round Exact.num] in *.

(** X22.  [reserve_budget] books exactly what
    [check_budget_availability] calls available, over exact
    arithmetic: the reservation succeeds if and only if the check on
    the same budgets answers [available], it then raises the
    department's reserved total by the amount and lowers what is
    available by the same, leaving allocation and spending alone; a
    refusal changes nothing.  No other department is touched. *)
Theorem reserve_budget_books_what_is_available (BUDGETS : gmap string (Entry Q))
    (department_id : string) (amount : Q) (po_id : option string) :
  let r := @reserve_budget Q Exact.num BUDGETS department_id amount po_id in
  let check := @check_budget_availability Q Exact.num BUDGETS department_id amount in
  (forall other, other <> department_id -> snd r !! other = BUDGETS !! other) /\
  match fst r with
  | Booked booked total p =>
      available check = true /\ booked = amount /\ p = po_id /\
      exists budget budget',
        BUDGETS !! department_id = Some budget /\
        snd r !! department_id = Some budget' /\
        total = reserved budget' /\
        reserved budget' == reserved budget + amount /\
        allocated budget' = allocated budget /\ spent budget' = spent budget /\
        @available_of Q Exact.num budget' == @available_of Q Exact.num budget - amount
  | Refused why p => snd r = BUDGETS /\ available check = false /\ p = po_id
  end.
Proof.
  cbv zeta. unfold reserve_budget, check_budget_availability.
  destruct (BUDGETS !! department_id) as [budget|] eqn:Hb; cbn [fst snd available].
  - exact_num.
    destruct (Qle_bool amount (@available_of Q Exact.num budget)) eqn:Hle;
      cbn [negb fst snd].
    + split; [intros other Hne; apply lookup_insert_ne; congruence|].
      split; [reflexivity|]. split; [reflexivity|]. split; [reflexivity|].
      eexists budget, _. split; [reflexivity|]. split; [apply lookup_insert_eq|].
      cbn [with_reserved reserved allocated spent]. split; [reflexivity|].
      split; [reflexivity|]. split; [reflexivity|]. split; [reflexivity|].
      unfold available_of, with_reserved. exact_num. cbn [allocated spent reserved]. ring.
    + split; [reflexivity|]. repeat split; reflexivity.
  - split; [reflexivity|]. repeat split; reflexivity.
Qed.

Lemma solvent_after_reserve (budget : Entry Q) (amount : Q) :
  solvent budget -> 0 <= amount ->
  Qle_bool amount (@available_of Q Exact.num budget) = true ->
  solvent (with_reserved (reserved budget + amount) budget).
Proof.
  intros [Hr Ha] Hamount Hle. apply Qle_bool_iff in Hle.
  unfold solvent, available_of in *. exact_num.
  cbn [with_reserved reserved allocated spent]. split; lra.
Qed.

Lemma solvent_after_release (budget : Entry Q) (amount : Q) :
  solvent budget -> 0 <= amount ->
  Qle_bool amount (reserved budget) = true ->
  solvent (with_reserved (reserved budget - amount) budget).
Proof.
  intros [Hr Ha] Hamount Hle. apply Qle_bool_iff in Hle.
  unfold solvent, available_of in *. exact_num.
  cbn [with_reserved reserved allocated spent]. split; lra.
Qed.

(** X23.  Bookings keep the budgets sound, over exact arithmetic: if
    in every department nothing negative is reserved and spending
    plus reservations fit the allocation, the same holds after any
    reservation and any release of an amount that is not negative,
    granted or refused. *)
Theorem bookings_keep_budgets_solvent (BUDGETS : gmap string (Entry Q))
    (department_id : string) (amount : Q) (po_id : option string) :
  (forall d budget, BUDGETS !! d = Some budget -> solvent budget) ->
  0 <= amount ->
  (forall d budget,
      snd (@reserve_budget Q Exact.num BUDGETS department_id amount po_id) !! d
      = Some budget -> solvent budget) /\
  (forall d budget,
      snd (@release_budget_reservation Q Exact.num BUDGETS department_id amount po_id) !! d
      = Some budget -> solvent budget).
Proof.
  intros Hinv Hamount. split; intros d budget.
  - unfold reserve_budget.
    destruct (BUDGETS !! department_id) as [b|] eqn:Hb; [|apply Hinv].
    exact_num.
    destruct (Qle_bool amount (@available_of Q Exact.num b)) eqn:Hle;
      cbn [negb snd]; [|apply Hinv].
    destruct (decide (d = department_id)) as [->|Hne].
    + rewrite lookup_insert_eq. intros E. injection E as <-.
      apply solvent_after_reserve; [exact (Hinv _ _ Hb) | exact Hamount | exact Hle].
    + rewrite lookup_insert_ne by congruence. apply Hinv.
  - unfold release_budget_reservation.
    destruct (BUDGETS !! department_id) as [b|] eqn:Hb; [|apply Hinv].
    exact_num.
    destruct (Qle_bool amount (reserved b)) eqn:Hle; cbn [snd]; [|apply Hinv].
    destruct (decide (d = department_id)) as [->|Hne].
    + rewrite lookup_insert_eq. intros E. injection E as <-.
      apply solvent_after_release; [exact (Hinv _ _ Hb) | exact Hamount | exact Hle].
    + rewrite lookup_insert_ne by congruence. apply Hinv.
Qed.

(** X24.  A release undoes a reservation, over exact arithmetic: when
    a department with no negative reservation is granted a
    reservation, releasing the same amount right after is granted as
    well, and every department is back at its former entry. *)
Theorem release_undoes_reservation (BUDGETS : gmap string (Entry Q))
    (department_id : string) (amount : Q) (po_id : option string)
    (budget : Entry Q) (total : Q) (p : option string) :
  BUDGETS !! department_id = Some budget ->
  0 <= reserved budget ->
  fst (@reserve_budget Q Exact.num BUDGETS department_id amount po_id)
  = Booked amount total p ->
  let reserved_ := snd (@reserve_budget Q Exact.num BUDGETS department_id amount po_id) in
  let released :=
    @release_budget_reservation Q Exact.num reserved_ department_id amount po_id in
  (exists total', fst released = Booked amount total' po_id /\ total' == reserved budget) /\
  (forall d, d <> department_id -> snd released !! d = BUDGETS !! d) /\
  (exists budget', snd released !! department_id = Some budget' /\
                   same_entry budget' budget).
Proof.
  intros Hb Hr. cbv zeta. unfold reserve_budget. rewrite Hb. exact_num.
  destruct (Qle_bool amount (@available_of Q Exact.num budget)) eqn:Hle;
    cbn [negb fst snd]; [|discriminate].
  intros _. unfold release_budget_reservation. rewrite lookup_insert_eq.
  cbn [with_reserved reserved]. exact_num.
  assert (Hback : Qle_bool amount (reserved budget + amount) = true)
    by (apply Qle_bool_iff; lra).
  rewrite Hback. cbn [fst snd with_reserved reserved allocated spent name fiscal_year].
  split; [eexists; split; [reflexivity | ring]|]. split.
  - intros d Hne. rewrite !lookup_insert_ne by congruence. reflexivity.
  - eexists. split; [apply lookup_insert_eq|].
    unfold same_entry. cbn. repeat split; try reflexivity. ring.
Qed.

End BudgetFacts.

Lemma bookings_keep_budgets_solvent_witness :
  exists budget,
    snd (@BudgetServer.reserve_budget Q Exact.num it_budgets "IT" 5000%Q (Some "PO-1"))
      !! "IT" = Some budget /\
    solvent budget.
Proof.
  destruct (snd (@BudgetServer.reserve_budget Q Exact.num it_budgets "IT" 5000%Q
                   (Some "PO-1")) !! "IT") as [budget|] eqn:E;
    [|vm_compute in E; discriminate E].
  exists budget. split; [reflexivity|].
  refine (proj1 (bookings_keep_budgets_solvent it_budgets "IT" 5000%Q (Some "PO-1") _ _)
            "IT" budget E).
  - intros d b. unfold it_budgets. rewrite lookup_singleton_Some.
    intros [_ <-]. split; vm_compute; discriminate.
  - vm_compute. discriminate.
Defined.

Lemma release_undoes_reservation_witness :
  exists budget',
    snd (@BudgetServer.release_budget_reservation Q Exact.num
           (snd (@BudgetServer.reserve_budget Q Exact.num it_budgets "IT" 5000%Q
                   (Some "PO-1")))
           "IT" 5000%Q (Some "PO-1")) !! "IT" = Some budget' /\
    same_entry budget'
      (BudgetServer.mkEntry (PyStr "Information Technology") (PyStr "2025")
         50000%Q 12000%Q 3000%Q).
Proof.
  refine (proj2 (proj2 (release_undoes_reservation it_budgets "IT" 5000%Q (Some "PO-1")
                          _ 8000%Q (Some "PO-1") _ _ _))).
  - reflexivity.
  - vm_compute. discriminate.
  - vm_compute. reflexivity.
Defined.

(** ** The approval server *)

Section ApprovalFacts.
Import ApprovalServer.
Local Open Scope Q_scope.

Lemma first_threshold_some (thresholds : list (Threshold Q)) (amount : Q) (t : Threshold Q) :
  @first_threshold Q Exact.num thresholds amount = Some t ->
  exists pre post,
    thresholds = (pre ++ t :: post)%list /\
    Forall (fun u => max_amount u < amount) pre /\
    amount <= max_amount t.
Proof.
  induction thresholds as [|u rest IH]; [discriminate|]. cbn [first_threshold].
  cbn [num_leb Exact.num].
  destruct (Qle_bool amount (max_amount u)) eqn:E.
  - intros H. injection H as <-. exists [], rest.
    split; [reflexivity|]. split; [constructor | apply Qle_bool_iff; exact E].
  - intros H. destruct (IH H) as (pre & post & -> & Hpre & Ht).
    exists (u :: pre), post. split; [reflexivity|]. split; [|exact Ht].
    constructor; [|exact Hpre].
    apply Qnot_le_lt. intros Hle. apply Qle_bool_iff in Hle. congruence.
Qed.

Lemma first_threshold_none (thresholds : list (Threshold Q)) (amount : Q) :
  @first_threshold Q Exact.num thresholds amount = None <->
  Forall (fun u => max_amount u < amount) thresholds.
Proof.
  induction thresholds as [|u rest IH]; cbn [first_threshold].
  - split; [constructor | reflexivity].
  - cbn [num_leb Exact.num]. rewrite Forall_cons.
    destruct (Qle_bool amount (max_amount u)) eqn:E.
    + apply Qle_bool_iff in E. split; [discriminate | intros [Hlt _]; lra].
    + rewrite IH. split; [|tauto]. intros Hrest. split; [|exact Hrest].
      apply Qnot_le_lt. intros Hle. apply Qle_bool_iff in Hle. congruence.
Qed.

Lemma ascending_app_r (pre rest : list (Threshold Q)) :
  ascending (pre ++ rest) -> ascending rest.
Proof.
  induction pre as [|t pre IH]; [trivial|]. cbn. intros [_ H]. exact (IH H).
Qed.

(** X25.  An order is auto-approved only within a tier that admits
    it, over exact arithmetic: [approval_needed] is always the
    negation of [auto_approve]; when [auto_approve] holds, the reply
    is built from the first threshold of the table whose amount the
    order does not exceed, every threshold before it lying below the
    order, and this is the tightest admitting threshold when the table
    is in ascending order; an order above every threshold is never
    auto-approved and gets the last threshold of the table (or the
    director and an infinite threshold for an empty table). *)
Theorem auto_approval_within_first_tier (thresholds : list (Threshold Q))
    (order : Q) (department : option string) :
  let r := @get_required_approvers Q Exact.num thresholds order department in
  approval_needed r = negb (truthy (auto_approve r)) /\
  amount r = order /\
  (truthy (auto_approve r) = true ->
   exists pre t post,
     thresholds = (pre ++ t :: post)%list /\
     Forall (fun u => max_amount u < order) pre /\
     order <= max_amount t /\
     threshold r = Finite (max_amount t) /\
     approvers_required r = required_approvers t /\
     auto_approve r = auto_approve_of t /\
     (ascending thresholds ->
      forall u, In u thresholds -> order <= max_amount u ->
                max_amount t <= max_amount u)) /\
  (Forall (fun u => max_amount u < order) thresholds ->
   approval_needed r = true /\ auto_approve r = PyBool false /\
   threshold r = match last thresholds with
                 | Some t => Finite (max_amount t)
                 | None => Infinite
                 end).
Proof.
  cbv zeta. unfold get_required_approvers.
  destruct (@first_threshold Q Exact.num thresholds order) as [t|] eqn:Hfirst.
  - cbn [approval_needed auto_approve amount threshold approvers_required].
    split; [reflexivity|]. split; [reflexivity|]. split.
    + intros _. destruct (first_threshold_some _ _ _ Hfirst) as (pre & post & Hsplit & Hpre & Ht).
      exists pre, t, post. repeat split; try assumption; try reflexivity.
      intros Hsorted u Hin Hu. subst thresholds.
      apply in_app_or in Hin. destruct Hin as [Hin | [<- | Hin]].
      * rewrite Forall_forall in Hpre. apply list_elem_of_In in Hin.
        specialize (Hpre u Hin). lra.
      * apply Qle_refl.
      * apply ascending_app_r in Hsorted. destruct Hsorted as [Hall _].
        rewrite Forall_forall in Hall. apply list_elem_of_In in Hin. exact (Hall u Hin).
    + intros Hall. apply first_threshold_none in Hall. congruence.
  - destruct (last thresholds) as [t|];
      cbn [approval_needed auto_approve amount threshold approvers_required truthy negb];
      (split; [reflexivity|]; split; [reflexivity|]; split;
       [intros Hf; discriminate Hf | intros _; repeat split; reflexivity]).
Qed.

End ApprovalFacts.

(** ** The supplier server *)

Section SupplierFacts.
Import SupplierServer.
Local Open Scope Q_scope.

Lemma str_is_eq (v : PyVal) (s : string) : str_is v s = true <-> v = PyStr s.
Proof.
  destruct v; cbn; try (split; [discriminate | intros H; discriminate H]).
  rewrite String.eqb_eq. split; [intros ->; reflexivity | intros H; injection H; auto].
Qed.

(** X26.  The two supplier checks, over exact arithmetic: a supplier
    is valid exactly when it is on file with status "approved", and
    the reply carries the entry on file; an order of a positive value
    fits only a supplier on file with a [max_order_value] of at least
    that value, a supplier without one taking no order at all; an
    unknown supplier fails both checks, with a capacity of 0.  The
    capacity check does not look at the status. *)
Theorem supplier_checks (SUPPLIERS : gmap string (Supplier Q))
    (supplier_id : string) (order_value : Q) :
  let v := validate_supplier SUPPLIERS supplier_id in
  let c := @check_supplier_capacity Q Exact.num SUPPLIERS supplier_id order_value in
  (valid v = true <->
   exists s, SUPPLIERS !! supplier_id = Some s /\ status s = PyStr "approved") /\
  supplier v = SUPPLIERS !! supplier_id /\
  requested c = order_value /\
  (0 < order_value -> capacity_ok c = true ->
   exists s m, SUPPLIERS !! supplier_id = Some s /\ max_order_value s = Some m /\
               order_value <= m /\ max_capacity c = m) /\
  (SUPPLIERS !! supplier_id = None ->
   valid v = false /\ capacity_ok c = false /\ max_capacity c == 0) /\
  (forall s s', SUPPLIERS !! supplier_id = Some s ->
                max_order_value s' = max_order_value s ->
                @check_supplier_capacity Q Exact.num (<[supplier_id := s']> SUPPLIERS)
                  supplier_id order_value = c).
Proof.
  cbv zeta. unfold validate_supplier, check_supplier_capacity.
  destruct (SUPPLIERS !! supplier_id) as [s|] eqn:Hs.
  - split; [|split; [|split; [|split; [|split]]]].
    + unfold approved. destruct (str_is (status s) "approved") eqn:E; cbn [negb valid].
      * apply str_is_eq in E. split; [intros _; exists s; split; [reflexivity | exact E]|reflexivity].
      * split; [discriminate|]. intros (s' & Hs' & Hst). injection Hs' as <-.
        apply str_is_eq in Hst. congruence.
    + destruct (negb (approved s)); reflexivity.
    + reflexivity.
    + cbn [capacity_ok max_capacity num_leb num_of_Z Exact.num]. intros Hpos Hok.
      apply Qle_bool_iff in Hok.
      destruct (max_order_value s) as [m|] eqn:Hm.
      * exists s, m. repeat split; first [reflexivity | exact Hm | exact Hok].
      * exfalso. change (inject_Z 0) with 0 in Hok. lra.
    + discriminate.
    + intros s0 s' Hs0 Hmax. injection Hs0 as <-. rewrite lookup_insert_eq, Hmax. reflexivity.
  - split; [|split; [|split; [|split; [|split]]]].
    + cbn. split; [discriminate | intros (s & Hs' & _); discriminate Hs'].
    + reflexivity.
    + reflexivity.
    + cbn. intros _ H. discriminate H.
    + intros _. repeat split; reflexivity.
    + intros s s' Hs'. discriminate Hs'.
Qed.

Lemma list_loop_sound (category : option string) (items : list (string * Supplier Q)) :
  forall acc out,
    list_loop category items acc = Ok out ->
    forall id entry,
      out !! id = Some entry ->
      acc !! id = Some entry \/
      exists s c, (id, s) ∈ items /\ approved s = true /\
                  in_category category s = true /\
                  categories s = Some c /\
                  entry = mkListed (name s) (rating s) c.
Proof.
  induction items as [|[k s] rest IH]; intros acc out; cbn [list_loop].
  - intros E. injection E as <-. intros id entry H. left. exact H.
  - destruct (approved s && in_category category s) eqn:Hsel.
    + destruct (categories s) as [c|] eqn:Hc; [|discriminate].
      intros E id entry Hout.
      destruct (IH _ _ E id entry Hout) as [Hacc | (s' & c' & Hin & H)].
      * apply lookup_insert_Some in Hacc. destruct Hacc as [[<- <-] | [_ Hacc]].
        -- right. exists s, c. apply andb_true_iff in Hsel. destruct Hsel as [Ha Hi].
           repeat split; try assumption. apply list_elem_of_here.
        -- left. exact Hacc.
      * right. exists s', c'. split; [apply list_elem_of_further; exact Hin | exact H].
    + intros E id entry Hout.
      destruct (IH _ _ E id entry Hout) as [Hacc | (s' & c' & Hin & H)].
      * left. exact Hacc.
      * right. exists s', c'. split; [apply list_elem_of_further; exact Hin | exact H].
Qed.

Lemma list_loop_complete (category : option string) (items : list (string * Supplier Q)) :
  forall acc out,
    list_loop category items acc = Ok out ->
    forall id,
      (is_Some (acc !! id) \/
       exists s, (id, s) ∈ items /\ approved s = true /\
                 in_category category s = true) ->
      is_Some (out !! id).
Proof.
  induction items as [|[k s] rest IH]; intros acc out; cbn [list_loop].
  - intros E. injection E as <-. intros id [H | (s & Hin & _)]; [exact H|].
    apply elem_of_nil in Hin. contradiction.
  - destruct (approved s && in_category category s) eqn:Hsel.
    + destruct (categories s) as [c|] eqn:Hc; [|discriminate].
      intros E id H. apply (IH _ _ E id).
      destruct H as [Hacc | (s' & Hin & Ha & Hi)].
      * left. destruct (decide (k = id)) as [->|Hne].
        -- rewrite lookup_insert_eq. eexists; reflexivity.
        -- rewrite lookup_insert_ne by exact Hne. exact Hacc.
      * apply elem_of_cons in Hin. destruct Hin as [Heq | Hin].
        -- injection Heq as -> ->. left. rewrite lookup_insert_eq. eexists; reflexivity.
        -- right. exists s'. repeat split; assumption.
    + intros E id H. apply (IH _ _ E id).
      destruct H as [Hacc | (s' & Hin & Ha & Hi)]; [left; exact Hacc|].
      apply elem_of_cons in Hin. destruct Hin as [Heq | Hin].
      * injection Heq as -> ->. rewrite Ha, Hi in Hsel. discriminate Hsel.
      * right. exists s'. repeat split; assumption.
Qed.

Lemma list_loop_raises (category : option string) (items : list (string * Supplier Q)) :
  forall acc e,
    list_loop category items acc = Raise e ->
    e = KeyError "categories" /\
    exists id s, (id, s) ∈ items /\ approved s = true /\
                 in_category category s = true /\ categories s = None.
Proof.
  induction items as [|[k s] rest IH]; intros acc e; cbn [list_loop]; [discriminate|].
  destruct (approved s && in_category category s) eqn:Hsel.
  - destruct (categories s) as [c|] eqn:Hc.
    + intros E. destruct (IH _ _ E) as (He & id & s' & Hin & H).
      split; [exact He|]. exists id, s'. split; [apply list_elem_of_further; exact Hin | exact H].
    + intros E. injection E as <-. split; [reflexivity|].
      apply andb_true_iff in Hsel. destruct Hsel as [Ha Hi].
      exists k, s. repeat split; try assumption. apply list_elem_of_here.
  - intros E. destruct (IH _ _ E) as (He & id & s' & Hin & H).
    split; [exact He|]. exists id, s'. split; [apply list_elem_of_further; exact Hin | exact H].
Qed.

(** X27.  [list_approved_suppliers] lists exactly the suppliers on
    file that are approved and in the category asked for, each with
    its own name, rating and categories, and counts them; every
    supplier it lists passes [validate_supplier].  It raises only
    when no category is asked for and an approved supplier has no
    [categories] entry, with the [KeyError] for that key. *)
Theorem listed_suppliers_are_valid (SUPPLIERS : gmap string (Supplier Q))
    (category : option string) :
  (forall count listed,
      list_approved_suppliers SUPPLIERS category = Ok (count, listed) ->
      count = size listed /\
      (forall id, is_Some (listed !! id) <->
                  exists s, SUPPLIERS !! id = Some s /\ approved s = true /\
                            in_category category s = true) /\
      (forall id entry, listed !! id = Some entry ->
                        valid (validate_supplier SUPPLIERS id) = true /\
                        exists s, SUPPLIERS !! id = Some s /\
                                  l_name entry = name s /\ l_rating entry = rating s /\
                                  categories s = Some (l_categories entry))) /\
  (forall e,
      list_approved_suppliers SUPPLIERS category = Raise e ->
      e = KeyError "categories" /\ category = None /\
      exists id s, SUPPLIERS !! id = Some s /\ approved s = true /\
                   categories s = None).
Proof.
  unfold list_approved_suppliers.
  destruct (list_loop category (map_to_list SUPPLIERS) ∅) as [out|e0] eqn:Hloop.
  - split; [|discriminate]. intros count listed E. injection E as <- <-.
    split; [reflexivity|]. split.
    + intros id. split.
      * intros [entry Hentry].
        destruct (list_loop_sound _ _ _ _ Hloop id entry Hentry)
          as [Hacc | (s & c & Hin & Ha & Hi & _)].
        -- rewrite lookup_empty in Hacc. discriminate Hacc.
        -- apply elem_of_map_to_list in Hin. exists s. repeat split; assumption.
      * intros (s & Hs & Ha & Hi). apply (list_loop_complete _ _ _ _ Hloop id).
        right. exists s. split; [apply elem_of_map_to_list; exact Hs | split; assumption].
    + intros id entry Hentry.
      destruct (list_loop_sound _ _ _ _ Hloop id entry Hentry)
        as [Hacc | (s & c & Hin & Ha & Hi & Hc & ->)].
      * rewrite lookup_empty in Hacc. discriminate Hacc.
      * apply elem_of_map_to_list in Hin. split.
        -- unfold validate_supplier. rewrite Hin, Ha. reflexivity.
        -- exists s. repeat split; first [exact Hin | exact Hc | reflexivity].
  - split; [discriminate|]. intros e E. injection E as <-.
    destruct (list_loop_raises _ _ _ _ Hloop) as (He & id & s & Hin & Ha & Hi & Hc).
    split; [exact He|]. split.
    + destruct category as [c|]; [|reflexivity].
      unfold in_category in Hi. rewrite Hc in Hi. discriminate Hi.
    + apply elem_of_map_to_list in Hin. exists id, s. repeat split; assumption.
Qed.

End SupplierFacts.

Lemma upfront_percent_by_band_witness : (85 < upQ (159 # 2))%Q.
Proof.
  destruct (upfront_percent_by_band (159 # 2)) as (_ & Hmedium & _).
  assert (Hband : bandQ (159 # 2) = Payment.MEDIUM) by (vm_compute; reflexivity).
  destruct (Hmedium Hband) as [_ Hiff].
  apply Qnot_le_lt. intros Hle. apply Hiff in Hle.
  unfold Qle in Hle. simpl in Hle. lia.
Defined.

Lemma auto_approval_within_first_tier_witness :
  exists pre t post,
    three_tiers = (pre ++ t :: post)%list /\
    Forall (fun u => (ApprovalServer.max_amount u < 500)%Q) pre /\
    (500 <= ApprovalServer.max_amount t)%Q.
Proof.
  destruct (proj1 (proj2 (proj2 (auto_approval_within_first_tier three_tiers 500%Q None)))
              eq_refl)
    as (pre & t & post & Hsplit & Hpre & Ht & _).
  exists pre, t, post. split; [exact Hsplit | split; [exact Hpre | exact Ht]].
Defined.

Lemma supplier_checks_witness :
  exists s m,
    two_suppliers !! "SUP001" = Some s /\ SupplierServer.max_order_value s = Some m /\
    (5000 <= m)%Q.
Proof.
  destruct (supplier_checks two_suppliers "SUP001" 5000%Q) as (_ & _ & _ & Hcap & _).
  destruct (Hcap eq_refl ltac:(vm_compute; reflexivity)) as (s & m & Hs & Hm & Hle & _).
  exists s, m. split; [exact Hs | split; [exact Hm | exact Hle]].
Defined.

Lemma listed_suppliers_are_valid_witness :
  exists listed,
    SupplierServer.list_approved_suppliers two_suppliers None = Ok (1%nat, listed) /\
    is_Some (listed !! "SUP001") /\
    SupplierServer.valid (SupplierServer.validate_supplier two_suppliers "SUP001") = true.
Proof.
  destruct (SupplierServer.list_approved_suppliers two_suppliers None)
    as [[count listed]|e] eqn:E; [|vm_compute in E; discriminate E].
  destruct (proj1 (listed_suppliers_are_valid two_suppliers None) count listed E)
    as (Hcount & Hlisted & Hvalid).
  assert (Hin : is_Some (listed !! "SUP001")).
  { apply Hlisted. eexists. split; [vm_compute; reflexivity|].
    split; vm_compute; reflexivity. }
  exists listed. split.
  - f_equal. f_equal. vm_compute in E. injection E as <- _. reflexivity.
  - split; [exact Hin|]. destruct Hin as [entry Hentry].
    exact (proj1 (Hvalid "SUP001" entry Hentry)).
Defined.

(** ** The two pricing tools side by side *)

Section PricingFacts.
Import Payment.

(** X28.  With the environment complete, [recommend_payment_plan]
    follows [calculate_base_payment] on the same arguments.  Where
    the base payment is refused (reference not resolved, order not in
    the table, no header), the plan is refused with the same error;
    where it fails on an exception, the plan fails on that exception;
    where it succeeds, the plan either repeats its order, supplier,
    currency, rate and totals, or fails on an exception of the risk
    queries. *)
Theorem plan_follows_base_payment {F : Type} `{PyNum F} (missing : list string)
    (db : Db F) (po_ref : PoRef) (supplier_id : option string) :
  missing = [] ->
  match calculate_base_payment db po_ref supplier_id with
  | Success base =>
      (exists plan, recommend_payment_plan missing db po_ref supplier_id = Success plan /\
                    repeats_base plan base) \/
      (exists e, _compute_supplier_risk_score db (b_supplier_id base) = Raise e /\
                 recommend_payment_plan missing db po_ref supplier_id
                 = Error (ToolFailed "recommend_payment_plan" e))
  | Error (ToolFailed _ e) =>
      recommend_payment_plan missing db po_ref supplier_id
      = Error (ToolFailed "recommend_payment_plan" e)
  | Error e => recommend_payment_plan missing db po_ref supplier_id = Error e
  end.
Proof.
  intros ->. unfold calculate_base_payment, recommend_payment_plan. cbn [list_nonempty].
  destruct (_map_request_to_po po_ref supplier_id) as [pid|]; [|reflexivity].
  destruct (pid =? 0); [reflexivity|].
  destruct (_po_exists db pid) as [[|]|e]; [|reflexivity|reflexivity].
  unfold _recommend_payment_plan, res_bind.
  destruct (_compute_base_po_amount db pid) as [[err|base]|e] eqn:Hbase; [| |reflexivity].
  - unfold _compute_base_po_amount, res_bind in Hbase.
    destruct (line_q db pid); [|discriminate].
    destruct (head_q db pid) as [[head|]|]; try discriminate.
    injection Hbase as <-. reflexivity.
  - destruct (_compute_supplier_risk_score db (b_supplier_id base)) as [risk|e].
    + left. eexists. split; [reflexivity|]. unfold repeats_base. cbn.
      repeat split.
      unfold _compute_base_po_amount, res_bind in Hbase.
      destruct (line_q db pid); [|discriminate].
      destruct (head_q db pid) as [[head|]|]; try discriminate.
      injection Hbase as <-. reflexivity.
    + right. exists e. split; reflexivity.
Qed.

End PricingFacts.

Lemma plan_follows_base_payment_witness :
  exists base plan,
    @Payment.calculate_base_payment spec_float B64.num (history_db B64.dec)
      (Payment.RefStr "PO-20250821093000") (Some "sup002") = Payment.Success base /\
    @Payment.recommend_payment_plan spec_float B64.num [] (history_db B64.dec)
      (Payment.RefStr "PO-20250821093000") (Some "sup002") = Payment.Success plan /\
    repeats_base plan base.
Proof.
  pose proof (@plan_follows_base_payment spec_float B64.num [] (history_db B64.dec)
                (Payment.RefStr "PO-20250821093000") (Some "sup002") eq_refl) as H.
  destruct (@Payment.calculate_base_payment spec_float B64.num (history_db B64.dec)
              (Payment.RefStr "PO-20250821093000") (Some "sup002")) as [err|base] eqn:E.
  - exfalso. vm_compute in E. discriminate E.
  - destruct H as [(plan & Hp & Hr)|(e & He & _)].
    + exists base, plan. split; [reflexivity|]. split; assumption.
    + exfalso. vm_compute in E. injection E as <-. vm_compute in He. discriminate He.
Defined.

(** ** The payment stage and the payment server *)

Section PaymentStageFacts.
Import Workflow.
Context {World Tool : Type} (B : Builtins) (C : Collab World Tool).

Lemma plan_dict_policy (plan : Payment.Plan) :
  py_subscript (plan_dict plan) "policy" = Ok (policy_dict (Payment.policy plan)).
Proof. vm_compute. reflexivity. Qed.

Lemma plan_dict_amounts (plan : Payment.Plan) :
  py_subscript (plan_dict plan) "amounts" = Ok (amounts_dict plan).
Proof. vm_compute. reflexivity. Qed.

Lemma policy_dict_upfront (p : Payment.Policy) :
  py_subscript (policy_dict p) "upfront_percent" = Ok (PyFloat (Payment.upfront_percent p)).
Proof. vm_compute. reflexivity. Qed.

Lemma policy_dict_band (p : Payment.Policy) :
  py_subscript (policy_dict p) "band" = Ok (PyStr (Payment.band_name (Payment.band p))).
Proof. vm_compute. reflexivity. Qed.

Lemma amounts_dict_upfront (plan : Payment.Plan) :
  py_subscript (amounts_dict plan) "upfront_amount" = Ok (PyFloat (Payment.upfront_amount plan)).
Proof. vm_compute. reflexivity. Qed.

Lemma amounts_dict_balance (plan : Payment.Plan) :
  py_subscript (amounts_dict plan) "balance_amount" = Ok (PyFloat (Payment.balance_amount plan)).
Proof. vm_compute. reflexivity. Qed.

Lemma plan_dict_no_error (plan : Payment.Plan) :
  py_get (plan_dict plan) "error" PyNone = Ok PyNone.
Proof. vm_compute. reflexivity. Qed.

Lemma error_dict_error (message : string) :
  py_get (error_dict message) "error" PyNone = Ok (PyBool true).
Proof. vm_compute. reflexivity. Qed.

Lemma error_dict_message (message : string) :
  py_get (error_dict message) "message" PyNone = Ok (PyStr message).
Proof. vm_compute. reflexivity. Qed.

(** The audit message of the payment stage on a plan of the server. *)
Lemma describe_plan_of_server (plan : Payment.Plan) (pct up bal : string)
    (s : World * POWorkflowState) :
  py_format B (PyFloat (Payment.upfront_percent (Payment.policy plan))) ".2f" = Ok pct ->
  py_format B (PyFloat (Payment.upfront_amount plan)) ",.2f" = Ok up ->
  py_format B (PyFloat (Payment.balance_amount plan)) ",.2f" = Ok bal ->
  describe_plan B (plan_dict plan) s
  = (Norm tt,
     (fst s,
      set_messages
        (messages (snd s)
         ++ [SystemMessage
               ("Payment plan: " ++ pct ++ "% upfront ($" ++ up ++ "), balance $"
                ++ bal ++ " [" ++ Payment.band_name (Payment.band (Payment.policy plan))
                ++ " risk]")%string])
        (snd s))).
Proof.
  intros Hpct Hup Hbal. unfold describe_plan, format_currency.
  rewrite !plan_dict_policy, !plan_dict_amounts.
  cbv [bind lift_res ret].
  rewrite policy_dict_upfront, amounts_dict_upfront, amounts_dict_balance, policy_dict_band.
  rewrite Hpct, Hup, Hbal. reflexivity.
Qed.

(** X29.  The payment stage reads the reply of [recommend_payment_plan]
    by the names the payment server writes.  With a [po_id] in the
    state, a supplier in the request and the tool listed and
    answering, the stage does not raise.  On an error reply it decides
    ERROR with the reason "Payment plan error: " and the message of
    the server, logs the reason and stores no plan.  On a plan it
    stores the plan, leaves the decision and the errors alone and
    appends one message with the upfront percentage, the two amounts
    and the band of the plan.  Either way [payment_attempted] is set
    and nothing else changes. *)
Theorem payment_stage_reads_the_reply (w w1 w2 : World) (state : POWorkflowState)
    (tools : gmap string Tool) (tool : Tool) (raw : PyVal)
    (r : Payment.Reply (Payment.Plan (F := spec_float))) :
  str_truthy (po_id state) = true ->
  truthy (get_or (po_request state) "supplier_id" PyNone) = true ->
  get_tools_safe C "payment" (w, state) = (Norm (ToolsDict tools), (w1, state)) ->
  tools !! "recommend_payment_plan" = Some tool ->
  ainvoke C tool
    (dict_of [("po_id", opt_str (po_id state));
              ("supplier_id", get_or (po_request state) "supplier_id" PyNone)]) w1
  = (Ok raw, w2) ->
  _handle_tool_response B raw "recommend_payment_plan" = reply_dict r ->
  formats_floats B ->
  exists state',
    run_handler (calculate_payment B C) w state = (None, (w2, state')) /\
    match r with
    | Payment.Error e =>
        let reason := ("Payment plan error: " ++ Payment.error_message e)%string in
        state'
        = set_payment_attempted (Some true)
            (set_errors (errors state ++ [reason])
               (set_decision_reason (Some reason)
                  (set_final_decision (Some "ERROR") state)))
    | Payment.Success plan =>
        exists pct up bal,
          py_format B (PyFloat (Payment.upfront_percent (Payment.policy plan))) ".2f" = Ok pct /\
          py_format B (PyFloat (Payment.upfront_amount plan)) ",.2f" = Ok up /\
          py_format B (PyFloat (Payment.balance_amount plan)) ",.2f" = Ok bal /\
          state'
          = set_payment_attempted (Some true)
              (set_messages
                 (messages state
                  ++ [SystemMessage
                        ("Payment plan: " ++ pct ++ "% upfront ($" ++ up ++ "), balance $"
                         ++ bal ++ " ["
                         ++ Payment.band_name (Payment.band (Payment.policy plan))
                         ++ " risk]")%string])
                 (set_payment_plan (Some (plan_entries plan)) state))
    end.
Proof.
  destruct (po_id state) as [pid|] eqn:Epid; [|discriminate].
  intros Hpid Hsup Htools Htool Hcall Hreply Hfmt.
  unfold calculate_payment, run_handler, try_finally, try_except, state_item.
  cbv [bind get_state]. cbn [snd fst]. rewrite Epid. cbv [ret].
  unfold calculate_payment_body. cbv [bind]. rewrite Htools.
  cbv [tools_get ret]. rewrite Htool. cbv [get_state]. cbn [snd fst].
  rewrite Epid, Hpid. cbn [opt_str truthy]. cbn [str_truthy] in Hpid. rewrite Hpid, Hsup.
  cbn [negb]. cbn [opt_str] in Hcall. cbv [call]. cbn [snd fst]. rewrite Hcall, Hreply.
  destruct r as [e|plan]; cbn [reply_dict].
  - rewrite error_dict_error. cbv [lift_res ret]. cbn [truthy].
    cbv [decide_ modify]. cbn [fst snd]. rewrite error_dict_message.
    cbv [lift_res ret explain append_error modify return_state]. cbn [fst snd fstr].
    eexists. split; reflexivity.
  - rewrite plan_dict_no_error. cbv [lift_res ret]. cbn [truthy].
    cbn [plan_dict as_dict]. cbv [modify]. cbn [fst snd].
    destruct (Hfmt (Payment.upfront_percent (Payment.policy plan)) ".2f") as [pct Hpct];
      [left; reflexivity|].
    destruct (Hfmt (Payment.upfront_amount plan) ",.2f") as [up Hup]; [right; reflexivity|].
    destruct (Hfmt (Payment.balance_amount plan) ",.2f") as [bal Hbal]; [right; reflexivity|].
    change (PyDict (plan_entries plan)) with (plan_dict plan).
    rewrite (describe_plan_of_server plan pct up bal _ Hpct Hup Hbal).
    cbn [fst snd]. eexists. split; [reflexivity|].
    exists pct, up, bal. repeat split; assumption.
Qed.

End PaymentStageFacts.

Lemma scenario_formats_floats : formats_floats scenario_builtins.
Proof. intros f spec [-> | ->]; destruct f; eexists; reflexivity. Qed.

Lemma payment_stage_reads_the_reply_witness :
  exists plan state',
    @Payment.recommend_payment_plan spec_float B64.num [] (history_db B64.dec)
      (Payment.RefStr "PO-20250822151755") (Some "SUP001") = Payment.Success plan /\
    Workflow.run_handler
      (Workflow.calculate_payment scenario_builtins (scenario_collab priced_by_server)) tt
      (after priced_by_server Workflow.N_validate_request laptop_state)
    = (None, (tt, state')) /\
    Workflow.payment_plan state' = Some (plan_entries plan) /\
    Workflow.final_decision state' = Some EmptyString.
Proof.
  eexists.
  lazymatch goal with
  | |- exists _, _ = Payment.Success ?p /\ _ =>
      refine (let H := payment_stage_reads_the_reply scenario_builtins
                         (scenario_collab priced_by_server) tt tt tt
                         (after priced_by_server Workflow.N_validate_request laptop_state)
                         (Workflow.tool_dict_of
                            (map tool_named
                               ["calculate_base_payment"; "compute_supplier_risk";
                                "recommend_payment_plan";
                                "recommend_payment_plan_by_supplier"; "explain_policy"]))
                         "recommend_payment_plan"
                         (reply_dict (Payment.Success p))
                         (Payment.Success p) _ _ _ _ _ _ scenario_formats_floats in _)
  end.
  destruct H as (state' & Hrun & pct & up & bal & _ & _ & _ & ->).
  eexists. split; [vm_compute; reflexivity|]. split; [exact Hrun|].
  split; vm_compute; reflexivity.
  Unshelve.
  all: vm_compute; reflexivity.
Defined.
